(** * OpenCSGRenderer: a shallow embedding of src/glview/preview/OpenCSGRenderer.cc

    The renderer draws a tree of CSG products either by walking the tree
    every frame (the immediate path) or by replaying vertex states that
    [prepare] recorded once (the buffer-build path).  Both paths talk to
    the graphics context and to the OpenCSG compositor; here every such
    call is an [Event] and a run of the code is the list of events it
    issues, in order.

    Conventions.
    - [float] channels are rationals; the only test the code makes on them
      is [color[3] == 1.0f].
    - [GL_TRACE], [GL_CHECKD] and [PRINTD] only log; they issue no event.
    - [assert(false && ...)] aborts the run: [Abort].
    - The file is read with [ENABLE_OPENCSG] defined.
    - Methods of the base class and of the vertex-array helpers are not
      part of this file; an [Env] record carries them. *)

From Stdlib Require String.
From Stdlib Require Import ZArith NArith QArith Bool Lia PeanoNat List.
Import ListNotations.
Local Open Scope list_scope.
Local Open Scope nat_scope.

Set Implicit Arguments.

(** ** Data handed in by the product tree *)

Record Color4f := mkColor4f { c_r : Q; c_g : Q; c_b : Q; c_a : Q }.

(** [color[3] == 1.0f] *)
Definition is_opaque (c : Color4f) : bool := Qeq_bool (c_a c) 1.

(** A [Transform3d] is read through [data()]: sixteen numbers. *)
Definition Transform3d := list Q.

Record PolySet := mkPolySet { ps_convexity : nat; ps_mesh : N }.

(** [leaf->geom] points to a [Geometry]; only a [PolySet] can be drawn. *)
Inductive Geometry :=
| GeomPolySet (ps : PolySet)
| GeomOther (convexity : nat).

Definition getConvexity (g : Geometry) : nat :=
  match g with
  | GeomPolySet ps => ps_convexity ps
  | GeomOther k => k
  end.

Record CSGLeaf := mkLeaf {
  geom : option Geometry;
  matrix : Transform3d;
  color : Color4f;
  index : N
}.

Record CSGChainObject := mkChainObject { leaf : CSGLeaf }.

Record CSGProduct := mkProduct {
  intersections : list CSGChainObject;
  subtractions : list CSGChainObject
}.

Record CSGProducts := mkProducts { products : list CSGProduct }.

(** [dynamic_cast<const PolySet *>(csgobj.leaf->geom.get())] *)
Definition as_PolySet (og : option Geometry) : option PolySet :=
  match og with
  | Some (GeomPolySet ps) => Some ps
  | _ => None
  end.

(** ** Enumerations *)

Inductive Operation := Intersection | Subtraction.
Inductive OpenSCADOperator := UNION | INTERSECTION | DIFFERENCE.
Inductive ColorMode := NONE | MATERIAL | CUTOUT | HIGHLIGHT | BACKGROUND.
Inductive csgmode_e := CSGMODE_NONE | CSGMODE (code : nat).
Inductive shader_type_t := EDGE_RENDERING | SELECT_RENDERING | OTHER_RENDERING.

Record shaderinfo_t := mkShaderInfo {
  progid : N;
  type : shader_type_t;
  select_identifier : Z
}.

Inductive GLcap := GL_CULL_FACE.
Inductive GLface := GL_FRONT | GL_BACK.
Inductive GLfunc := GL_EQUAL | GL_LEQUAL.
Inductive GLtarget := GL_ARRAY_BUFFER | GL_ELEMENT_ARRAY_BUFFER.

(** ** Vertex states *)

(** The closures kept in [glBegin()] and [glEnd()].  The four lambdas that
    [createCSGProducts] writes are named; closures attached elsewhere are
    opaque. *)
Inductive Closure :=
| fn_enable_cull
| fn_cull_front
| fn_cull_back
| fn_disable_cull
| fn_external (tag : N).

(** The dynamic class of a vertex state, as the two [dynamic_pointer_cast]s
    see it. *)
Inductive VSClass :=
| PlainVertexState
| OpenCSGVertexState (csgObjectIndex : N)
| VBOShaderVertexState.

Record VertexState := mkVertexState {
  vs_class : VSClass;
  drawMode : N;
  drawSize : N;
  drawType : N;
  drawOffset : N;
  elementOffset : N;
  verticesVBO : N;
  elementsVBO : N;
  glBegin : list Closure;
  glEnd : list Closure
}.

(** [std::make_shared<VertexState>()] *)
Definition VertexState_new : VertexState :=
  mkVertexState PlainVertexState 0 0 0 0 0 0 0 [] [].

Definition with_glBegin (vs : VertexState) (fs : list Closure) : VertexState :=
  mkVertexState (vs_class vs) (drawMode vs) (drawSize vs) (drawType vs)
    (drawOffset vs) (elementOffset vs) (verticesVBO vs) (elementsVBO vs)
    fs (glEnd vs).

Definition with_glEnd (vs : VertexState) (fs : list Closure) : VertexState :=
  mkVertexState (vs_class vs) (drawMode vs) (drawSize vs) (drawType vs)
    (drawOffset vs) (elementOffset vs) (verticesVBO vs) (elementsVBO vs)
    (glBegin vs) fs.

(** [std::dynamic_pointer_cast<OpenCSGVertexState>(vs)]: the state itself
    when it is one, null otherwise. *)
Definition as_OpenCSGVertexState (vs : VertexState) : option N :=
  match vs_class vs with
  | OpenCSGVertexState i => Some i
  | _ => None
  end.

Definition is_shader_state (vs : VertexState) : bool :=
  match vs_class vs with
  | VBOShaderVertexState => true
  | _ => false
  end.

(** [surface->csgObjectIndex(i)] on a state already known to be an
    [OpenCSGVertexState]. *)
Definition set_csgObjectIndex (i : N) (vs : VertexState) : VertexState :=
  mkVertexState
    (match vs_class vs with
     | OpenCSGVertexState _ => OpenCSGVertexState i
     | k => k
     end)
    (drawMode vs) (drawSize vs) (drawType vs)
    (drawOffset vs) (elementOffset vs) (verticesVBO vs) (elementsVBO vs)
    (glBegin vs) (glEnd vs).

(** ** Primitives *)

(** [class OpenCSGPrim] *)
Record OpenCSGPrim := mkPrim {
  prim_operation : Operation;
  prim_convexity : nat;
  prim_geom : option PolySet;
  prim_m : Transform3d;
  prim_csgmode : csgmode_e
}.

(** [class OpenCSGVBOPrim] *)
Record OpenCSGVBOPrim := mkVBOPrim {
  vprim_operation : Operation;
  vprim_convexity : nat;
  vprim_vertex_state : VertexState
}.

(** [class OpenCSGVBOProduct]: the retained primitives and states. *)
Record OpenCSGVBOProduct := mkVBOProduct {
  vp_primitives : list OpenCSGVBOPrim;
  vp_states : list VertexState
}.

(** ** Events *)

Inductive Event :=
| glGenBuffers (n : nat)
| glBindBuffer (target : GLtarget) (buffer : N)
| glEnable (cap : GLcap)
| glDisable (cap : GLcap)
| glCullFace (face : GLface)
| glDepthFunc (func : GLfunc)
| glUseProgram (program : N)
| glUniform3f (location : Z) (x y z : Q)
| glPushMatrix
| glMultMatrixd (m : Transform3d)
| glPopMatrix
| OpenCSG_render (prims : list OpenCSGPrim)
| OpenCSG_render_vbo (prims : list OpenCSGVBOPrim)
| call_render_surface (ps : PolySet) (csgmode : csgmode_e) (m : Transform3d)
                      (shaderinfo : option shaderinfo_t)
| call_setColor (colormode : ColorMode) (c : Color4f)
                (shaderinfo : option shaderinfo_t)
| call_shader_attribs_enable
| call_shader_attribs_disable
| run_external (tag : N)
| draw_range (vs : VertexState)
| new_VertexArray (vbo : N)
| call_addSurfaceData
| call_writeSurface
| call_add_shader_data
| call_initializeSize (num_vertices : nat) (vbo_index : nat)
| call_addColor (c : Color4f)
| call_create_surface (ps : PolySet) (csgmode : csgmode_e) (m : Transform3d)
                      (c : Color4f)
| call_createInterleavedVBOs.

Definition run_closure (f : Closure) : list Event :=
  match f with
  | fn_enable_cull => [glEnable GL_CULL_FACE]
  | fn_cull_front => [glCullFace GL_FRONT]
  | fn_cull_back => [glCullFace GL_BACK]
  | fn_disable_cull => [glDisable GL_CULL_FACE]
  | fn_external t => [run_external t]
  end.

(** Modelled from the spec: [VertexState::draw] belongs to the vertex-array
    helper, which is not part of this file.  A vertex state is replayed by
    "executing [the] entry's pre-draw callbacks, its draw call, and its
    post-draw callbacks"; the draw call covers the state's range and shows
    nothing when that range is empty. *)
Definition VertexState_draw (vs : VertexState) : list Event :=
  flat_map run_closure (glBegin vs) ++ [draw_range vs]
  ++ flat_map run_closure (glEnd vs).

(** ** What the code calls but does not define *)

(** A vertex state as the vertex-array helpers hand it over.  Its closures
    are written there, not here: each is known by a tag only. *)
Record Recorded := mkRecorded {
  rec_class : VSClass;
  rec_mode : N;
  rec_size : N;
  rec_type : N;
  rec_offset : N;
  rec_element_offset : N;
  rec_vertices : N;
  rec_elements : N;
  rec_begin : list N;
  rec_end : list N
}.

Definition state_of (r : Recorded) : VertexState :=
  mkVertexState (rec_class r) (rec_mode r) (rec_size r) (rec_type r)
    (rec_offset r) (rec_element_offset r) (rec_vertices r) (rec_elements r)
    (map fn_external (rec_begin r)) (map fn_external (rec_end r)).

Record Features := mkFeatures {
  ExperimentalVxORenderers : bool;
  ExperimentalVxORenderersIndexing : bool;
  ExperimentalVxORenderersDirect : bool;
  ExperimentalVxORenderersPrealloc : bool
}.

(** - [get_csgmode h b t]: [t = None] is the call with two arguments.
    - [setColor] returns the colour it applied.
    - [getShaderColor] returns [None] when it answers [false] and leaves
      its out-parameter alone.
    - [Color4f_new] is what a default-constructed [Color4f] holds.
    - [create_surface] and [vsm_addColor] return the states they append to
      the vertex-state list they are given.
    - [vsm_initializeSize] returns the value of [vbo_index] after the
      call. *)
Record Env := mkEnv {
  get_csgmode : bool -> bool -> option OpenSCADOperator -> csgmode_e;
  setColor : ColorMode -> Color4f -> option shaderinfo_t -> Color4f;
  getShaderColor : ColorMode -> Color4f -> option Color4f;
  getShader : shaderinfo_t;
  Color4f_new : Color4f;
  getSurfaceBufferSize :
    CSGChainObject -> bool -> bool -> OpenSCADOperator -> nat;
  create_surface :
    list VertexState -> PolySet -> csgmode_e -> Transform3d -> Color4f ->
    list Recorded;
  vsm_addColor : list VertexState -> Color4f -> list Recorded;
  vsm_initializeSize : nat -> list N -> nat -> nat
}.

(** ** Runs that may abort *)

Inductive Result (A : Type) :=
| Ok (a : A)
| Abort (msg : String.string).
Arguments Abort {A} msg.

Definition bind {A B} (r : Result A) (k : A -> Result B) : Result B :=
  match r with
  | Ok a => k a
  | Abort m => Abort m
  end.

Notation "x <- r ;; k" := (bind r (fun x => k))
  (at level 61, r at next level, right associativity).

(** The messages of the two assertions. *)
Module Messages.
Import String.
Local Open Scope string_scope.
Definition intersection_surface_null : string :=
  "Intersection surface state was nullptr".
Definition subtraction_surface_null : string :=
  "Subtraction surface state was nullptr".
End Messages.
Import Messages.

(** A [for] loop whose body may abort. *)
Fixpoint for_each {S A} (body : S -> A -> Result S) (s : S) (l : list A)
  : Result S :=
  match l with
  | [] => Ok s
  | a :: l' => s' <- body s a ;; for_each body s' l'
  end.

(** ** The renderer *)

Record OpenCSGRenderer := mkRenderer {
  root_products : option CSGProducts;
  highlights_products : option CSGProducts;
  background_products : option CSGProducts;
  all_vbos_ : list N;
  vbo_vertex_products : list OpenCSGVBOProduct
}.

(** The renderer together with the one piece of the graphics context that
    [glGenBuffers] reads: how many buffer names were handed out so far. *)
Record World := mkWorld {
  self : OpenCSGRenderer;
  gl_names : N
}.

(** [std::vector::resize]: new slots are zero. *)
Definition vector_resize (n : nat) (v : list N) : list N :=
  firstn n v ++ repeat 0%N (n - length v).

(** The [n] names that [glGenBuffers] hands out after [k] earlier ones. *)
Definition fresh_names (k : N) (n : nat) : list N :=
  map (fun i => (k + 1 + N.of_nat i)%N) (seq 0 n).

(** [glGenBuffers(n, v.data())] overwrites the first [n] slots of [v]. *)
Definition write_names (names : list N) (v : list N) : list N :=
  names ++ skipn (length names) v.

(** [int identifier = csgobj.leaf->index]: 32-bit two's complement. *)
Definition to_int (z : Z) : Z := ((z + 2 ^ 31) mod 2 ^ 32 - 2 ^ 31)%Z.

(** [((identifier >> k) & 0xff) / 255.0f] *)
Definition channel (identifier : Z) (k : Z) : Q :=
  Qmake (Z.land (Z.shiftr identifier k) 255) 255.

Definition colormode_of (highlight_mode background_mode : bool)
  (otherwise : ColorMode) : ColorMode :=
  if highlight_mode then HIGHLIGHT
  else if background_mode then BACKGROUND
  else otherwise.

Definition cull_front_state : VertexState :=
  with_glBegin VertexState_new [fn_enable_cull; fn_cull_front].

Definition cull_back_state : VertexState :=
  with_glBegin VertexState_new [fn_cull_back].

Definition cull_off_state : VertexState :=
  with_glEnd VertexState_new [fn_disable_cull].

(** [createVBOPrimitive]: a plain copy of the surface's draw range with its
    first two [glBegin] entries and its first [glEnd] entry.  (The source
    copies iterator ranges of fixed length; a shorter list is outside its
    contract and [firstn] takes what is there.) *)
Definition createVBOPrimitive (vertex_state : VertexState)
  (operation : Operation) (convexity : nat) : OpenCSGVBOPrim :=
  let opencsg_vs :=
    mkVertexState PlainVertexState
      (drawMode vertex_state) (drawSize vertex_state)
      (drawType vertex_state) (drawOffset vertex_state)
      (elementOffset vertex_state) (verticesVBO vertex_state)
      (elementsVBO vertex_state)
      (firstn 2 (glBegin vertex_state))
      (firstn 1 (glEnd vertex_state)) in
  mkVBOPrim operation convexity opencsg_vs.

(** [OpenCSGVBOPrim::render]; the state it owns is never null. *)
Definition OpenCSGVBOPrim_render (p : OpenCSGVBOPrim) : list Event :=
  VertexState_draw (vprim_vertex_state p).

(** [OpenCSGPrim::render] *)
Definition OpenCSGPrim_render (p : OpenCSGPrim) : list Event :=
  match prim_geom p with
  | Some ps =>
      [glPushMatrix; glMultMatrixd (prim_m p);
       call_render_surface ps (prim_csgmode p) (prim_m p) None;
       glPopMatrix]
  | None => []
  end.

(** The state of one turn of the product loop in [createCSGProducts]. *)
Record BuildState := mkBuild {
  last_color : Color4f;
  vertex_states : list VertexState;
  primitives : list OpenCSGVBOPrim;
  trace : list Event
}.

Definition emplace_state (vs : VertexState) (st : BuildState) : BuildState :=
  mkBuild (last_color st) (vertex_states st ++ [vs]) (primitives st)
    (trace st).

Definition emplace_prim (p : OpenCSGVBOPrim) (st : BuildState) : BuildState :=
  mkBuild (last_color st) (vertex_states st) (primitives st ++ [p])
    (trace st).

(** [vertex_states->back()]; on an empty vector the source has no defined
    answer and the model gives none. *)
Definition back (l : list VertexState) : option VertexState :=
  match rev l with
  | [] => None
  | vs :: _ => Some vs
  end.

(** The [surface] pointer after the cast: the last state when it is an
    [OpenCSGVertexState]. *)
Definition surface_of (l : list VertexState) : option VertexState :=
  match back l with
  | Some vs =>
      match as_OpenCSGVertexState vs with
      | Some _ => Some vs
      | None => None
      end
  | None => None
  end.

(** [surface->csgObjectIndex(i)]: the write goes through the shared
    pointer, so it lands on the last entry of the list. *)
Definition tag_back (i : N) (l : list VertexState) : list VertexState :=
  match rev l with
  | [] => []
  | vs :: r => rev r ++ [set_csgObjectIndex i vs]
  end.

Definition set_states (l : list VertexState) (st : BuildState) : BuildState :=
  mkBuild (last_color st) l (primitives st) (trace st).

Definition set_last_color (c : Color4f) (st : BuildState) : BuildState :=
  mkBuild c (vertex_states st) (primitives st) (trace st).

Section Code.

Variable F : Features.
Variable E : Env.

(** *** Immediate path *)

(** [createCSGPrimitive], for a leaf whose [geom] pointer is [g]. *)
Definition createCSGPrimitive (csgobj : CSGChainObject) (g : Geometry)
  (operation : Operation) (highlight_mode background_mode : bool)
  (ty : OpenSCADOperator) : OpenCSGPrim :=
  mkPrim operation (getConvexity g) (as_PolySet (Some g))
    (matrix (leaf csgobj))
    (get_csgmode E highlight_mode background_mode (Some ty)).

(** [if (csgobj.leaf->geom) primitives.push_back(createCSGPrimitive(...))] *)
Definition push_primitive (operation : Operation)
  (highlight_mode background_mode : bool) (ty : OpenSCADOperator)
  (csgobj : CSGChainObject) : list OpenCSGPrim :=
  match geom (leaf csgobj) with
  | Some g =>
      [createCSGPrimitive csgobj g operation highlight_mode background_mode ty]
  | None => []
  end.

Definition immediate_primitives (highlight_mode background_mode : bool)
  (product : CSGProduct) : list OpenCSGPrim :=
  flat_map (push_primitive Intersection highlight_mode background_mode
              INTERSECTION) (intersections product)
  ++ flat_map (push_primitive Subtraction highlight_mode background_mode
                 DIFFERENCE) (subtractions product).

Definition is_edge (si : shaderinfo_t) : bool :=
  match type si with EDGE_RENDERING => true | _ => false end.

Definition is_select (si : shaderinfo_t) : bool :=
  match type si with SELECT_RENDERING => true | _ => false end.

Definition select_uniform (shaderinfo : option shaderinfo_t)
  (identifier : Z) : list Event :=
  match shaderinfo with
  | Some si =>
      if is_select si then
        [glUniform3f (select_identifier si) (channel identifier 0)
           (channel identifier 8) (channel identifier 16)]
      else []
  | None => []
  end.

(** Body of the loop over [product.intersections], lines 359-400. *)
Definition render_intersection (shaderinfo : option shaderinfo_t)
  (highlight_mode background_mode : bool) (csgobj : CSGChainObject)
  : list Event :=
  match as_PolySet (geom (leaf csgobj)) with
  | None => []
  | Some ps =>
      let c := color (leaf csgobj) in
      let csgmode := get_csgmode E highlight_mode background_mode None in
      let colormode := colormode_of highlight_mode background_mode MATERIAL in
      let m := matrix (leaf csgobj) in
      let resolved := setColor E colormode c shaderinfo in
      let surface := call_render_surface ps csgmode m shaderinfo in
      select_uniform shaderinfo (to_int (Z.of_N (index (leaf csgobj))))
      ++ [glPushMatrix; glMultMatrixd m; call_setColor colormode c shaderinfo]
      ++ (if is_opaque resolved then [surface]
          else [glEnable GL_CULL_FACE; glCullFace GL_FRONT; surface;
                glCullFace GL_BACK; surface; glDisable GL_CULL_FACE])
      ++ [glPopMatrix]
  end.

(** Body of the loop over [product.subtractions], lines 401-427. *)
Definition render_subtraction (shaderinfo : option shaderinfo_t)
  (highlight_mode background_mode : bool) (csgobj : CSGChainObject)
  : list Event :=
  match as_PolySet (geom (leaf csgobj)) with
  | None => []
  | Some ps =>
      let c := color (leaf csgobj) in
      let csgmode :=
        get_csgmode E highlight_mode background_mode (Some DIFFERENCE) in
      let colormode := colormode_of highlight_mode background_mode CUTOUT in
      let m := matrix (leaf csgobj) in
      [call_setColor colormode c shaderinfo; glPushMatrix; glMultMatrixd m;
       glEnable GL_CULL_FACE; glCullFace GL_FRONT;
       call_render_surface ps csgmode m shaderinfo;
       glDisable GL_CULL_FACE; glPopMatrix]
  end.

(** One turn of the product loop of the immediate branch, lines 340-432. *)
Definition render_product (showedges : bool)
  (shaderinfo : option shaderinfo_t) (highlight_mode background_mode : bool)
  (product : CSGProduct) : list Event :=
  let prims := immediate_primitives highlight_mode background_mode product in
  (if 1 <? length prims then [OpenCSG_render prims; glDepthFunc GL_EQUAL]
   else [])
  ++ match shaderinfo with
     | Some si =>
         if (progid si =? 0)%N then []
         else if negb (is_edge si) || (is_edge si && showedges)
              then [glUseProgram (progid si)]
              else []
     | None => []
     end
  ++ flat_map (render_intersection shaderinfo highlight_mode background_mode)
       (intersections product)
  ++ flat_map (render_subtraction shaderinfo highlight_mode background_mode)
       (subtractions product)
  ++ match shaderinfo with Some _ => [glUseProgram 0] | None => [] end
  ++ [glDepthFunc GL_LEQUAL].

(** *** Replay of the retained states *)

(** Body of the loop over [product->states()], lines 450-470.  Entries of
    the list are never null: every [emplace_back] in [createCSGProducts]
    pushes a fresh or a checked pointer. *)
Definition replay_state (showedges : bool) (shaderinfo : option shaderinfo_t)
  (vs : VertexState) : list Event :=
  match as_OpenCSGVertexState vs with
  | Some i => select_uniform shaderinfo (Z.of_N i)
  | None => []
  end
  ++ (if negb (is_shader_state vs) || (showedges && is_shader_state vs)
      then VertexState_draw vs
      else []).

(** One turn of the product loop of the buffer branch, lines 434-482. *)
Definition render_vbo_product (showedges : bool)
  (shaderinfo : option shaderinfo_t) (product : OpenCSGVBOProduct)
  : list Event :=
  (if 1 <? length (vp_primitives product)
   then [OpenCSG_render_vbo (vp_primitives product); glDepthFunc GL_EQUAL]
   else [])
  ++ match shaderinfo with
     | Some si =>
         if (progid si =? 0)%N then []
         else glUseProgram (progid si)
              :: (if is_edge si && showedges
                  then [call_shader_attribs_enable] else [])
     | None => []
     end
  ++ flat_map (replay_state showedges shaderinfo) (vp_states product)
  ++ match shaderinfo with
     | Some si =>
         if (progid si =? 0)%N then []
         else glUseProgram 0
              :: (if is_edge si && showedges
                  then [call_shader_attribs_disable] else [])
     | None => []
     end
  ++ [glDepthFunc GL_LEQUAL].

(** [renderCSGProducts] *)
Definition renderCSGProducts (r : OpenCSGRenderer) (prods : CSGProducts)
  (showedges : bool) (shaderinfo : option shaderinfo_t)
  (highlight_mode background_mode : bool) : list Event :=
  if negb (ExperimentalVxORenderers F) then
    flat_map (render_product showedges shaderinfo highlight_mode
                background_mode) (products prods)
  else
    flat_map (render_vbo_product showedges shaderinfo)
      (vbo_vertex_products r).

Definition when_present {A B} (o : option A) (f : A -> list B) : list B :=
  match o with Some a => f a | None => [] end.

(** [if (!shaderinfo && showedges) shaderinfo = &getShader();] *)
Definition effective_shader (showedges : bool)
  (shaderinfo : option shaderinfo_t) : option shaderinfo_t :=
  match shaderinfo with
  | None => if showedges then Some (getShader E) else None
  | Some si => Some si
  end.

(** [draw] *)
Definition draw (r : OpenCSGRenderer) (showedges : bool)
  (shaderinfo : option shaderinfo_t) : list Event :=
  let shaderinfo := effective_shader showedges shaderinfo in
  if negb (ExperimentalVxORenderers F) then
    when_present (root_products r) (fun p =>
      renderCSGProducts r p showedges shaderinfo false false)
    ++ when_present (background_products r) (fun p =>
      renderCSGProducts r p showedges shaderinfo false true)
    ++ when_present (highlights_products r) (fun p =>
      renderCSGProducts r p showedges shaderinfo true false)
  else
    renderCSGProducts r (mkProducts []) showedges shaderinfo false false.

End Code.

Section Build.

Variable F : Features.
Variable E : Env.

(** *** Buffer-build path *)

(** Lines 205-208 and 279-282.  [color] is the out-parameter, untouched
    when the resolver answers [false]; [last_color] is kept in that case. *)
Definition shader_color (colormode : ColorMode) (c : Color4f) : Color4f :=
  match getShaderColor E colormode c with
  | Some col => col
  | None => Color4f_new E
  end.

Definition next_last_color (colormode : ColorMode) (c : Color4f)
  (last : Color4f) : Color4f :=
  match getShaderColor E colormode c with
  | Some col => col
  | None => last
  end.

(** [vsm.addColor(last_color)] *)
Definition addColor (st : BuildState) : BuildState :=
  mkBuild (last_color st)
    (vertex_states st
     ++ map state_of (vsm_addColor E (vertex_states st) (last_color st)))
    (primitives st)
    (trace st ++ [call_addColor (last_color st)]).

(** The call [create_surface] with the polygon set, the vertex array, the
    mode, the leaf's matrix and [last_color]. *)
Definition do_create_surface (ps : PolySet) (csgmode : csgmode_e)
  (m : Transform3d) (st : BuildState) : BuildState :=
  mkBuild (last_color st)
    (vertex_states st
     ++ map state_of
          (create_surface E (vertex_states st) ps csgmode m (last_color st)))
    (primitives st)
    (trace st ++ [call_create_surface ps csgmode m (last_color st)]).

(** Lines 217-220, 237-241 and 301-304, for a non-null [surface]: write the
    leaf's index into it and keep a primitive made from it. *)
Definition keep_surface (csgobj : CSGChainObject) (g : Geometry)
  (operation : Operation) (surface : VertexState) (st : BuildState)
  : BuildState :=
  let i := index (leaf csgobj) in
  emplace_prim
    (createVBOPrimitive (set_csgObjectIndex i surface) operation
       (getConvexity g))
    (set_states (tag_back i (vertex_states st)) st).

(** Body of the loop over [product.intersections], lines 188-261. *)
Definition build_intersection (highlight_mode background_mode : bool)
  (st : BuildState) (csgobj : CSGChainObject) : Result BuildState :=
  match geom (leaf csgobj) with
  | None => Ok st
  | Some g =>
      match as_PolySet (Some g) with
      | None => Ok st
      | Some ps =>
          let c := color (leaf csgobj) in
          let m := matrix (leaf csgobj) in
          let csgmode := get_csgmode E highlight_mode background_mode None in
          let colormode :=
            colormode_of highlight_mode background_mode MATERIAL in
          let color := shader_color colormode c in
          let st :=
            set_last_color (next_last_color colormode c (last_color st)) st in
          let st := addColor st in
          if is_opaque color then
            let st := do_create_surface ps csgmode m st in
            match surface_of (vertex_states st) with
            | Some surface => Ok (keep_surface csgobj g Intersection surface st)
            | None => Ok st
            end
          else
            let st := emplace_state cull_front_state st in
            let st := do_create_surface ps csgmode m st in
            match surface_of (vertex_states st) with
            | Some surface =>
                let st := keep_surface csgobj g Intersection surface st in
                let st := emplace_state cull_back_state st in
                let st :=
                  emplace_state
                    (set_csgObjectIndex (index (leaf csgobj)) surface) st in
                Ok (emplace_state cull_off_state st)
            | None => Abort intersection_surface_null
            end
      end
  end.

(** Body of the loop over [product.subtractions], lines 263-316. *)
Definition build_subtraction (highlight_mode background_mode : bool)
  (st : BuildState) (csgobj : CSGChainObject) : Result BuildState :=
  match geom (leaf csgobj) with
  | None => Ok st
  | Some g =>
      match as_PolySet (Some g) with
      | None => Ok st
      | Some ps =>
          let c := color (leaf csgobj) in
          let m := matrix (leaf csgobj) in
          let csgmode :=
            get_csgmode E highlight_mode background_mode (Some DIFFERENCE) in
          let colormode := colormode_of highlight_mode background_mode CUTOUT in
          let st :=
            set_last_color (next_last_color colormode c (last_color st)) st in
          let st := addColor st in
          let st := emplace_state cull_front_state st in
          let st := do_create_surface ps csgmode m st in
          match surface_of (vertex_states st) with
          | Some surface =>
              let st := keep_surface csgobj g Subtraction surface st in
              Ok (emplace_state cull_off_state st)
          | None => Abort subtraction_surface_null
          end
      end
  end.

(** Lines 174-184: the size asked of [initializeSize]. *)
Definition surface_size (highlight_mode background_mode : bool)
  (ty : OpenSCADOperator) (csgobj : CSGChainObject) : nat :=
  match geom (leaf csgobj) with
  | Some _ => getSurfaceBufferSize E csgobj highlight_mode background_mode ty
  | None => 0
  end.

Definition count_vertices (highlight_mode background_mode : bool)
  (product : CSGProduct) : nat :=
  let num_vertices :=
    fold_left (fun n o => n + surface_size highlight_mode background_mode
                                INTERSECTION o) (intersections product) 0 in
  fold_left (fun n o => n + surface_size highlight_mode background_mode
                              DIFFERENCE o) (subtractions product)
    num_vertices.

(** State of the loop over [products.products]: [vbo_index], the
    renderer's [vbo_vertex_products], and the events so far. *)
Record CreateState := mkCreate {
  vbo_index : nat;
  built : list OpenCSGVBOProduct;
  issued : list Event
}.

(** Lines 318-325. *)
Definition unbind_buffers : list Event :=
  if ExperimentalVxORenderersDirect F || ExperimentalVxORenderersPrealloc F
  then
    (if ExperimentalVxORenderersIndexing F
     then [glBindBuffer GL_ELEMENT_ARRAY_BUFFER 0] else [])
    ++ [glBindBuffer GL_ARRAY_BUFFER 0]
  else [].

(** Lines 164-172 and 186: the state in which the leaf loops of one
    product start. *)
Definition product_start (vbo : N) (num_vertices vbo_index1 : nat)
  : BuildState :=
  mkBuild (Color4f_new E) [] []
    [new_VertexArray vbo; call_addSurfaceData; call_writeSurface;
     call_add_shader_data; call_initializeSize num_vertices vbo_index1].

(** Lines 188-316: the two leaf loops. *)
Definition build_leaves (highlight_mode background_mode : bool)
  (st : BuildState) (product : CSGProduct) : Result BuildState :=
  st <- for_each (build_intersection highlight_mode background_mode) st
          (intersections product) ;;
  for_each (build_subtraction highlight_mode background_mode) st
    (subtractions product).

(** One turn of the product loop of [createCSGProducts], lines 163-330. *)
Definition build_product (all_vbos : list N)
  (highlight_mode background_mode : bool) (cs : CreateState)
  (product : CSGProduct) : Result CreateState :=
  let vbo := nth (vbo_index cs) all_vbos 0%N in
  let vbo_index1 := S (vbo_index cs) in
  let num_vertices := count_vertices highlight_mode background_mode product in
  let vbo_index2 := vsm_initializeSize E num_vertices all_vbos vbo_index1 in
  st <- build_leaves highlight_mode background_mode
          (product_start vbo num_vertices vbo_index1) product ;;
  Ok (mkCreate vbo_index2
        (built cs ++ [mkVBOProduct (primitives st) (vertex_states st)])
        (issued cs ++ trace st ++ unbind_buffers
         ++ [call_createInterleavedVBOs])).

Definition with_buffers (r : OpenCSGRenderer) (vbos : list N)
  (vps : list OpenCSGVBOProduct) : OpenCSGRenderer :=
  mkRenderer (root_products r) (highlights_products r)
    (background_products r) vbos vps.

(** [createCSGProducts] *)
Definition createCSGProducts (w : World) (prods : CSGProducts)
  (highlight_mode background_mode : bool) : Result (World * list Event) :=
  let vbo_count := length (products prods) in
  let w1 :=
    if vbo_count =? 0 then (w, [])
    else
      let vbo_count :=
        if ExperimentalVxORenderersIndexing F then vbo_count * 2
        else vbo_count in
      (mkWorld
         (with_buffers (self w)
            (write_names (fresh_names (gl_names w) vbo_count)
               (vector_resize vbo_count (all_vbos_ (self w))))
            (vbo_vertex_products (self w)))
         (gl_names w + N.of_nat vbo_count)%N,
       [glGenBuffers vbo_count]) in
  let w := fst w1 in
  cs <- for_each (build_product (all_vbos_ (self w)) highlight_mode
                    background_mode)
          (mkCreate 0 (vbo_vertex_products (self w)) (snd w1))
          (products prods) ;;
  Ok (mkWorld (with_buffers (self w) (all_vbos_ (self w)) (built cs))
        (gl_names w),
      issued cs).

(** A call of [createCSGProducts] on a group that is present, with the
    events added to those of the calls before it. *)
Definition create_if_present (group : option CSGProducts)
  (highlight_mode background_mode : bool) (wt : World * list Event)
  : Result (World * list Event) :=
  match group with
  | Some prods =>
      r <- createCSGProducts (fst wt) prods highlight_mode background_mode ;;
      Ok (fst r, snd wt ++ snd r)
  | None => Ok wt
  end.

(** [prepare] *)
Definition prepare (w : World) (shaderinfo : option shaderinfo_t)
  : Result (World * list Event) :=
  if ExperimentalVxORenderers F
     && (length (vbo_vertex_products (self w)) =? 0)
  then
    wt <- create_if_present (root_products (self w)) false false (w, []) ;;
    wt <- create_if_present (background_products (self (fst wt))) false true
            wt ;;
    create_if_present (highlights_products (self (fst wt))) true false wt
  else Ok (w, []).

End Build.

(** ** Reading a run: observations and the words of the claims *)

Definition is_compositor (e : Event) : bool :=
  match e with
  | OpenCSG_render _ | OpenCSG_render_vbo _ => true
  | _ => false
  end.

Definition is_depth_equal (e : Event) : bool :=
  match e with glDepthFunc GL_EQUAL => true | _ => false end.

Definition is_depth_reset (e : Event) : bool :=
  match e with glDepthFunc GL_LEQUAL => true | _ => false end.

Definition is_culling (e : Event) : bool :=
  match e with
  | glEnable GL_CULL_FACE | glDisable GL_CULL_FACE | glCullFace _ => true
  | _ => false
  end.

Definition is_bind (e : Event) : bool :=
  match e with glBindBuffer _ _ => true | _ => false end.

(** A surface is drawn by a call of [render_surface] in the immediate path
    and by the draw call of an [OpenCSGVertexState] in the replay: that is
    the class the vertex array's factory (line 167) gives to the ranges it
    records. *)
Definition is_surface_draw (e : Event) : bool :=
  match e with
  | call_render_surface _ _ _ _ => true
  | draw_range vs =>
      match vs_class vs with OpenCSGVertexState _ => true | _ => false end
  | _ => false
  end.

Definition count_surfaces (t : list Event) : nat :=
  length (filter is_surface_draw t).

(** The culling changes and surface draws of a run, in order. *)
Definition culling_and_surfaces (t : list Event) : list Event :=
  filter (fun e => is_culling e || is_surface_draw e) t.

(** Events that neither composite nor touch the depth function. *)
Definition leaves_depth_alone (e : Event) : Prop :=
  is_compositor e = false /\ is_depth_equal e = false
  /\ is_depth_reset e = false.

(** Every surface write records exactly one state, of the factory's
    class. *)
Definition records_one_surface (E : Env) : Prop :=
  forall cur ps csgmode m c,
  exists r i,
    create_surface E cur ps csgmode m c = [r]
    /\ rec_class r = OpenCSGVertexState i.

(** The colour states are not surface states. *)
Definition addColor_adds_no_surface (E : Env) : Prop :=
  forall cur c,
    Forall (fun r => as_OpenCSGVertexState (state_of r) = None)
      (vsm_addColor E cur c).

(** The part of a product's immediate run between the compositing step and
    the depth reset. *)
Definition immediate_body (E : Env) (showedges : bool)
  (shaderinfo : option shaderinfo_t) (hl bg : bool) (product : CSGProduct)
  : list Event :=
  match shaderinfo with
  | Some si =>
      if (progid si =? 0)%N then []
      else if negb (is_edge si) || (is_edge si && showedges)
           then [glUseProgram (progid si)]
           else []
  | None => []
  end
  ++ flat_map (render_intersection E shaderinfo hl bg) (intersections product)
  ++ flat_map (render_subtraction E shaderinfo hl bg) (subtractions product)
  ++ match shaderinfo with Some _ => [glUseProgram 0] | None => [] end.

(** The same part of a product's replay. *)
Definition replay_body (showedges : bool) (shaderinfo : option shaderinfo_t)
  (product : OpenCSGVBOProduct) : list Event :=
  match shaderinfo with
  | Some si =>
      if (progid si =? 0)%N then []
      else glUseProgram (progid si)
           :: (if is_edge si && showedges
               then [call_shader_attribs_enable] else [])
  | None => []
  end
  ++ flat_map (replay_state showedges shaderinfo) (vp_states product)
  ++ match shaderinfo with
     | Some si =>
         if (progid si =? 0)%N then []
         else glUseProgram 0
              :: (if is_edge si && showedges
                  then [call_shader_attribs_disable] else [])
     | None => []
     end.

(** What a leaf with a recorded surface [s] leaves in the state list, after
    its colour states: following the three branches of the build loops. *)
Definition leaf_states (operation : Operation) (opaque : bool)
  (s : VertexState) : list VertexState :=
  match operation with
  | Intersection =>
      if opaque then [s]
      else [cull_front_state; s; cull_back_state; s; cull_off_state]
  | Subtraction => [cull_front_state; s; cull_off_state]
  end.

(** What the replay of one leaf's states shows of culling and surfaces. *)
Definition leaf_picture (operation : Operation) (opaque : bool)
  (s : VertexState) : list Event :=
  match operation with
  | Intersection =>
      if opaque then [draw_range s]
      else [glEnable GL_CULL_FACE; glCullFace GL_FRONT; draw_range s;
            glCullFace GL_BACK; draw_range s; glDisable GL_CULL_FACE]
  | Subtraction =>
      [glEnable GL_CULL_FACE; glCullFace GL_FRONT; draw_range s;
       glDisable GL_CULL_FACE]
  end.

Definition base_colormode (operation : Operation) : ColorMode :=
  match operation with Intersection => MATERIAL | Subtraction => CUTOUT end.

Definition csgmode_for (E : Env) (hl bg : bool) (operation : Operation)
  : csgmode_e :=
  get_csgmode E hl bg
    (match operation with
     | Intersection => None
     | Subtraction => Some DIFFERENCE
     end).

Definition build_leaf (E : Env) (hl bg : bool) (st : BuildState)
  (x : Operation * CSGChainObject) : Result BuildState :=
  match fst x with
  | Intersection => build_intersection E hl bg st (snd x)
  | Subtraction => build_subtraction E hl bg st (snd x)
  end.

(** The leaves of a product in the order the loops visit them. *)
Definition leaf_sequence (product : CSGProduct)
  : list (Operation * CSGChainObject) :=
  map (pair Intersection) (intersections product)
  ++ map (pair Subtraction) (subtractions product).

(** The colour the resolver gives a leaf, when the leaf is drawn and the
    resolver overrides. *)
Definition overrides (E : Env) (hl bg : bool)
  (x : Operation * CSGChainObject) : option Color4f :=
  match as_PolySet (geom (leaf (snd x))) with
  | Some _ =>
      getShaderColor E (colormode_of hl bg (base_colormode (fst x)))
        (color (leaf (snd x)))
  | None => None
  end.

Definition group_size (group : option CSGProducts) : nat :=
  match group with
  | Some prods => length (products prods)
  | None => 0
  end.

(** The three groups are never written. *)
Definition same_groups (r r' : OpenCSGRenderer) : Prop :=
  root_products r' = root_products r
  /\ highlights_products r' = highlights_products r
  /\ background_products r' = background_products r.

(** [vp] is what the two leaf loops leave for [product], started from the
    state in which [createCSGProducts] starts them. *)
Definition built_from (E : Env) (hl bg : bool) (product : CSGProduct)
  (vp : OpenCSGVBOProduct) : Prop :=
  exists vbo n i st,
    build_leaves E hl bg (product_start E vbo n i) product = Ok st
    /\ vp = mkVBOProduct (primitives st) (vertex_states st).

(** Byte [k] of a leaf index. *)
Definition index_byte (i : N) (k : N) : Z :=
  Z.of_N ((i / 2 ^ (8 * k)) mod 256).

(** The selection colour of a state that carries a leaf index. *)
Definition selection_encoding (shaderinfo : option shaderinfo_t)
  (vs : VertexState) : list Event :=
  match as_OpenCSGVertexState vs, shaderinfo with
  | Some i, Some si =>
      if is_select si then
        [glUniform3f (select_identifier si) (Qmake (index_byte i 0) 255)
           (Qmake (index_byte i 1) 255) (Qmake (index_byte i 2) 255)]
      else []
  | _, _ => []
  end.

Definition operator_of (operation : Operation) : OpenSCADOperator :=
  match operation with
  | Intersection => INTERSECTION
  | Subtraction => DIFFERENCE
  end.

(** The leaves that point to a geometry, with it, in loop order. *)
Definition present_leaves (l : list (Operation * CSGChainObject))
  : list (Operation * CSGChainObject * Geometry) :=
  flat_map (fun x =>
              match geom (leaf (snd x)) with
              | Some g => [(fst x, snd x, g)]
              | None => []
              end) l.

(** The leaves whose geometry is a polygon set, with it, in loop order. *)
Definition drawable_leaves (l : list (Operation * CSGChainObject))
  : list (Operation * CSGChainObject * PolySet) :=
  flat_map (fun x =>
              match as_PolySet (geom (leaf (snd x))) with
              | Some ps => [(fst x, snd x, ps)]
              | None => []
              end) l.

Definition primitive_of (E : Env) (hl bg : bool)
  (y : Operation * CSGChainObject * Geometry) : OpenCSGPrim :=
  createCSGPrimitive E (snd (fst y)) (snd y) (fst (fst y)) hl bg
    (operator_of (fst (fst y))).

Definition vbo_signature (p : OpenCSGVBOPrim) : Operation * nat :=
  (vprim_operation p, vprim_convexity p).

Definition drawable_signature (y : Operation * CSGChainObject * PolySet)
  : Operation * nat :=
  (fst (fst y), ps_convexity (snd y)).

(** ** A concrete scene, used to run the code *)

Module Sample.

Definition red : Color4f := mkColor4f 1 0 0 1.
Definition glass : Color4f := mkColor4f 0 0 1 (1 # 2).
Definition unset : Color4f := mkColor4f (-1) (-1) (-1) 1.

Definition cube : PolySet := mkPolySet 1 7.
Definition identity : Transform3d :=
  [1; 0; 0; 0; 0; 1; 0; 0; 0; 0; 1; 0; 0; 0; 0; 1]%Q.

Definition solid : CSGChainObject :=
  mkChainObject (mkLeaf (Some (GeomPolySet cube)) identity red 3).
Definition pane : CSGChainObject :=
  mkChainObject (mkLeaf (Some (GeomPolySet cube)) identity glass 4).
Definition nef : CSGChainObject :=
  mkChainObject (mkLeaf (Some (GeomOther 2)) identity red 5).
Definition hollow : CSGChainObject :=
  mkChainObject (mkLeaf None identity red 6).
Definition plain : CSGChainObject :=
  mkChainObject (mkLeaf (Some (GeomPolySet cube)) identity unset 8).

Definition select_shader : shaderinfo_t := mkShaderInfo 9 SELECT_RENDERING 2.

Definition csgmode_table (h b : bool) (t : option OpenSCADOperator)
  : csgmode_e :=
  CSGMODE ((if h then 20 else if b then 10 else 0)
           + match t with Some DIFFERENCE => 2 | _ => 1 end).

(** The surface state that the vertex array records for a written range. *)
Definition recorded (offset : nat) : Recorded :=
  mkRecorded (OpenCSGVertexState 0) 4 36 0 (N.of_nat offset) 0 1 0
    [1; 2; 3]%N [4; 5]%N.

Definition color_state : Recorded :=
  mkRecorded VBOShaderVertexState 0 0 0 0 0 1 0 [6%N] [].

(** The resolver overrides every colour whose red channel is set. *)
Definition resolver (cm : ColorMode) (c : Color4f) : option Color4f :=
  if Qle_bool 0 (c_r c) then Some c else None.

Definition env : Env :=
  mkEnv csgmode_table
    (fun _ c _ => c)
    resolver
    (mkShaderInfo 1 EDGE_RENDERING 0)
    unset
    (fun _ _ _ _ => 36)
    (fun cur _ _ _ _ => [recorded (length cur)])
    (fun _ _ => [color_state])
    (fun _ _ i => i).

(** The same collaborators, except that no surface write records a state. *)
Definition env_no_surface : Env :=
  mkEnv csgmode_table
    (fun _ c _ => c)
    resolver
    (mkShaderInfo 1 EDGE_RENDERING 0)
    unset
    (fun _ _ _ _ => 36)
    (fun _ _ _ _ _ => [])
    (fun _ _ => [color_state])
    (fun _ _ i => i).

Definition buffered : Features := mkFeatures true false false false.

Definition renderer (root : list CSGProduct) : World :=
  mkWorld (mkRenderer (Some (mkProducts root)) None None [] []) 0.

(** The build state after the pane of a product, and after a leaf whose
    colour the resolver leaves alone. *)
Definition after_pane : BuildState :=
  Eval vm_compute in
    match for_each (build_leaf env false false)
            (product_start env 1 72 1)
            [(Intersection, pane)] with
    | Ok st => st
    | Abort _ => product_start env 1 72 1
    end.

Definition after_plain : BuildState :=
  Eval vm_compute in
    match build_leaf env false false after_pane
            (Intersection, plain) with
    | Ok st => st
    | Abort _ => after_pane
    end.

(** A renderer after [prepare], with the events of the call. *)
Definition prepared : World * list Event :=
  Eval vm_compute in
    match prepare buffered env
            (renderer
               [mkProduct [solid; pane] [solid]])
            None with
    | Ok wt => wt
    | Abort _ => (renderer [], [])
    end.

End Sample.

(** ** The graphics state along a run *)

(** The depth function, the bound program and the culling switch after the
    calls of a run, from what they were before it.  Only the calls this
    file issues count; what the compositor does inside [OpenCSG::render]
    is its own. *)
Definition depth_func_after (t : list Event) (f : GLfunc) : GLfunc :=
  fold_left (fun f e => match e with glDepthFunc g => g | _ => f end) t f.

Definition program_after (t : list Event) (p : N) : N :=
  fold_left (fun p e => match e with glUseProgram q => q | _ => p end) t p.

Definition culling_after (t : list Event) (b : bool) : bool :=
  fold_left (fun b e =>
               match e with
               | glEnable GL_CULL_FACE => true
               | glDisable GL_CULL_FACE => false
               | _ => b
               end) t b.

(** The height of the matrix stack after a run; [None] when the run pops
    an entry it did not push. *)
Definition matrix_step (od : option nat) (e : Event) : option nat :=
  match od with
  | None => None
  | Some d =>
      match e with
      | glPushMatrix => Some (S d)
      | glPopMatrix => match d with 0 => None | S d' => Some d' end
      | _ => Some d
      end
  end.

Definition matrix_depth_after (t : list Event) (d : nat) : option nat :=
  fold_left matrix_step t (Some d).

(** The calls a leaf of the immediate path may issue, and those the replay
    of a vertex state may issue. *)
Definition is_leaf_call (e : Event) : bool :=
  match e with
  | glUniform3f _ _ _ _ | glPushMatrix | glMultMatrixd _ | glPopMatrix
  | call_setColor _ _ _ | call_render_surface _ _ _ _
  | glEnable _ | glDisable _ | glCullFace _ => true
  | _ => false
  end.

Definition is_replay_call (e : Event) : bool :=
  match e with
  | glUniform3f _ _ _ _ | glEnable _ | glDisable _ | glCullFace _
  | run_external _ | draw_range _ => true
  | _ => false
  end.

(** The replay of a list of vertex states that starts with culling off
    ends with culling off. *)
Definition culling_balanced (l : list VertexState) : Prop :=
  forall showedges shaderinfo,
    culling_after (flat_map (replay_state showedges shaderinfo) l) false
    = false.

(** A vertex state whose closures were all written by the helpers. *)
Definition helper_written (vs : VertexState) : Prop :=
  Forall (fun f => match f with fn_external _ => True | _ => False end)
    (glBegin vs)
  /\ Forall (fun f => match f with fn_external _ => True | _ => False end)
       (glEnd vs).

(** The state of primitive [p] is the copy [createVBOPrimitive] makes of
    [vs]. *)
Definition copied_from (p : OpenCSGVBOPrim) (vs : VertexState) : Prop :=
  vprim_vertex_state p =
  vprim_vertex_state
    (createVBOPrimitive vs (vprim_operation p) (vprim_convexity p)).

(** What the leaf loops keep true of the state list and the primitive
    list: every state that is not a plain one was written by the helpers,
    and every primitive is the copy of a surface state of the list. *)
Definition well_built (states : list VertexState)
  (prims : list OpenCSGVBOPrim) : Prop :=
  Forall (fun vs => vs_class vs = PlainVertexState \/ helper_written vs)
    states
  /\ Forall (fun p =>
               exists vs,
                 In vs states
                 /\ as_OpenCSGVertexState vs <> None
                 /\ copied_from p vs) prims.

(** The calls of a helper closure or of a draw. *)
Definition is_helper_call (e : Event) : bool :=
  match e with
  | run_external _ | draw_range _ => true
  | _ => false
  end.

(** What a run shows of culling and of surfaces, whichever call draws the
    surface. *)
Inductive Mark :=
| mark_enable
| mark_disable
| mark_cull (face : GLface)
| mark_surface.

Definition mark_of (e : Event) : list Mark :=
  match e with
  | glEnable GL_CULL_FACE => [mark_enable]
  | glDisable GL_CULL_FACE => [mark_disable]
  | glCullFace face => [mark_cull face]
  | call_render_surface _ _ _ _ => [mark_surface]
  | draw_range vs =>
      match vs_class vs with
      | OpenCSGVertexState _ => [mark_surface]
      | _ => []
      end
  | _ => []
  end.

Definition marks (t : list Event) : list Mark := flat_map mark_of t.

(** The marks of one leaf with a polygon set. *)
Definition leaf_marks (operation : Operation) (opaque : bool) : list Mark :=
  match operation with
  | Intersection =>
      if opaque then [mark_surface]
      else [mark_enable; mark_cull GL_FRONT; mark_surface;
            mark_cull GL_BACK; mark_surface; mark_disable]
  | Subtraction =>
      [mark_enable; mark_cull GL_FRONT; mark_surface; mark_disable]
  end.

(** The body of the immediate loop that visits a leaf of the sequence. *)
Definition render_leaf (E : Env) (shaderinfo : option shaderinfo_t)
  (hl bg : bool) (x : Operation * CSGChainObject) : list Event :=
  match fst x with
  | Intersection => render_intersection E shaderinfo hl bg (snd x)
  | Subtraction => render_subtraction E shaderinfo hl bg (snd x)
  end.

(** What a drawable leaf asks of [create_surface], colour apart. *)
Definition write_of (E : Env) (hl bg : bool)
  (y : Operation * CSGChainObject * PolySet)
  : PolySet * csgmode_e * Transform3d :=
  (snd y, csgmode_for E hl bg (fst (fst y)), matrix (leaf (snd (fst y)))).

(** The number of names [createCSGProducts] asks of [glGenBuffers]. *)
Definition names_wanted (F : Features) (prods : CSGProducts) : nat :=
  if ExperimentalVxORenderersIndexing F then length (products prods) * 2
  else length (products prods).

(** The depth function in force at each surface draw of a run that starts
    with depth function [f]. *)
Fixpoint depth_at_surfaces (t : list Event) (f : GLfunc) : list GLfunc :=
  match t with
  | [] => []
  | e :: t' =>
      (if is_surface_draw e then [f] else [])
      ++ depth_at_surfaces t' (match e with glDepthFunc g => g | _ => f end)
  end.

Definition is_uniform (e : Event) : bool :=
  match e with glUniform3f _ _ _ _ => true | _ => false end.

(** What the replay issues for one retained vertex state: the selection
    colour when the state carries a leaf index, then, unless it is a
    shader state and edges are off, its pre-draw closures, its draw call
    and its post-draw closures. *)
Definition state_replay (showedges : bool) (shaderinfo : option shaderinfo_t)
  (vs : VertexState) : list Event :=
  selection_encoding shaderinfo vs
  ++ (if is_shader_state vs && negb showedges then []
      else flat_map run_closure (glBegin vs) ++ [draw_range vs]
           ++ flat_map run_closure (glEnd vs)).

(** What a product's replay issues before its states, lines 435-448, and
    after them, lines 472-481. *)
Definition replay_head (showedges : bool) (shaderinfo : option shaderinfo_t)
  (vp : OpenCSGVBOProduct) : list Event :=
  (if 1 <? length (vp_primitives vp)
   then [OpenCSG_render_vbo (vp_primitives vp); glDepthFunc GL_EQUAL]
   else [])
  ++ match shaderinfo with
     | Some si =>
         if (progid si =? 0)%N then []
         else glUseProgram (progid si)
              :: (if is_edge si && showedges
                  then [call_shader_attribs_enable] else [])
     | None => []
     end.

Definition replay_tail (showedges : bool) (shaderinfo : option shaderinfo_t)
  : list Event :=
  match shaderinfo with
  | Some si =>
      if (progid si =? 0)%N then []
      else glUseProgram 0
           :: (if is_edge si && showedges
               then [call_shader_attribs_disable] else [])
  | None => []
  end
  ++ [glDepthFunc GL_LEQUAL].

(** The three channels of the selection colour of an identifier. *)
Definition selection_colour (identifier : Z) : Q * Q * Q :=
  (channel identifier 0, channel identifier 8, channel identifier 16).

(** The surface writes of a build, in order: polygon set, mode, matrix. *)
Definition surface_writes (t : list Event)
  : list (PolySet * csgmode_e * Transform3d) :=
  flat_map (fun e =>
              match e with
              | call_create_surface ps csgmode m _ => [(ps, csgmode, m)]
              | _ => []
              end) t.

(** The draw range of a vertex state. *)
Definition draw_range_of (vs : VertexState) : N * N * N * N * N * N * N :=
  (drawMode vs, drawSize vs, drawType vs, drawOffset vs, elementOffset vs,
   verticesVBO vs, elementsVBO vs).


(** ** The bounding box *)

Section BoundingBox.

(** [BoundingBox], its default constructor, [extend] and
    [CSGProducts::getBoundingBox] are declared outside this file. *)
Variable BoundingBox : Type.
Variable BoundingBox_new : BoundingBox.
Variable extend : BoundingBox -> BoundingBox -> BoundingBox.
Variable products_box : CSGProducts -> BoundingBox.

(** [getBoundingBox], lines 488-496. *)
Definition getBoundingBox (r : OpenCSGRenderer) : BoundingBox :=
  let bbox := BoundingBox_new in
  let bbox :=
    match root_products r with
    | Some prods => products_box prods
    | None => bbox
    end in
  let bbox :=
    match highlights_products r with
    | Some prods => extend bbox (products_box prods)
    | None => bbox
    end in
  match background_products r with
  | Some prods => extend bbox (products_box prods)
  | None => bbox
  end.

End BoundingBox.

(** Boxes on a line, to run [getBoundingBox]: [None] is the empty box. *)
Module Intervals.

Definition box := option (Z * Z).

Definition hull (a b : box) : box :=
  match a, b with
  | None, _ => b
  | _, None => a
  | Some (l, h), Some (l', h') => Some (Z.min l l', Z.max h h')
  end.

Definition inside (a b : box) : Prop :=
  match a, b with
  | None, _ => True
  | Some _, None => False
  | Some (l, h), Some (l', h') => (l' <= l /\ h <= h')%Z
  end.

(** The box of a group: as wide as the group has products. *)
Definition width_box (prods : CSGProducts) : box :=
  Some (0%Z, Z.of_nat (length (products prods))).

(** A renderer with two root products and three background products. *)
Definition two_and_three : OpenCSGRenderer :=
  mkRenderer (Some (mkProducts [mkProduct [] []; mkProduct [] []])) None
    (Some (mkProducts [mkProduct [] []; mkProduct [] []; mkProduct [] []]))
    [] [].

End Intervals.

(** * Properties *)

(** ** Lemmas on runs *)

Ltac split_events :=
  repeat first
    [ apply Forall_nil
    | apply Forall_cons
    | apply Forall_app; split ];
  try (repeat split; reflexivity).

Lemma closures_leave_depth_alone (fs : list Closure) :
  Forall leaves_depth_alone (flat_map run_closure fs).
Proof.
  apply Forall_flat_map, Forall_forall. intros f _.
  destruct f; split_events.
Qed.

Lemma VertexState_draw_leaves_depth_alone (vs : VertexState) :
  Forall leaves_depth_alone (VertexState_draw vs).
Proof.
  unfold VertexState_draw. split_events;
    apply closures_leave_depth_alone.
Qed.

Lemma select_uniform_leaves_depth_alone shaderinfo identifier :
  Forall leaves_depth_alone (select_uniform shaderinfo identifier).
Proof.
  unfold select_uniform. destruct shaderinfo as [si|]; [|split_events].
  destruct (is_select si); split_events.
Qed.

Lemma replay_state_leaves_depth_alone showedges shaderinfo vs :
  Forall leaves_depth_alone (replay_state showedges shaderinfo vs).
Proof.
  unfold replay_state. apply Forall_app; split.
  - destruct (as_OpenCSGVertexState vs);
      [apply select_uniform_leaves_depth_alone | split_events].
  - destruct (negb (is_shader_state vs) || (showedges && is_shader_state vs));
      [apply VertexState_draw_leaves_depth_alone | split_events].
Qed.

Lemma render_intersection_leaves_depth_alone E shaderinfo hl bg csgobj :
  Forall leaves_depth_alone (render_intersection E shaderinfo hl bg csgobj).
Proof.
  unfold render_intersection.
  destruct (as_PolySet (geom (leaf csgobj))); [|split_events].
  cbv zeta. apply Forall_app; split.
  - apply select_uniform_leaves_depth_alone.
  - destruct (is_opaque _); split_events.
Qed.

Lemma render_subtraction_leaves_depth_alone E shaderinfo hl bg csgobj :
  Forall leaves_depth_alone (render_subtraction E shaderinfo hl bg csgobj).
Proof.
  unfold render_subtraction.
  destruct (as_PolySet (geom (leaf csgobj))); split_events.
Qed.

Lemma Forall_flat_map_all {A B} (P : B -> Prop) (f : A -> list B) l :
  (forall a, Forall P (f a)) -> Forall P (flat_map f l).
Proof.
  intros H. apply Forall_flat_map, Forall_forall. intros a _. apply H.
Qed.

Lemma immediate_body_leaves_depth_alone E showedges shaderinfo hl bg product :
  Forall leaves_depth_alone
    (immediate_body E showedges shaderinfo hl bg product).
Proof.
  unfold immediate_body. repeat (apply Forall_app; split).
  - destruct shaderinfo as [si|]; [|split_events].
    destruct (progid si =? 0)%N; [split_events|].
    destruct (negb (is_edge si) || (is_edge si && showedges)); split_events.
  - apply Forall_flat_map_all. intros.
    apply render_intersection_leaves_depth_alone.
  - apply Forall_flat_map_all. intros.
    apply render_subtraction_leaves_depth_alone.
  - destruct shaderinfo; split_events.
Qed.

Lemma render_product_split E showedges shaderinfo hl bg product :
  render_product E showedges shaderinfo hl bg product =
  (if 1 <? length (immediate_primitives E hl bg product)
   then [OpenCSG_render (immediate_primitives E hl bg product);
         glDepthFunc GL_EQUAL]
   else [])
  ++ immediate_body E showedges shaderinfo hl bg product
  ++ [glDepthFunc GL_LEQUAL].
Proof.
  unfold render_product, immediate_body. cbv zeta.
  rewrite <- !app_assoc. reflexivity.
Qed.

Lemma replay_body_leaves_depth_alone showedges shaderinfo product :
  Forall leaves_depth_alone (replay_body showedges shaderinfo product).
Proof.
  unfold replay_body. repeat (apply Forall_app; split).
  - destruct shaderinfo as [si|]; [|split_events].
    destruct (progid si =? 0)%N; [split_events|].
    destruct (is_edge si && showedges); split_events.
  - apply Forall_flat_map_all. intros.
    apply replay_state_leaves_depth_alone.
  - destruct shaderinfo as [si|]; [|split_events].
    destruct (progid si =? 0)%N; [split_events|].
    destruct (is_edge si && showedges); split_events.
Qed.

Lemma render_vbo_product_split showedges shaderinfo product :
  render_vbo_product showedges shaderinfo product =
  (if 1 <? length (vp_primitives product)
   then [OpenCSG_render_vbo (vp_primitives product); glDepthFunc GL_EQUAL]
   else [])
  ++ replay_body showedges shaderinfo product
  ++ [glDepthFunc GL_LEQUAL].
Proof.
  unfold render_vbo_product, replay_body.
  rewrite <- !app_assoc. reflexivity.
Qed.

Lemma no_compositing_weaken (t : list Event) :
  Forall leaves_depth_alone t ->
  Forall (fun e => is_compositor e = false /\ is_depth_equal e = false) t.
Proof.
  apply Forall_impl. intros e (H1 & H2 & _). split; assumption.
Qed.

Lemma few_primitives {A} (l : list A) :
  length l <= 1 -> (1 <? length l) = false.
Proof. intros H. apply Nat.ltb_ge. exact H. Qed.

(** ** The states one leaf adds *)

Lemma back_snoc l x : back (l ++ [x]) = Some x.
Proof. unfold back. rewrite rev_unit. reflexivity. Qed.

Lemma tag_back_snoc i l x :
  tag_back i (l ++ [x]) = l ++ [set_csgObjectIndex i x].
Proof. unfold tag_back. rewrite rev_unit, rev_involutive. reflexivity. Qed.

Lemma surface_of_snoc l x i :
  vs_class x = OpenCSGVertexState i -> surface_of (l ++ [x]) = Some x.
Proof.
  intros H. unfold surface_of, as_OpenCSGVertexState.
  rewrite back_snoc, H. reflexivity.
Qed.

Lemma surface_of_snoc_other l x :
  as_OpenCSGVertexState x = None -> surface_of (l ++ [x]) = None.
Proof.
  intros H. unfold surface_of. rewrite back_snoc, H. reflexivity.
Qed.

Lemma set_csgObjectIndex_class i x j :
  vs_class x = OpenCSGVertexState j ->
  vs_class (set_csgObjectIndex i x) = OpenCSGVertexState i.
Proof. intros H. unfold set_csgObjectIndex. simpl. rewrite H. reflexivity. Qed.

Section Shape.

Variable E : Env.
Hypothesis records : records_one_surface E.
Variables highlight_mode background_mode : bool.

Lemma build_intersection_shape st csgobj ps :
  geom (leaf csgobj) = Some (GeomPolySet ps) ->
  exists r i0,
    let colormode := colormode_of highlight_mode background_mode MATERIAL in
    let lc :=
      next_last_color E colormode (color (leaf csgobj)) (last_color st) in
    let opaque :=
      is_opaque (shader_color E colormode (color (leaf csgobj))) in
    let s := set_csgObjectIndex (index (leaf csgobj)) (state_of r) in
    rec_class r = OpenCSGVertexState i0 /\
    build_intersection E highlight_mode background_mode st csgobj =
    Ok (mkBuild lc
          (vertex_states st
           ++ map state_of (vsm_addColor E (vertex_states st) lc)
           ++ leaf_states Intersection opaque s)
          (primitives st
           ++ [createVBOPrimitive s Intersection (ps_convexity ps)])
          (trace st
           ++ [call_addColor lc;
               call_create_surface ps
                 (get_csgmode E highlight_mode background_mode None)
                 (matrix (leaf csgobj)) lc])).
Proof.
  intros Hgeom. unfold build_intersection. rewrite Hgeom. cbn.
  destruct (is_opaque _) eqn:Hop.
  - match goal with
    | |- context [create_surface E ?cur ?p ?md ?m ?c] =>
        destruct (records cur p md m c) as (r & i0 & Hcs & Hclass)
    end.
    exists r, i0. split; [exact Hclass|].
    rewrite Hcs. cbn [map]. rewrite (surface_of_snoc _ (state_of r) Hclass).
    unfold keep_surface, emplace_prim, set_states. cbn.
    rewrite ?Hcs. cbn [map]. rewrite tag_back_snoc, <- !app_assoc.
    reflexivity.
  - match goal with
    | |- context [create_surface E ?cur ?p ?md ?m ?c] =>
        destruct (records cur p md m c) as (r & i0 & Hcs & Hclass)
    end.
    exists r, i0. split; [exact Hclass|].
    rewrite Hcs. cbn [map]. rewrite (surface_of_snoc _ (state_of r) Hclass).
    unfold keep_surface, emplace_state, emplace_prim, set_states. cbn.
    rewrite ?Hcs. cbn [map]. rewrite tag_back_snoc, <- !app_assoc.
    reflexivity.
Qed.

Lemma build_subtraction_shape st csgobj ps :
  geom (leaf csgobj) = Some (GeomPolySet ps) ->
  exists r i0,
    let colormode := colormode_of highlight_mode background_mode CUTOUT in
    let lc :=
      next_last_color E colormode (color (leaf csgobj)) (last_color st) in
    let s := set_csgObjectIndex (index (leaf csgobj)) (state_of r) in
    rec_class r = OpenCSGVertexState i0 /\
    build_subtraction E highlight_mode background_mode st csgobj =
    Ok (mkBuild lc
          (vertex_states st
           ++ map state_of (vsm_addColor E (vertex_states st) lc)
           ++ leaf_states Subtraction false s)
          (primitives st
           ++ [createVBOPrimitive s Subtraction (ps_convexity ps)])
          (trace st
           ++ [call_addColor lc;
               call_create_surface ps
                 (get_csgmode E highlight_mode background_mode
                    (Some DIFFERENCE))
                 (matrix (leaf csgobj)) lc])).
Proof.
  intros Hgeom. unfold build_subtraction. rewrite Hgeom. cbn.
  match goal with
  | |- context [create_surface E ?cur ?p ?md ?m ?c] =>
      destruct (records cur p md m c) as (r & i0 & Hcs & Hclass)
  end.
  exists r, i0. split; [exact Hclass|].
  rewrite Hcs. cbn [map]. rewrite (surface_of_snoc _ (state_of r) Hclass).
  unfold keep_surface, emplace_state, emplace_prim, set_states. cbn.
  rewrite ?Hcs. cbn [map]. rewrite tag_back_snoc, <- !app_assoc.
  reflexivity.
Qed.

End Shape.

(** ** Replaying what a leaf added *)

Lemma culling_and_surfaces_app t1 t2 :
  culling_and_surfaces (t1 ++ t2) =
  culling_and_surfaces t1 ++ culling_and_surfaces t2.
Proof. apply filter_app. Qed.

Lemma external_closures_silent (tags : list N) :
  culling_and_surfaces (flat_map run_closure (map fn_external tags)) = [].
Proof. induction tags as [|t tags IH]; [reflexivity | exact IH]. Qed.

Lemma select_uniform_silent shaderinfo identifier :
  culling_and_surfaces (select_uniform shaderinfo identifier) = [].
Proof.
  unfold select_uniform. destruct shaderinfo as [si|]; [|reflexivity].
  destruct (is_select si); reflexivity.
Qed.

Lemma replay_recorded_surface showedges shaderinfo r i i0 :
  rec_class r = OpenCSGVertexState i0 ->
  let s := set_csgObjectIndex i (state_of r) in
  culling_and_surfaces (replay_state showedges shaderinfo s) = [draw_range s].
Proof.
  intros Hclass s. unfold replay_state, as_OpenCSGVertexState, is_shader_state.
  assert (Hs : vs_class s = OpenCSGVertexState i)
    by (apply (set_csgObjectIndex_class i (state_of r) Hclass)).
  rewrite Hs. cbn [negb orb].
  rewrite culling_and_surfaces_app, select_uniform_silent.
  unfold VertexState_draw. rewrite !culling_and_surfaces_app.
  change (glBegin s) with (map fn_external (rec_begin r)).
  change (glEnd s) with (map fn_external (rec_end r)).
  rewrite !external_closures_silent.
  unfold culling_and_surfaces.
  cbn [filter is_culling is_surface_draw orb app]. rewrite Hs. reflexivity.
Qed.

Lemma replay_color_state showedges shaderinfo r :
  as_OpenCSGVertexState (state_of r) = None ->
  culling_and_surfaces (replay_state showedges shaderinfo (state_of r)) = [].
Proof.
  intros Hnone. unfold replay_state. rewrite Hnone. cbn [app].
  destruct (negb _ || _); [|reflexivity].
  unfold VertexState_draw. rewrite !culling_and_surfaces_app.
  change (glBegin (state_of r)) with (map fn_external (rec_begin r)).
  change (glEnd (state_of r)) with (map fn_external (rec_end r)).
  rewrite !external_closures_silent.
  unfold culling_and_surfaces. cbn.
  unfold as_OpenCSGVertexState in Hnone. cbn in Hnone.
  destruct (rec_class r); [reflexivity | discriminate | reflexivity].
Qed.

Lemma replay_color_states showedges shaderinfo (rs : list Recorded) :
  Forall (fun r => as_OpenCSGVertexState (state_of r) = None) rs ->
  culling_and_surfaces
    (flat_map (replay_state showedges shaderinfo) (map state_of rs)) = [].
Proof.
  induction 1 as [|r rs Hr _ IH]; [reflexivity|].
  cbn [map flat_map]. rewrite culling_and_surfaces_app, IH.
  rewrite (replay_color_state _ _ _ Hr). reflexivity.
Qed.

Lemma replay_leaf_states showedges shaderinfo operation opaque r i i0 :
  rec_class r = OpenCSGVertexState i0 ->
  let s := set_csgObjectIndex i (state_of r) in
  culling_and_surfaces
    (flat_map (replay_state showedges shaderinfo)
       (leaf_states operation opaque s)) =
  leaf_picture operation opaque s.
Proof.
  intros Hclass s.
  pose proof (replay_recorded_surface showedges shaderinfo r i Hclass) as Hs.
  cbv zeta in Hs. fold s in Hs.
  destruct operation; [destruct opaque|]; cbn [leaf_states flat_map];
    rewrite ?culling_and_surfaces_app, ?Hs, ?app_nil_r; reflexivity.
Qed.

(** ** Subtraction leaves *)

(** C4.  A subtraction leaf whose geometry is a polygon set issues, whatever
    its colour, exactly one surface draw between "enable culling, cull front
    faces" and "disable culling".  In the immediate path this is the run of
    the loop body; in the buffer-build path it is what the replay of the
    states the leaf added shows (the helpers record one surface state per
    write and their colour states are no surface states). *)
Theorem C4_subtraction_shows_back_faces_only :
  forall (E : Env) (hl bg : bool) (csgobj : CSGChainObject) (ps : PolySet),
    geom (leaf csgobj) = Some (GeomPolySet ps) ->
    (forall shaderinfo,
       culling_and_surfaces (render_subtraction E shaderinfo hl bg csgobj) =
       [glEnable GL_CULL_FACE; glCullFace GL_FRONT;
        call_render_surface ps (get_csgmode E hl bg (Some DIFFERENCE))
          (matrix (leaf csgobj)) shaderinfo;
        glDisable GL_CULL_FACE])
    /\ (records_one_surface E -> addColor_adds_no_surface E ->
        forall st, exists st' added s,
          build_subtraction E hl bg st csgobj = Ok st'
          /\ vertex_states st' = vertex_states st ++ added
          /\ vs_class s = OpenCSGVertexState (index (leaf csgobj))
          /\ forall showedges shaderinfo,
               culling_and_surfaces
                 (flat_map (replay_state showedges shaderinfo) added) =
               [glEnable GL_CULL_FACE; glCullFace GL_FRONT; draw_range s;
                glDisable GL_CULL_FACE]).
Proof.
  intros E hl bg csgobj ps Hgeom. split.
  - intros shaderinfo. unfold render_subtraction. rewrite Hgeom.
    reflexivity.
  - intros Hrec Hcol st.
    destruct (build_subtraction_shape Hrec hl bg st csgobj Hgeom)
      as (r & i0 & Hclass & Hbuild).
    cbv zeta in Hbuild.
    eexists. eexists. exists (set_csgObjectIndex (index (leaf csgobj)) (state_of r)).
    split; [exact Hbuild|]. split; [reflexivity|]. split.
    + apply (set_csgObjectIndex_class _ (state_of r) Hclass).
    + intros showedges shaderinfo.
      rewrite flat_map_app, culling_and_surfaces_app.
      rewrite (replay_color_states _ _ (Hcol _ _)).
      apply (replay_leaf_states showedges shaderinfo Subtraction false r
               (index (leaf csgobj)) Hclass).
Qed.

Lemma sample_records_one_surface : records_one_surface Sample.env.
Proof.
  intros cur ps csgmode m c. eexists. exists 0%N. split; reflexivity.
Qed.

Lemma sample_addColor_adds_no_surface : addColor_adds_no_surface Sample.env.
Proof.
  intros cur c. repeat constructor.
Qed.

(** The statement of C4 on the sample scene. *)
Lemma C4_witness :
  culling_and_surfaces
    (render_subtraction Sample.env None false false Sample.pane) =
  [glEnable GL_CULL_FACE; glCullFace GL_FRONT;
   call_render_surface Sample.cube (CSGMODE 2) Sample.identity None;
   glDisable GL_CULL_FACE]
  /\ exists st' added s,
       build_subtraction Sample.env false false
         (product_start Sample.env 1 36 1) Sample.pane = Ok st'
       /\ vertex_states st' = [] ++ added
       /\ vs_class s = OpenCSGVertexState 4
       /\ forall showedges shaderinfo,
            culling_and_surfaces
              (flat_map (replay_state showedges shaderinfo) added) =
            [glEnable GL_CULL_FACE; glCullFace GL_FRONT; draw_range s;
             glDisable GL_CULL_FACE].
Proof.
  pose proof (@C4_subtraction_shows_back_faces_only Sample.env false false
                Sample.pane Sample.cube eq_refl) as [Himm Hbuf].
  split.
  - exact (Himm None).
  - exact (Hbuf sample_records_one_surface sample_addColor_adds_no_surface
             (product_start Sample.env 1 36 1)).
Defined.

(** ** Products with at most one primitive *)

Lemma count_surfaces_app t1 t2 :
  count_surfaces (t1 ++ t2) = count_surfaces t1 + count_surfaces t2.
Proof. unfold count_surfaces. rewrite filter_app. apply length_app. Qed.

Lemma count_surfaces_picture t :
  count_surfaces t = count_surfaces (culling_and_surfaces t).
Proof.
  unfold count_surfaces, culling_and_surfaces.
  induction t as [|e t IH]; [reflexivity|].
  cbn [filter]. destruct (is_surface_draw e) eqn:He.
  - rewrite orb_true_r. cbn [filter]. rewrite He. cbn [length]. now rewrite IH.
  - rewrite orb_false_r. destruct (is_culling e); [|exact IH].
    cbn [filter]. rewrite He. exact IH.
Qed.

Lemma replay_body_count showedges shaderinfo product :
  count_surfaces (replay_body showedges shaderinfo product) =
  count_surfaces
    (flat_map (replay_state showedges shaderinfo) (vp_states product)).
Proof.
  unfold replay_body. rewrite !count_surfaces_app.
  destruct shaderinfo as [si|]; [|cbn; lia].
  destruct (progid si =? 0)%N; [cbn; lia|].
  destruct (is_edge si && showedges); cbn; lia.
Qed.

Lemma immediate_single_leaf_count E showedges shaderinfo hl bg csgobj ps :
  geom (leaf csgobj) = Some (GeomPolySet ps) ->
  count_surfaces
    (render_product E showedges shaderinfo hl bg (mkProduct [csgobj] [])) =
  if is_opaque (setColor E (colormode_of hl bg MATERIAL)
                  (color (leaf csgobj)) shaderinfo)
  then 1 else 2.
Proof.
  intros Hgeom. unfold render_product, immediate_primitives, push_primitive,
    render_intersection, select_uniform.
  cbn [intersections subtractions flat_map]. rewrite Hgeom.
  cbn [as_PolySet app length Nat.ltb Nat.leb].
  destruct (is_opaque _);
    destruct shaderinfo as [si|]; cbn [app];
    repeat match goal with
           | |- context [if ?b then _ else _] => destruct b
           end; reflexivity.
Qed.

(** C1 as the spec words it fails: one intersection leaf with a polygon set
    and a half-transparent colour, no subtraction leaves.  One primitive,
    no compositing, and the surface is drawn twice. *)
Lemma C1_transparent_leaf_drawn_twice :
  let product := mkProduct [Sample.pane] [] in
  let t := render_product Sample.env false None false false product in
  geom (leaf Sample.pane) = Some (GeomPolySet Sample.cube)
  /\ length (immediate_primitives Sample.env false false product) = 1
  /\ Forall (fun e => is_compositor e = false) t
  /\ count_surfaces t = 2
  /\ count_surfaces t <> 1.
Proof.
  cbv zeta. split; [reflexivity|]. split; [reflexivity|].
  split; [repeat constructor|]. split; [reflexivity|].
  vm_compute. discriminate.
Qed.

(** ** The depth function after a product *)

(** C8 as the spec words it fails: a product with one primitive is not
    composited, and the depth function is reset all the same, in the
    immediate path and in the replay. *)
Lemma C8_reset_without_compositing :
  let t :=
    render_product Sample.env false None false false
      (mkProduct [Sample.solid] []) in
  let t' := render_vbo_product false None (mkVBOProduct [] []) in
  length (immediate_primitives Sample.env false false
            (mkProduct [Sample.solid] [])) = 1
  /\ Forall (fun e => is_compositor e = false) t
  /\ In (glDepthFunc GL_LEQUAL) t
  /\ Forall (fun e => is_compositor e = false) t'
  /\ In (glDepthFunc GL_LEQUAL) t'.
Proof.
  cbv zeta. split; [reflexivity|].
  split; [repeat constructor|]. split; [vm_compute; tauto|].
  split; [repeat constructor|]. vm_compute; tauto.
Qed.

(** C8, as the code has it.  In both paths the run of every product ends
    with the reset of the depth function to "less or equal", whether or not
    the product was composited, and that is the only reset in the run. *)
Theorem C8_depth_reset_ends_every_product :
  forall (E : Env) (showedges : bool) (shaderinfo : option shaderinfo_t)
         (hl bg : bool),
    (forall product,
     exists body,
       render_product E showedges shaderinfo hl bg product =
       body ++ [glDepthFunc GL_LEQUAL]
       /\ Forall (fun e => is_depth_reset e = false) body)
    /\ (forall vp,
        exists body,
          render_vbo_product showedges shaderinfo vp =
          body ++ [glDepthFunc GL_LEQUAL]
          /\ Forall (fun e => is_depth_reset e = false) body).
Proof.
  intros E showedges shaderinfo hl bg. split.
  - intros product. rewrite render_product_split, app_assoc.
    eexists. split; [reflexivity|].
    apply Forall_app; split.
    + destruct (1 <? _); repeat constructor.
    + eapply Forall_impl;
        [|apply (immediate_body_leaves_depth_alone E showedges shaderinfo
                   hl bg product)].
      intros e (_ & _ & He). exact He.
  - intros vp. rewrite render_vbo_product_split, app_assoc.
    eexists. split; [reflexivity|].
    apply Forall_app; split.
    + destruct (1 <? _); repeat constructor.
    + eapply Forall_impl;
        [|apply (replay_body_leaves_depth_alone showedges shaderinfo vp)].
      intros e (_ & _ & He). exact He.
Qed.

(** ** The two leaf loops as one *)

Lemma for_each_app {S A} (body : S -> A -> Result S) s l1 l2 :
  for_each body s (l1 ++ l2) =
  bind (for_each body s l1) (fun s' => for_each body s' l2).
Proof.
  revert s. induction l1 as [|a l1 IH]; intros s; [reflexivity|].
  cbn [app for_each]. destruct (body s a) as [s1|msg]; [|reflexivity].
  cbn [bind]. apply IH.
Qed.

Lemma for_each_map {S A B} (body : S -> B -> Result S) (f : A -> B) s l :
  for_each body s (map f l) = for_each (fun s a => body s (f a)) s l.
Proof.
  revert s. induction l as [|a l IH]; intros s; [reflexivity|].
  cbn [map for_each]. destruct (body s (f a)); [|reflexivity].
  cbn [bind]. apply IH.
Qed.

Lemma build_leaves_sequence E hl bg st product :
  build_leaves E hl bg st product =
  for_each (build_leaf E hl bg) st (leaf_sequence product).
Proof.
  unfold build_leaves, leaf_sequence.
  rewrite for_each_app, for_each_map.
  change (fun s a => build_leaf E hl bg s (Intersection, a))
    with (build_intersection E hl bg).
  destruct (for_each (build_intersection E hl bg) st (intersections product));
    [|reflexivity].
  cbn [bind]. rewrite for_each_map. reflexivity.
Qed.

(** What every turn of a leaf loop does to the colour and to the events,
    whatever the helpers answer. *)
Lemma build_leaf_step E hl bg st operation csgobj st' :
  build_leaf E hl bg st (operation, csgobj) = Ok st' ->
  (as_PolySet (geom (leaf csgobj)) = None /\ st' = st)
  \/ exists ps,
       as_PolySet (geom (leaf csgobj)) = Some ps
       /\ last_color st' =
          next_last_color E (colormode_of hl bg (base_colormode operation))
            (color (leaf csgobj)) (last_color st)
       /\ trace st' =
          trace st
          ++ [call_addColor (last_color st');
              call_create_surface ps (csgmode_for E hl bg operation)
                (matrix (leaf csgobj)) (last_color st')].
Proof.
  unfold build_leaf, build_intersection, build_subtraction.
  destruct operation; cbn [fst snd];
    (destruct (geom (leaf csgobj)) as [[ps|k]|];
     [|intros [= <-]; left; split; reflexivity ..]);
    cbn [as_PolySet]; intros Hrun; right; exists ps;
    (split; [reflexivity|]).
  - destruct (is_opaque _).
    + destruct (surface_of _); injection Hrun as <-;
        cbn; rewrite <- ?app_assoc; split; reflexivity.
    + destruct (surface_of _); [|discriminate]. injection Hrun as <-.
      cbn. rewrite <- ?app_assoc. split; reflexivity.
  - destruct (surface_of _); [|discriminate]. injection Hrun as <-.
    cbn. rewrite <- ?app_assoc. split; reflexivity.
Qed.

Lemma build_leaf_last_color E hl bg st x st' :
  build_leaf E hl bg st x = Ok st' ->
  last_color st' =
  match overrides E hl bg x with
  | Some col => col
  | None => last_color st
  end.
Proof.
  destruct x as [operation csgobj]. intros Hrun.
  destruct (build_leaf_step _ _ _ _ _ _ Hrun)
    as [[Hskip ->] | (ps & Hps & Hcol & _)];
    unfold overrides; cbn [fst snd].
  - rewrite Hskip. reflexivity.
  - rewrite Hps. exact Hcol.
Qed.

(** Where [last_color] comes from after a run of leaves: from the last
    leaf that overrode, or from the start of the run. *)
Lemma last_color_origin E hl bg pre :
  forall st st',
    for_each (build_leaf E hl bg) st pre = Ok st' ->
    (Forall (fun x => overrides E hl bg x = None) pre
     /\ last_color st' = last_color st)
    \/ exists p1 x p2,
         pre = p1 ++ x :: p2
         /\ overrides E hl bg x = Some (last_color st')
         /\ Forall (fun y => overrides E hl bg y = None) p2.
Proof.
  induction pre as [|x pre IH]; intros st st'.
  - intros [= <-]. left. split; [constructor | reflexivity].
  - cbn [for_each].
    destruct (build_leaf E hl bg st x) as [st1|msg] eqn:Hstep;
      [|discriminate].
    cbn [bind]. intros Hrest.
    pose proof (build_leaf_last_color _ _ _ _ _ Hstep) as Hcol.
    destruct (IH _ _ Hrest) as [[Hnone Hsame] | (p1 & y & p2 & -> & Hy & Hp2)].
    + destruct (overrides E hl bg x) as [col|] eqn:Hx.
      * right. exists [], x, pre. split; [reflexivity|].
        split; [|exact Hnone]. rewrite Hx, Hsame, Hcol. reflexivity.
      * left. split; [constructor; assumption|]. congruence.
    + right. exists (x :: p1), y, p2. split; [reflexivity|].
      split; assumption.
Qed.

(** ** Colour resolution in the buffer-build path *)

(** C10, as the code has it.  When the resolver declines to override the
    colour of a leaf, the colour handed to [addColor] and to
    [create_surface] for that leaf is [last_color] as the earlier leaves
    of the same product left it: the
    colour resolved for the last earlier leaf that overrode, or the colour
    the product started with when none did.  [last_color] is unchanged by
    a leaf that does not override. *)
Theorem C10_declined_override_keeps_last_color :
  forall (E : Env) (hl bg : bool) (product : CSGProduct)
         (pre post : list (Operation * CSGChainObject))
         (operation : Operation) (csgobj : CSGChainObject) (ps : PolySet)
         (vbo : N) (n i : nat) (st st' : BuildState),
    leaf_sequence product = pre ++ (operation, csgobj) :: post ->
    as_PolySet (geom (leaf csgobj)) = Some ps ->
    getShaderColor E (colormode_of hl bg (base_colormode operation))
      (color (leaf csgobj)) = None ->
    for_each (build_leaf E hl bg) (product_start E vbo n i) pre = Ok st ->
    build_leaf E hl bg st (operation, csgobj) = Ok st' ->
    trace st' =
      trace st
      ++ [call_addColor (last_color st);
          call_create_surface ps (csgmode_for E hl bg operation)
            (matrix (leaf csgobj)) (last_color st)]
    /\ last_color st' = last_color st
    /\ ((Forall (fun x => overrides E hl bg x = None) pre
         /\ last_color st = Color4f_new E)
        \/ exists p1 x p2,
             pre = p1 ++ x :: p2
             /\ overrides E hl bg x = Some (last_color st)
             /\ Forall (fun y => overrides E hl bg y = None) p2)
    /\ (forall st1 y st2,
          build_leaf E hl bg st1 y = Ok st2 ->
          overrides E hl bg y = None ->
          last_color st2 = last_color st1).
Proof.
  intros E hl bg product pre post operation csgobj ps vbo n i st st'
    _ Hps Hdecl Hpre Hstep.
  assert (Hsame : last_color st' = last_color st).
  { rewrite (build_leaf_last_color _ _ _ _ _ Hstep).
    unfold overrides. cbn [fst snd]. rewrite Hps, Hdecl. reflexivity. }
  split; [|split; [exact Hsame|split]].
  - destruct (build_leaf_step _ _ _ _ _ _ Hstep)
      as [[Hskip _] | (ps' & Hps' & _ & Htrace)]; [congruence|].
    rewrite Hps in Hps'. injection Hps' as <-.
    rewrite Htrace, Hsame. reflexivity.
  - exact (last_color_origin _ _ _ _ _ Hpre).
  - intros st1 y st2 Hrun Hnone.
    rewrite (build_leaf_last_color _ _ _ _ _ Hrun), Hnone. reflexivity.
Qed.

(** The statement of C10 on the sample scene. *)
Lemma C10_witness :
  last_color Sample.after_pane = Sample.glass
  /\ trace Sample.after_plain =
     trace Sample.after_pane
     ++ [call_addColor Sample.glass;
         call_create_surface Sample.cube (CSGMODE 1) Sample.identity
           Sample.glass]
  /\ last_color Sample.after_plain = Sample.glass.
Proof.
  destruct (@C10_declined_override_keeps_last_color Sample.env false false
              (mkProduct [Sample.pane; Sample.plain] [])
              [(Intersection, Sample.pane)] [] Intersection Sample.plain
              Sample.cube 1%N 72 1 Sample.after_pane Sample.after_plain
              eq_refl eq_refl eq_refl eq_refl eq_refl)
    as (Htrace & Hsame & _).
  split; [reflexivity|]. split; [exact Htrace | exact Hsame].
Defined.

(** ** Buffer bindings after construction *)

Lemma leaf_loops_bind_nothing E hl bg l :
  forall st st',
    for_each (build_leaf E hl bg) st l = Ok st' ->
    Forall (fun e => is_bind e = false) (trace st) ->
    Forall (fun e => is_bind e = false) (trace st').
Proof.
  induction l as [|[operation csgobj] l IH]; intros st st'.
  - intros [= <-]. trivial.
  - cbn [for_each].
    destruct (build_leaf E hl bg st (operation, csgobj)) as [st1|msg]
      eqn:Hstep; [|discriminate].
    cbn [bind]. intros Hrest Hst. apply (IH _ _ Hrest).
    destruct (build_leaf_step _ _ _ _ _ _ Hstep)
      as [[_ ->] | (ps & _ & _ & ->)]; [exact Hst|].
    apply Forall_app; split; [exact Hst | repeat constructor].
Qed.

(** C9 as the spec words it fails: with persistent buffers on and neither
    the direct nor the preallocated mode, [prepare] builds the product and
    binds no buffer to zero. *)
Lemma C9_no_unbind_outside_direct_mode :
  exists w t,
    prepare Sample.buffered Sample.env
      (Sample.renderer [mkProduct [Sample.solid] []]) None = Ok (w, t)
    /\ length (vbo_vertex_products (self w)) = 1
    /\ In call_createInterleavedVBOs t
    /\ Forall (fun e => is_bind e = false) t.
Proof.
  eexists. eexists. split; [vm_compute; reflexivity|].
  split; [reflexivity|]. split; [cbn; tauto|]. repeat constructor.
Qed.

(** C9, as the code has it.  The construction of a product ends with
    [createInterleavedVBOs]; just before it, and only in the direct or the
    preallocated mode, the array buffer is bound to zero, after the element
    array buffer when indexing is on.  Nothing earlier in the construction
    of the product binds a buffer, and outside these two modes
    [createCSGProducts] binds none. *)
Theorem C9_unbind_in_direct_or_prealloc_mode :
  forall (F : Features) (E : Env) (all_vbos : list N) (hl bg : bool)
         (cs cs' : CreateState) (product : CSGProduct),
    build_product F E all_vbos hl bg cs product = Ok cs' ->
    exists body,
      Forall (fun e => is_bind e = false) body
      /\ issued cs' =
         issued cs ++ body
         ++ (if ExperimentalVxORenderersDirect F
                || ExperimentalVxORenderersPrealloc F
             then
               (if ExperimentalVxORenderersIndexing F
                then [glBindBuffer GL_ELEMENT_ARRAY_BUFFER 0] else [])
               ++ [glBindBuffer GL_ARRAY_BUFFER 0]
             else [])
         ++ [call_createInterleavedVBOs].
Proof.
  intros F E all_vbos hl bg cs cs' product. unfold build_product.
  destruct (build_leaves E hl bg _ product) as [st|msg] eqn:Hleaves;
    [|discriminate].
  cbn [bind]. intros [= <-]. exists (trace st). split.
  - rewrite build_leaves_sequence in Hleaves.
    eapply leaf_loops_bind_nothing; [exact Hleaves|]. repeat constructor.
  - reflexivity.
Qed.

(** The statement of C9 on the sample scene. *)
Lemma C9_witness :
  exists body,
    Forall (fun e => is_bind e = false) body
    /\ [glGenBuffers 1] ++ body
       ++ [glBindBuffer GL_ARRAY_BUFFER 0; call_createInterleavedVBOs] =
       match prepare (mkFeatures true false true false) Sample.env
               (Sample.renderer [mkProduct [Sample.solid] []]) None with
       | Ok (_, t) => t
       | Abort _ => []
       end.
Proof.
  destruct (@C9_unbind_in_direct_or_prealloc_mode
              (mkFeatures true false true false) Sample.env [1%N] false false
              (mkCreate 0 [] [glGenBuffers 1])
              (match build_product (mkFeatures true false true false)
                       Sample.env [1%N] false false
                       (mkCreate 0 [] [glGenBuffers 1])
                       (mkProduct [Sample.solid] []) with
               | Ok cs' => cs'
               | Abort _ => mkCreate 0 [] []
               end)
              (mkProduct [Sample.solid] []) eq_refl)
    as (body & Hbody & Hissued).
  exists body. split; [exact Hbody|].
  cbn [issued] in Hissued. symmetry. exact Hissued.
Defined.

(** ** [prepare] runs once *)

Lemma product_loop_grows F E all_vbos hl bg l :
  forall cs cs',
    for_each (build_product F E all_vbos hl bg) cs l = Ok cs' ->
    length (built cs') = length (built cs) + length l.
Proof.
  induction l as [|product l IH]; intros cs cs'.
  - intros [= <-]. cbn. lia.
  - cbn [for_each].
    destruct (build_product F E all_vbos hl bg cs product) as [cs1|msg]
      eqn:Hstep; [|discriminate].
    cbn [bind]. intros Hrest. rewrite (IH _ _ Hrest).
    unfold build_product in Hstep.
    destruct (build_leaves E hl bg _ product); [|discriminate].
    injection Hstep as <-. cbn [built length]. rewrite length_app.
    cbn. lia.
Qed.

Lemma createCSGProducts_grows F E w prods hl bg w' t :
  createCSGProducts F E w prods hl bg = Ok (w', t) ->
  same_groups (self w) (self w')
  /\ length (vbo_vertex_products (self w')) =
     length (vbo_vertex_products (self w)) + length (products prods).
Proof.
  unfold createCSGProducts.
  destruct (for_each _ _ (products prods)) as [cs|msg] eqn:Hloop;
    [|discriminate].
  cbn [bind]. intros [= <- <-].
  apply product_loop_grows in Hloop. cbn [built] in Hloop.
  split.
  - destruct (length (products prods) =? 0); repeat split.
  - cbn [self vbo_vertex_products with_buffers]. rewrite Hloop.
    destruct (length (products prods) =? 0); reflexivity.
Qed.

Lemma createCSGProducts_nothing_to_build F E w prods hl bg :
  products prods = [] ->
  createCSGProducts F E w prods hl bg = Ok (w, []).
Proof.
  intros Hnil. unfold createCSGProducts. rewrite Hnil. cbn.
  destruct w as [[root hls bgs vbos vps] names]. reflexivity.
Qed.

Lemma create_if_present_grows F E group hl bg wt wt' :
  create_if_present F E group hl bg wt = Ok wt' ->
  same_groups (self (fst wt)) (self (fst wt'))
  /\ length (vbo_vertex_products (self (fst wt'))) =
     length (vbo_vertex_products (self (fst wt))) + group_size group.
Proof.
  unfold create_if_present. destruct group as [prods|].
  - destruct (createCSGProducts F E (fst wt) prods hl bg) as [[w1 t1]|msg]
      eqn:Hrun; [|discriminate].
    cbn [bind fst snd]. intros [= <-].
    apply (createCSGProducts_grows _ _ _ _ _ _ Hrun).
  - intros [= <-]. cbn [group_size]. split; [repeat split | lia].
Qed.

Lemma create_if_present_nothing_to_build F E group hl bg w :
  group_size group = 0 ->
  create_if_present F E group hl bg (w, []) = Ok (w, []).
Proof.
  unfold create_if_present. destruct group as [prods|]; [|reflexivity].
  cbn [group_size fst snd]. intros Hlen.
  rewrite createCSGProducts_nothing_to_build;
    [reflexivity | now apply length_zero_iff_nil].
Qed.

Lemma product_loop_retains F E all_vbos hl bg l :
  forall cs cs',
    for_each (build_product F E all_vbos hl bg) cs l = Ok cs' ->
    exists vps,
      built cs' = built cs ++ vps /\ Forall2 (built_from E hl bg) l vps.
Proof.
  induction l as [|product l IH]; intros cs cs'.
  - intros [= <-]. exists []. split; [now rewrite app_nil_r | constructor].
  - cbn [for_each].
    destruct (build_product F E all_vbos hl bg cs product) as [cs1|msg]
      eqn:Hstep; [|discriminate].
    cbn [bind]. intros Hrest.
    destruct (IH _ _ Hrest) as (vps & Hbuilt & Hall).
    unfold build_product in Hstep.
    destruct (build_leaves E hl bg _ product) as [st|msg] eqn:Hleaves;
      [|discriminate].
    injection Hstep as <-. cbn [built] in Hbuilt.
    exists (mkVBOProduct (primitives st) (vertex_states st) :: vps). split.
    + rewrite Hbuilt, <- app_assoc. reflexivity.
    + constructor; [|exact Hall]. do 4 eexists. split; [exact Hleaves|].
      reflexivity.
Qed.

(** The products [createCSGProducts] retains are those the leaf loops
    build, one for each product of the group and in its order. *)
Lemma createCSGProducts_retains F E w prods hl bg w' t :
  createCSGProducts F E w prods hl bg = Ok (w', t) ->
  exists vps,
    vbo_vertex_products (self w') = vbo_vertex_products (self w) ++ vps
    /\ Forall2 (built_from E hl bg) (products prods) vps.
Proof.
  unfold createCSGProducts.
  destruct (for_each _ _ (products prods)) as [cs|msg] eqn:Hloop;
    [|discriminate].
  cbn [bind]. intros [= <- <-].
  destruct (product_loop_retains _ _ _ _ _ _ _ Hloop) as (vps & Hbuilt & Hall).
  exists vps. split; [|exact Hall].
  cbn [self vbo_vertex_products with_buffers built] in *. rewrite Hbuilt.
  destruct (length (products prods) =? 0); reflexivity.
Qed.

(** C5.  After a call of [prepare] that returned, a second call on the
    same renderer issues no event (so it generates no buffer) and leaves
    the renderer as it was: the buffer names and the retained products,
    with their vertex states and primitives, are those of the first
    call. *)
Theorem C5_prepare_is_idempotent :
  forall (F : Features) (E : Env) (w w' : World)
         (shaderinfo shaderinfo' : option shaderinfo_t) (t : list Event),
    prepare F E w shaderinfo = Ok (w', t) ->
    prepare F E w' shaderinfo' = Ok (w', []).
Proof.
  intros F E w w' shaderinfo shaderinfo' t. unfold prepare at 1.
  destruct (ExperimentalVxORenderers F
            && (length (vbo_vertex_products (self w)) =? 0)) eqn:Hguard.
  - destruct (create_if_present F E (root_products (self w)) false false
                (w, [])) as [wt1|msg] eqn:H1; [|discriminate].
    cbn [bind].
    destruct (create_if_present F E (background_products (self (fst wt1)))
                false true wt1) as [wt2|msg] eqn:H2; [|discriminate].
    cbn [bind]. intros H3.
    destruct (create_if_present_grows _ _ _ _ _ _ H1)
      as ((Hr1 & Hh1 & Hb1) & Hlen1).
    destruct (create_if_present_grows _ _ _ _ _ _ H2)
      as ((Hr2 & Hh2 & Hb2) & Hlen2).
    destruct (create_if_present_grows _ _ _ _ _ _ H3)
      as ((Hr3 & Hh3 & Hb3) & Hlen3).
    cbn [fst] in *.
    unfold prepare.
    destruct (ExperimentalVxORenderers F
              && (length (vbo_vertex_products (self w')) =? 0)) eqn:Hguard';
      [|reflexivity].
    apply andb_prop in Hguard' as [_ Hempty]. apply Nat.eqb_eq in Hempty.
    assert (Hroot : group_size (root_products (self w')) = 0)
      by (rewrite Hr3, Hr2, Hr1; lia).
    assert (Hback : group_size (background_products (self w')) = 0)
      by (rewrite Hb3, Hb2; lia).
    assert (Hhigh : group_size (highlights_products (self w')) = 0)
      by (rewrite Hh3; lia).
    rewrite (create_if_present_nothing_to_build _ _ _ _ _ _ Hroot).
    cbn [bind fst].
    rewrite (create_if_present_nothing_to_build _ _ _ _ _ _ Hback).
    cbn [bind fst].
    apply (create_if_present_nothing_to_build _ _ _ _ _ _ Hhigh).
  - intros [= <- <-]. unfold prepare. rewrite Hguard. reflexivity.
Qed.

(** The statement of C5 on the sample scene. *)
Lemma C5_witness :
  In (glGenBuffers 1) (snd Sample.prepared)
  /\ length (vbo_vertex_products (self (fst Sample.prepared))) = 1
  /\ prepare Sample.buffered Sample.env (fst Sample.prepared)
       (Some Sample.select_shader) = Ok (fst Sample.prepared, []).
Proof.
  split; [cbn; tauto|]. split; [reflexivity|].
  apply (@C5_prepare_is_idempotent Sample.buffered Sample.env
           (Sample.renderer
              [mkProduct [Sample.solid; Sample.pane] [Sample.solid]])
           (fst Sample.prepared) None (Some Sample.select_shader) (snd Sample.prepared)).
  vm_compute. reflexivity.
Defined.

(** ** A surface write that records nothing *)

(** What each branch does when no surface state is found after the write:
    the two branches that toggle culling stop on their assertion, the
    opaque branch goes on without a primitive. *)
Lemma build_without_surface E hl bg st csgobj ps :
  geom (leaf csgobj) = Some (GeomPolySet ps) ->
  (forall cur csgmode m c, create_surface E cur ps csgmode m c = []) ->
  (forall cur c,
     Forall (fun r => as_OpenCSGVertexState (state_of r) = None)
       (vsm_addColor E cur c)) ->
  surface_of (vertex_states st) = None ->
  build_subtraction E hl bg st csgobj = Abort subtraction_surface_null
  /\ (is_opaque (shader_color E (colormode_of hl bg MATERIAL)
                   (color (leaf csgobj))) = false ->
      build_intersection E hl bg st csgobj = Abort intersection_surface_null)
  /\ (is_opaque (shader_color E (colormode_of hl bg MATERIAL)
                   (color (leaf csgobj))) = true ->
      exists st',
        build_intersection E hl bg st csgobj = Ok st'
        /\ primitives st' = primitives st).
Proof.
  intros Hgeom Hnone Hcol Hst.
  unfold build_subtraction, build_intersection. rewrite Hgeom.
  cbn [as_PolySet]. split; [|split].
  - cbn. rewrite Hnone. cbn [map]. rewrite app_nil_r.
    rewrite (surface_of_snoc_other _ cull_front_state eq_refl). reflexivity.
  - intros ->. cbn. rewrite Hnone. cbn [map]. rewrite app_nil_r.
    rewrite (surface_of_snoc_other _ cull_front_state eq_refl). reflexivity.
  - intros ->. cbn. rewrite Hnone. cbn [map]. rewrite app_nil_r.
    match goal with
    | |- context [surface_of (?l ++ map state_of ?rs)] =>
        assert (Hsurf : surface_of (l ++ map state_of rs) = None)
    end.
    { match goal with
      | |- surface_of (_ ++ map state_of ?rs) = None =>
          pose proof (Hcol (vertex_states st)
                        (next_last_color E (colormode_of hl bg MATERIAL)
                           (color (leaf csgobj)) (last_color st))) as Hrs;
          destruct (rev rs) as [|r rs'] eqn:Hrev
      end.
      - apply (f_equal (@rev _)) in Hrev. rewrite rev_involutive in Hrev.
        rewrite Hrev. cbn [rev map]. rewrite app_nil_r. exact Hst.
      - apply (f_equal (@rev _)) in Hrev. rewrite rev_involutive in Hrev.
        rewrite Hrev in Hrs |- *. cbn [rev] in Hrs |- *.
        rewrite map_app, app_assoc. cbn [map].
        apply surface_of_snoc_other.
        apply Forall_app in Hrs as [_ Hr]. now inversion Hr. }
    rewrite Hsurf. eexists. split; reflexivity.
Qed.

(** C6, run on a scene.  No surface write records a state.  The build of a
    product with one opaque intersection leaf returns, with no primitive and
    no assertion; the same leaf made transparent, or used as a subtraction,
    stops on the assertion. *)
Theorem C6_opaque_intersection_passes_the_assertion :
  let E := Sample.env_no_surface in
  let start := product_start E 1 36 1 in
  is_opaque (color (leaf Sample.solid)) = true
  /\ (exists st,
        build_leaves E false false start (mkProduct [Sample.solid] []) = Ok st
        /\ In (call_create_surface Sample.cube (CSGMODE 1) Sample.identity
                 Sample.red) (trace st)
        /\ surface_of (vertex_states st) = None
        /\ primitives st = [])
  /\ build_leaves E false false start (mkProduct [Sample.pane] []) =
     Abort intersection_surface_null
  /\ build_leaves E false false start (mkProduct [] [Sample.solid]) =
     Abort subtraction_surface_null.
Proof.
  cbv zeta. split; [reflexivity|]. split; [|split; reflexivity].
  eexists. split; [reflexivity|].
  split; [cbn; tauto|]. split; reflexivity.
Qed.

(** ** Replay of the retained vertex states *)

Lemma channel_byte i k :
  channel (Z.of_N i) (8 * Z.of_N k) = Qmake (index_byte i k) 255.
Proof.
  unfold channel, index_byte. f_equal.
  rewrite Z.shiftr_div_pow2 by lia.
  change 255%Z with (Z.ones 8). rewrite Z.land_ones by lia.
  rewrite N2Z.inj_mod, N2Z.inj_div, N2Z.inj_pow, N2Z.inj_mul. reflexivity.
Qed.

Lemma replay_state_spelled showedges shaderinfo vs :
  replay_state showedges shaderinfo vs =
  selection_encoding shaderinfo vs
  ++ (if is_shader_state vs && negb showedges then []
      else flat_map run_closure (glBegin vs) ++ [draw_range vs]
           ++ flat_map run_closure (glEnd vs)).
Proof.
  unfold replay_state, selection_encoding, VertexState_draw. f_equal.
  - destruct (as_OpenCSGVertexState vs) as [i|]; [|reflexivity].
    unfold select_uniform. destruct shaderinfo as [si|]; [|reflexivity].
    destruct (is_select si); [|reflexivity].
    change 0%Z with (8 * Z.of_N 0)%Z at 1.
    change 8%Z with (8 * Z.of_N 1)%Z at 2.
    change 16%Z with (8 * Z.of_N 2)%Z.
    rewrite !channel_byte. reflexivity.
  - destruct (is_shader_state vs), showedges; reflexivity.
Qed.

(** C7 as the spec words it fails: the colour state that [addColor] put in
    the retained list is a shader state; a frame drawn without edges runs
    neither its callback nor its draw call. *)
Lemma C7_shader_state_skipped_without_edges :
  exists w t vp,
    prepare Sample.buffered Sample.env
      (Sample.renderer [mkProduct [Sample.solid] []]) None = Ok (w, t)
    /\ vbo_vertex_products (self w) = [vp]
    /\ In (state_of Sample.color_state) (vp_states vp)
    /\ glBegin (state_of Sample.color_state) = [fn_external 6]
    /\ ~ In (run_external 6)
           (draw Sample.buffered Sample.env (self w) false None)
    /\ ~ In (draw_range (state_of Sample.color_state))
           (draw Sample.buffered Sample.env (self w) false None).
Proof.
  eexists. eexists. eexists. split; [vm_compute; reflexivity|].
  split; [reflexivity|]. split; [cbn; tauto|]. split; [reflexivity|].
  split; vm_compute; intros H; decompose [or] H; discriminate || assumption.
Qed.

(** ** The primitives of a product *)

Lemma push_primitive_present E hl bg operation l :
  flat_map (push_primitive E operation hl bg (operator_of operation)) l =
  map (primitive_of E hl bg) (present_leaves (map (pair operation) l)).
Proof.
  induction l as [|o l IH]; [reflexivity|].
  cbn [flat_map map present_leaves]. fold (present_leaves (map (pair operation) l)).
  rewrite map_app, <- IH. unfold push_primitive at 1. cbn [fst snd].
  destruct (geom (leaf o)); reflexivity.
Qed.

Lemma immediate_primitives_present E hl bg product :
  immediate_primitives E hl bg product =
  map (primitive_of E hl bg) (present_leaves (leaf_sequence product)).
Proof.
  unfold immediate_primitives, leaf_sequence, present_leaves.
  rewrite flat_map_app, map_app.
  rewrite (push_primitive_present E hl bg Intersection).
  rewrite (push_primitive_present E hl bg Subtraction). reflexivity.
Qed.

Lemma build_leaf_skips E hl bg st x :
  as_PolySet (geom (leaf (snd x))) = None ->
  build_leaf E hl bg st x = Ok st.
Proof.
  destruct x as [operation o]. cbn [snd].
  unfold build_leaf, build_intersection, build_subtraction. cbn [fst snd].
  destruct operation; destruct (geom (leaf o)) as [[ps|k]|]; cbn;
    intros H; reflexivity || discriminate.
Qed.

Lemma build_sequence_primitives E hl bg :
  records_one_surface E ->
  forall l st,
  exists st',
    for_each (build_leaf E hl bg) st l = Ok st'
    /\ map vbo_signature (primitives st') =
       map vbo_signature (primitives st)
       ++ map drawable_signature (drawable_leaves l).
Proof.
  intros Hrec. induction l as [|[operation o] l IH]; intros st.
  - exists st. split; [reflexivity|]. cbn. now rewrite app_nil_r.
  - cbn [for_each drawable_leaves flat_map fst snd].
    fold (drawable_leaves l).
    destruct (as_PolySet (geom (leaf o))) as [ps|] eqn:Hps.
    + assert (Hgeom : geom (leaf o) = Some (GeomPolySet ps)).
      { destruct (geom (leaf o)) as [[ps'|k]|]; cbn in Hps;
          congruence. }
      assert (Hstep : exists st1,
                 build_leaf E hl bg st (operation, o) = Ok st1
                 /\ map vbo_signature (primitives st1) =
                    map vbo_signature (primitives st)
                    ++ [(operation, ps_convexity ps)]).
      { unfold build_leaf. cbn [fst snd]. destruct operation.
        - destruct (build_intersection_shape Hrec hl bg st o Hgeom)
            as (r & i0 & _ & ->).
          eexists. split; [reflexivity|]. cbn [primitives].
          rewrite map_app. reflexivity.
        - destruct (build_subtraction_shape Hrec hl bg st o Hgeom)
            as (r & i0 & _ & ->).
          eexists. split; [reflexivity|]. cbn [primitives].
          rewrite map_app. reflexivity. }
      destruct Hstep as (st1 & -> & Hsig). cbn [bind].
      destruct (IH st1) as (st' & Hrun & Hsig').
      exists st'. split; [exact Hrun|].
      rewrite Hsig', Hsig, <- app_assoc. reflexivity.
    + rewrite (build_leaf_skips _ _ _ _ (operation, o) Hps). cbn [bind app].
      apply IH.
Qed.

(** C2 as the spec words it fails: a product with one polygon-set leaf and
    one leaf whose geometry is of another kind.  One leaf has a supported
    surface, and the immediate path hands the compositor two primitives. *)
Lemma C2_unsupported_leaf_gets_a_primitive :
  let product := mkProduct [Sample.solid; Sample.nef] [] in
  as_PolySet (geom (leaf Sample.nef)) = None
  /\ length (drawable_leaves (leaf_sequence product)) = 1
  /\ exists prims,
       In (OpenCSG_render prims)
         (render_product Sample.env false None false false product)
       /\ length prims = 2.
Proof.
  cbv zeta. split; [reflexivity|]. split; [reflexivity|].
  eexists. split; [left; reflexivity | reflexivity].
Qed.

(** C2, as the code has it.  Immediate path: the primitive list holds one
    primitive for every leaf that points to a geometry, polygon set or
    not, in intersection-then-subtraction order; the compositor receives
    this list, and only when it has more than one element; the primitive of
    a leaf whose geometry is no polygon set renders nothing and the leaf is
    not drawn.  Buffer-build path: a leaf with no geometry or with a
    geometry that is no polygon set leaves the build state as it is, so it
    adds no primitive and no vertex state; when every surface write records
    one surface state, the retained list holds one primitive for every leaf
    with a polygon set, in the same order; the replay hands the retained
    list to the compositor, and only when it has more than one element. *)
Theorem C2_primitives_of_a_product :
  forall (E : Env) (hl bg : bool) (product : CSGProduct),
    immediate_primitives E hl bg product =
      map (primitive_of E hl bg) (present_leaves (leaf_sequence product))
    /\ (forall showedges shaderinfo prims,
          In (OpenCSG_render prims)
            (render_product E showedges shaderinfo hl bg product)
          <-> prims = immediate_primitives E hl bg product
              /\ 1 < length prims)
    /\ (forall showedges shaderinfo vp prims,
          In (OpenCSG_render_vbo prims)
            (render_vbo_product showedges shaderinfo vp)
          <-> prims = vp_primitives vp /\ 1 < length prims)
    /\ (forall operation o k,
          geom (leaf o) = Some (GeomOther k) ->
          OpenCSGPrim_render (primitive_of E hl bg (operation, o, GeomOther k))
            = []
          /\ forall shaderinfo,
               render_intersection E shaderinfo hl bg o = []
               /\ render_subtraction E shaderinfo hl bg o = [])
    /\ (forall st x,
          as_PolySet (geom (leaf (snd x))) = None ->
          build_leaf E hl bg st x = Ok st)
    /\ (records_one_surface E ->
        forall st,
        exists st',
          build_leaves E hl bg st product = Ok st'
          /\ map vbo_signature (primitives st') =
             map vbo_signature (primitives st)
             ++ map drawable_signature
                  (drawable_leaves (leaf_sequence product))).
Proof.
  intros E hl bg product.
  split; [apply immediate_primitives_present|].
  split; [|split; [|split; [|split]]].
  - intros showedges shaderinfo prims. rewrite render_product_split. split.
    + intros Hin. apply in_app_or in Hin as [Hin|Hin].
      * destruct (1 <? length (immediate_primitives E hl bg product))
          eqn:Hlen; [|destruct Hin].
        destruct Hin as [[= <-]|[Hin|[]]]; [|discriminate].
        split; [reflexivity | now apply Nat.ltb_lt].
      * exfalso. apply in_app_or in Hin as [Hin|[Hin|[]]];
          [|discriminate].
        pose proof (immediate_body_leaves_depth_alone E showedges shaderinfo
                      hl bg product) as Hbody.
        rewrite Forall_forall in Hbody.
        destruct (Hbody _ Hin) as [Hc _]. discriminate.
    + intros [-> Hlen]. apply Nat.ltb_lt in Hlen. rewrite Hlen.
      left. reflexivity.
  - intros showedges shaderinfo vp prims. rewrite render_vbo_product_split.
    split.
    + intros Hin. apply in_app_or in Hin as [Hin|Hin].
      * destruct (1 <? length (vp_primitives vp)) eqn:Hlen; [|destruct Hin].
        destruct Hin as [[= <-]|[Hin|[]]]; [|discriminate].
        split; [reflexivity | now apply Nat.ltb_lt].
      * exfalso. apply in_app_or in Hin as [Hin|[Hin|[]]];
          [|discriminate].
        pose proof (replay_body_leaves_depth_alone showedges shaderinfo vp)
          as Hbody.
        rewrite Forall_forall in Hbody.
        destruct (Hbody _ Hin) as [Hc _]. discriminate.
    + intros [-> Hlen]. apply Nat.ltb_lt in Hlen. rewrite Hlen.
      left. reflexivity.
  - intros operation o k Hgeom. split; [reflexivity|].
    intros shaderinfo. unfold render_intersection, render_subtraction.
    rewrite Hgeom. split; reflexivity.
  - intros st x. apply build_leaf_skips.
  - intros Hrec st. rewrite build_leaves_sequence.
    apply (build_sequence_primitives hl bg Hrec).
Qed.

(** The statement of C2 on the sample scene. *)
Lemma C2_witness :
  let product :=
    mkProduct [Sample.solid; Sample.nef] [Sample.hollow; Sample.pane] in
  length (immediate_primitives Sample.env false false product) = 3
  /\ render_subtraction Sample.env None false false Sample.nef = []
  /\ build_leaf Sample.env false false Sample.after_pane (Intersection, Sample.hollow)
     = Ok Sample.after_pane
  /\ exists st',
       build_leaves Sample.env false false (product_start Sample.env 1 72 1)
         product = Ok st'
       /\ map vbo_signature (primitives st') =
          [(Intersection, 1); (Subtraction, 1)].
Proof.
  destruct (C2_primitives_of_a_product Sample.env false false
              (mkProduct [Sample.solid; Sample.nef]
                 [Sample.hollow; Sample.pane]))
    as (Hprims & _ & _ & Hother & Hskip & Hbuild).
  cbv zeta. split; [rewrite Hprims; reflexivity|].
  split; [exact (proj2 (proj2 (Hother Subtraction Sample.nef 2 eq_refl) None))|].
  split; [exact (Hskip Sample.after_pane (Intersection, Sample.hollow) eq_refl)|].
  exact (Hbuild sample_records_one_surface (product_start Sample.env 1 72 1)).
Defined.

(** ** Intersection leaves and transparency *)

(** Immediate path: the branch is chosen by the colour [setColor] returns. *)
Lemma intersection_picture_immediate E shaderinfo hl bg csgobj ps :
  geom (leaf csgobj) = Some (GeomPolySet ps) ->
  let surface :=
    call_render_surface ps (get_csgmode E hl bg None) (matrix (leaf csgobj))
      shaderinfo in
  culling_and_surfaces (render_intersection E shaderinfo hl bg csgobj) =
  if is_opaque (setColor E (colormode_of hl bg MATERIAL)
                  (color (leaf csgobj)) shaderinfo)
  then [surface]
  else [glEnable GL_CULL_FACE; glCullFace GL_FRONT; surface;
        glCullFace GL_BACK; surface; glDisable GL_CULL_FACE].
Proof.
  intros Hgeom surface. unfold render_intersection. rewrite Hgeom.
  cbn [as_PolySet]. rewrite culling_and_surfaces_app, select_uniform_silent.
  destruct (is_opaque _); reflexivity.
Qed.

(** Buffer-build path: the branch is chosen by the out-parameter [color],
    which is the resolved colour when the resolver overrides and a
    default-constructed colour when it declines. *)
Lemma intersection_picture_buffer E hl bg st csgobj ps :
  records_one_surface E ->
  addColor_adds_no_surface E ->
  geom (leaf csgobj) = Some (GeomPolySet ps) ->
  exists st' added s,
    build_intersection E hl bg st csgobj = Ok st'
    /\ vertex_states st' = vertex_states st ++ added
    /\ vs_class s = OpenCSGVertexState (index (leaf csgobj))
    /\ forall showedges shaderinfo,
         culling_and_surfaces
           (flat_map (replay_state showedges shaderinfo) added) =
         leaf_picture Intersection
           (is_opaque
              (match getShaderColor E (colormode_of hl bg MATERIAL)
                       (color (leaf csgobj)) with
               | Some col => col
               | None => Color4f_new E
               end)) s.
Proof.
  intros Hrec Hcol Hgeom.
  destruct (build_intersection_shape Hrec hl bg st csgobj Hgeom)
    as (r & i0 & Hclass & Hbuild).
  cbv zeta in Hbuild.
  eexists. eexists.
  exists (set_csgObjectIndex (index (leaf csgobj)) (state_of r)).
  split; [exact Hbuild|]. split; [reflexivity|]. split.
  - apply (set_csgObjectIndex_class _ (state_of r) Hclass).
  - intros showedges shaderinfo.
    rewrite flat_map_app, culling_and_surfaces_app.
    rewrite (replay_color_states _ _ (Hcol _ _)).
    apply (replay_leaf_states showedges shaderinfo Intersection _ r
             (index (leaf csgobj)) Hclass).
Qed.

(** On a scene: two intersection leaves, a half-transparent pane, then a
    leaf for which the resolver declines.  The colour handed on for the
    second leaf is [last_color], the pane's; the test of line 212 reads
    the out-parameter, here a default colour with alpha 1.0, and the leaf
    gets one surface state and no culling state. *)
Lemma declined_leaf_is_tested_on_the_default_colour :
  for_each (build_leaf Sample.env false false)
    (product_start Sample.env 1 72 1) [(Intersection, Sample.pane)]
  = Ok Sample.after_pane
  /\ build_leaf Sample.env false false Sample.after_pane (Intersection, Sample.plain)
     = Ok Sample.after_plain
  /\ getShaderColor Sample.env MATERIAL (color (leaf Sample.plain)) = None
  /\ last_color Sample.after_plain = Sample.glass
  /\ is_opaque Sample.glass = false
  /\ In (call_create_surface Sample.cube (CSGMODE 1) Sample.identity
           Sample.glass) (skipn (length (trace Sample.after_pane)) (trace Sample.after_plain))
  /\ exists s,
       vertex_states Sample.after_plain =
       vertex_states Sample.after_pane ++ [state_of Sample.color_state; s]
       /\ vs_class s = OpenCSGVertexState 8
       /\ culling_and_surfaces
            (flat_map (replay_state false None)
               [state_of Sample.color_state; s]) = [draw_range s].
Proof.
  split; [reflexivity|]. split; [reflexivity|]. split; [reflexivity|].
  split; [reflexivity|]. split; [reflexivity|]. split; [cbn; tauto|].
  eexists. split; [reflexivity|]. split; reflexivity.
Qed.

(** ** The selection colour *)

Lemma to_int_low_bits z m :
  (0 <= m < 32)%Z -> Z.testbit (to_int z) m = Z.testbit z m.
Proof.
  intros Hm.
  rewrite <- (Z.mod_pow2_bits_low (to_int z) 32 m) by lia.
  rewrite <- (Z.mod_pow2_bits_low z 32 m) by lia.
  f_equal. unfold to_int.
  rewrite Zminus_mod_idemp_l. f_equal. lia.
Qed.

Lemma channel_to_int z k :
  (0 <= k)%Z -> (k + 8 <= 32)%Z -> channel (to_int z) k = channel z k.
Proof.
  intros Hk Hk8. unfold channel. f_equal.
  apply Z.bits_inj'. intros n Hn.
  rewrite !Z.land_spec, !Z.shiftr_spec by lia.
  destruct (Z.ltb_spec n 8) as [Hlow|Hhigh].
  - rewrite to_int_low_bits by lia. reflexivity.
  - change 255%Z with (Z.ones 8). rewrite Z.ones_spec_high by lia.
    now rewrite !andb_false_r.
Qed.

Lemma index_bytes_join (i : N) :
  (index_byte i 0 + 256 * index_byte i 1 + 65536 * index_byte i 2)%Z =
  Z.of_N (i mod 2 ^ 24).
Proof.
  unfold index_byte.
  change (8 * 0)%N with 0%N. change (8 * 1)%N with 8%N.
  change (8 * 2)%N with 16%N.
  change (2 ^ 0)%N with 1%N. change (2 ^ 8)%N with 256%N.
  change (2 ^ 16)%N with (256 * 256)%N.
  change (2 ^ 24)%N with (256 * (256 * 256))%N.
  rewrite N.div_1_r.
  rewrite (N.Div0.mod_mul_r i 256 (256 * 256)).
  rewrite (N.Div0.mod_mul_r (i / 256) 256 256).
  rewrite N.Div0.div_div.
  rewrite !N2Z.inj_add, !N2Z.inj_mul. change (Z.of_N 256) with 256%Z.
  lia.
Qed.

Lemma selection_colour_bytes (i : N) :
  selection_colour (Z.of_N i) =
  (Qmake (index_byte i 0) 255, Qmake (index_byte i 1) 255,
   Qmake (index_byte i 2) 255).
Proof.
  unfold selection_colour.
  change 0%Z with (8 * Z.of_N 0)%Z at 1.
  change 8%Z with (8 * Z.of_N 1)%Z at 2.
  change 16%Z with (8 * Z.of_N 2)%Z.
  rewrite !channel_byte. reflexivity.
Qed.

Lemma select_uniform_colour si identifier :
  is_select si = true ->
  select_uniform (Some si) identifier =
  [glUniform3f (select_identifier si) (fst (fst (selection_colour identifier)))
     (snd (fst (selection_colour identifier)))
     (snd (selection_colour identifier))].
Proof. intros Hsel. unfold select_uniform. rewrite Hsel. reflexivity. Qed.

(** Two leaf indices below 2^24 that get the same selection colour are the
    same index: the index is the three bytes that the colour carries. *)
Theorem selection_colour_tells_indices_apart :
  forall (si : shaderinfo_t) (i j : N),
    is_select si = true ->
    (i < 2 ^ 24)%N -> (j < 2 ^ 24)%N ->
    select_uniform (Some si) (Z.of_N i) = select_uniform (Some si) (Z.of_N j) ->
    i = j.
Proof.
  intros si i j Hsel Hi Hj Heq.
  rewrite !(@select_uniform_colour si _ Hsel), !selection_colour_bytes in Heq.
  cbn [fst snd] in Heq. injection Heq as H0 H1 H2.
  pose proof (index_bytes_join i) as Ji. pose proof (index_bytes_join j) as Jj.
  rewrite H0, H1, H2 in Ji. rewrite Ji in Jj.
  apply N2Z.inj in Jj. rewrite !N.mod_small in Jj by assumption. exact Jj.
Qed.

Lemma selection_colour_tells_indices_apart_witness :
  (3 < 2 ^ 24)%N /\ 3%N = (2 + 1)%N.
Proof.
  split; [reflexivity|].
  apply (@selection_colour_tells_indices_apart Sample.select_shader 3
           (2 + 1)); reflexivity.
Defined.

Lemma index_byte_period (i k b : N) :
  (b <= 2)%N -> index_byte (i + k * 2 ^ 24) b = index_byte i b.
Proof.
  intros Hb. unfold index_byte. f_equal.
  assert (Hsplit : (2 ^ 24 = 2 ^ (8 * (2 - b)) * 256 * 2 ^ (8 * b))%N).
  { change 256%N with (2 ^ 8)%N. rewrite <- !N.pow_add_r. f_equal. lia. }
  rewrite Hsplit, !N.mul_assoc, N.div_add by (apply N.pow_nonzero; lia).
  apply N.Div0.mod_add.
Qed.

(** Indices that differ by a multiple of 2^24 get the same selection
    colour: the colour has room for three bytes. *)
Theorem selection_colour_wraps_at_24_bits :
  forall (shaderinfo : option shaderinfo_t) (i k : N),
    select_uniform shaderinfo (Z.of_N (i + k * 2 ^ 24)) =
    select_uniform shaderinfo (Z.of_N i).
Proof.
  intros [si|] i k; [|reflexivity].
  unfold select_uniform. destruct (is_select si); [|reflexivity].
  pose proof (selection_colour_bytes (i + k * 2 ^ 24)) as H1.
  pose proof (selection_colour_bytes i) as H2.
  rewrite !index_byte_period in H1 by lia. rewrite <- H2 in H1.
  exact (f_equal
           (fun c => [glUniform3f (select_identifier si) (fst (fst c))
                        (snd (fst c)) (snd c)]) H1).
Qed.

(** The immediate path converts the leaf index to [int] before it encodes
    it, the replay does not; both issue the same selection colour, for
    every index. *)
Theorem selection_colour_same_in_both_paths :
  forall (shaderinfo : option shaderinfo_t) (i : N),
    select_uniform shaderinfo (to_int (Z.of_N i)) =
    select_uniform shaderinfo (Z.of_N i).
Proof.
  intros [si|] i; [|reflexivity]. unfold select_uniform.
  destruct (is_select si); [|reflexivity].
  rewrite !channel_to_int by lia. reflexivity.
Qed.

(** ** The graphics state after a frame *)

Lemma depth_func_after_app t1 t2 f :
  depth_func_after (t1 ++ t2) f = depth_func_after t2 (depth_func_after t1 f).
Proof. apply fold_left_app. Qed.

Lemma program_after_app t1 t2 p :
  program_after (t1 ++ t2) p = program_after t2 (program_after t1 p).
Proof. apply fold_left_app. Qed.

Lemma culling_after_app t1 t2 b :
  culling_after (t1 ++ t2) b = culling_after t2 (culling_after t1 b).
Proof. apply fold_left_app. Qed.

Lemma matrix_depth_after_app t1 t2 d d' :
  matrix_depth_after t1 d = Some d' ->
  matrix_depth_after (t1 ++ t2) d = matrix_depth_after t2 d'.
Proof.
  unfold matrix_depth_after. intros H. now rewrite fold_left_app, H.
Qed.

(** A property of runs that the empty run has and that concatenation
    keeps holds of a frame as soon as it holds of every product's run. *)
Lemma draw_frame_property (P : list Event -> Prop)
  (Q : OpenCSGVBOProduct -> Prop) F E r showedges shaderinfo :
  P [] ->
  (forall t1 t2, P t1 -> P t2 -> P (t1 ++ t2)) ->
  (forall si hl bg product, P (render_product E showedges si hl bg product)) ->
  (forall si vp, Q vp -> P (render_vbo_product showedges si vp)) ->
  Forall Q (vbo_vertex_products r) ->
  P (draw F E r showedges shaderinfo).
Proof.
  intros Hnil Happ Himm Hvbo Hall.
  assert (Hflat : forall A (f : A -> list Event) l,
             (forall a, In a l -> P (f a)) -> P (flat_map f l)).
  { intros A f l. induction l as [|a l IH]; intros Hf; [exact Hnil|].
    cbn [flat_map]. apply Happ; [apply Hf; now left|].
    apply IH. intros a' Ha'. apply Hf. now right. }
  unfold draw, renderCSGProducts, when_present.
  destruct (negb (ExperimentalVxORenderers F)).
  - repeat apply Happ;
      match goal with
      | |- P match ?g with Some _ => _ | None => _ end =>
          destruct g; [|exact Hnil]
      end;
      apply Hflat; intros; apply Himm.
  - apply Hflat. intros vp Hin. apply Hvbo.
    rewrite Forall_forall in Hall. now apply Hall.
Qed.

Lemma fold_left_quiet {S} (step : S -> Event -> S) (t : list Event) (x : S) :
  Forall (fun e => forall y, step y e = y) t -> fold_left step t x = x.
Proof.
  intros H. revert x. induction H as [|e t He _ IH]; intros x;
    [reflexivity|].
  cbn [fold_left]. rewrite He. apply IH.
Qed.

Ltac classify_events :=
  repeat first
    [ apply Forall_nil
    | apply Forall_cons
    | apply Forall_app; split ];
  try reflexivity.

Lemma render_intersection_calls E shaderinfo hl bg csgobj :
  Forall (fun e => is_leaf_call e = true)
    (render_intersection E shaderinfo hl bg csgobj).
Proof.
  unfold render_intersection, select_uniform.
  destruct (as_PolySet (geom (leaf csgobj))); [|constructor].
  cbv zeta. destruct (is_opaque _);
    destruct shaderinfo as [si|]; try destruct (is_select si);
    classify_events.
Qed.

Lemma render_subtraction_calls E shaderinfo hl bg csgobj :
  Forall (fun e => is_leaf_call e = true)
    (render_subtraction E shaderinfo hl bg csgobj).
Proof.
  unfold render_subtraction.
  destruct (as_PolySet (geom (leaf csgobj))); classify_events.
Qed.

Lemma replay_state_calls showedges shaderinfo vs :
  Forall (fun e => is_replay_call e = true)
    (replay_state showedges shaderinfo vs).
Proof.
  unfold replay_state, select_uniform, VertexState_draw.
  assert (Hcl : forall fs,
             Forall (fun e => is_replay_call e = true)
               (flat_map run_closure fs)).
  { intros fs. apply Forall_flat_map_all. intros f.
    destruct f; classify_events. }
  apply Forall_app; split.
  - destruct (as_OpenCSGVertexState vs); [|constructor].
    destruct shaderinfo as [si|]; [|constructor].
    destruct (is_select si); classify_events.
  - destruct (negb _ || _); [|constructor].
    classify_events; apply Hcl.
Qed.

(** *** The depth function *)

Lemma depth_reset_last (body : list Event) (f : GLfunc) :
  depth_func_after (body ++ [glDepthFunc GL_LEQUAL]) f = GL_LEQUAL.
Proof. rewrite depth_func_after_app. reflexivity. Qed.

(** A frame that issues any call at all leaves the depth function at
    "less or equal", whatever it was before the frame and in either
    path. *)
Theorem draw_leaves_depth_func_lequal :
  forall (F : Features) (E : Env) (r : OpenCSGRenderer) (showedges : bool)
         (shaderinfo : option shaderinfo_t),
    draw F E r showedges shaderinfo = []
    \/ forall f,
         depth_func_after (draw F E r showedges shaderinfo) f = GL_LEQUAL.
Proof.
  intros F E r showedges shaderinfo.
  apply draw_frame_property
    with (P := fun t => t = [] \/ forall f, depth_func_after t f = GL_LEQUAL)
         (Q := fun _ => True).
  - now left.
  - intros t1 t2 H1 [-> | H2].
    + now rewrite app_nil_r.
    + right. intros f. rewrite depth_func_after_app. apply H2.
  - intros si hl bg product. right. intros f.
    rewrite render_product_split, app_assoc. apply depth_reset_last.
  - intros si vp _. right. intros f.
    rewrite render_vbo_product_split, app_assoc. apply depth_reset_last.
  - apply Forall_forall. trivial.
Qed.

(** *** The bound program *)

Lemma leaf_calls_keep_program t p :
  Forall (fun e => is_leaf_call e = true) t -> program_after t p = p.
Proof.
  intros H. apply fold_left_quiet. eapply Forall_impl; [|exact H].
  intros e He y. destruct e; try reflexivity; discriminate.
Qed.

Lemma replay_calls_keep_program t p :
  Forall (fun e => is_replay_call e = true) t -> program_after t p = p.
Proof.
  intros H. apply fold_left_quiet. eapply Forall_impl; [|exact H].
  intros e He y. destruct e; try reflexivity; discriminate.
Qed.

Lemma program_after_flat_map {A} (f : A -> list Event) l p :
  (forall a q, program_after (f a) q = q) ->
  program_after (flat_map f l) p = p.
Proof.
  intros Hf. induction l as [|a l IH]; [reflexivity|].
  cbn [flat_map]. now rewrite program_after_app, Hf.
Qed.

Lemma render_product_program E showedges shaderinfo hl bg product p :
  program_after (render_product E showedges shaderinfo hl bg product) p =
  match shaderinfo with Some _ => 0%N | None => p end.
Proof.
  rewrite render_product_split. unfold immediate_body.
  rewrite !program_after_app.
  rewrite (program_after_flat_map (render_subtraction E shaderinfo hl bg))
    by (intros; apply leaf_calls_keep_program, render_subtraction_calls).
  rewrite (program_after_flat_map (render_intersection E shaderinfo hl bg))
    by (intros; apply leaf_calls_keep_program, render_intersection_calls).
  destruct shaderinfo as [si|]; [reflexivity|].
  destruct (1 <? _); reflexivity.
Qed.

Lemma render_vbo_product_program showedges shaderinfo vp p :
  program_after (render_vbo_product showedges shaderinfo vp) p =
  match shaderinfo with
  | Some si => if (progid si =? 0)%N then p else 0%N
  | None => p
  end.
Proof.
  rewrite render_vbo_product_split. unfold replay_body.
  rewrite !program_after_app.
  rewrite (program_after_flat_map (replay_state showedges shaderinfo))
    by (intros; apply replay_calls_keep_program, replay_state_calls).
  destruct shaderinfo as [si|].
  - destruct (progid si =? 0)%N; [destruct (1 <? _); reflexivity|].
    destruct (is_edge si && showedges); reflexivity.
  - destruct (1 <? _); reflexivity.
Qed.

(** A frame never leaves a program of its own bound: after it, the bound
    program is the one that was bound before it, or none. *)
Theorem draw_leaves_no_program_bound :
  forall (F : Features) (E : Env) (r : OpenCSGRenderer) (showedges : bool)
         (shaderinfo : option shaderinfo_t) (p : N),
    program_after (draw F E r showedges shaderinfo) p = p
    \/ program_after (draw F E r showedges shaderinfo) p = 0%N.
Proof.
  intros F E r showedges shaderinfo p. revert p.
  apply draw_frame_property
    with (P := fun t => forall p, program_after t p = p
                                  \/ program_after t p = 0%N)
         (Q := fun _ => True).
  - intros p. now left.
  - intros t1 t2 H1 H2 p. rewrite program_after_app.
    destruct (H1 p) as [-> | ->]; [apply H2|].
    right. destruct (H2 0%N) as [H | H]; exact H.
  - intros si hl bg product p. rewrite render_product_program.
    destruct si; [now right | now left].
  - intros si vp _ p. rewrite render_vbo_product_program.
    destruct si as [s|]; [|now left].
    destruct (progid s =? 0)%N; [now left | now right].
  - apply Forall_forall. trivial.
Qed.

(** *** The matrix stack *)

Lemma matrix_quiet t d :
  Forall (fun e => forall od, matrix_step od e = od) t ->
  matrix_depth_after t d = Some d.
Proof. intros H. unfold matrix_depth_after. now apply fold_left_quiet. Qed.

Lemma matrix_balanced_app t1 t2 :
  (forall d, matrix_depth_after t1 d = Some d) ->
  (forall d, matrix_depth_after t2 d = Some d) ->
  forall d, matrix_depth_after (t1 ++ t2) d = Some d.
Proof.
  intros H1 H2 d. rewrite (@matrix_depth_after_app t1 t2 d d (H1 d)). apply H2.
Qed.

Lemma matrix_balanced_flat_map {A} (f : A -> list Event) l :
  (forall a d, matrix_depth_after (f a) d = Some d) ->
  forall d, matrix_depth_after (flat_map f l) d = Some d.
Proof.
  intros Hf. induction l as [|a l IH]; [reflexivity|].
  cbn [flat_map]. apply matrix_balanced_app; [apply Hf | exact IH].
Qed.

Lemma render_intersection_balanced E shaderinfo hl bg csgobj d :
  matrix_depth_after (render_intersection E shaderinfo hl bg csgobj) d
  = Some d.
Proof.
  unfold render_intersection, select_uniform.
  destruct (as_PolySet (geom (leaf csgobj))); [|reflexivity].
  cbv zeta. destruct (is_opaque _);
    destruct shaderinfo as [si|]; try destruct (is_select si); reflexivity.
Qed.

Lemma render_subtraction_balanced E shaderinfo hl bg csgobj d :
  matrix_depth_after (render_subtraction E shaderinfo hl bg csgobj) d
  = Some d.
Proof.
  unfold render_subtraction.
  destruct (as_PolySet (geom (leaf csgobj))); reflexivity.
Qed.

(** Every frame leaves the matrix stack at the height it found it, and
    never pops an entry it did not push; so does the render callback of
    every primitive of the immediate path. *)
Theorem draw_keeps_the_matrix_stack :
  forall (F : Features) (E : Env) (r : OpenCSGRenderer) (showedges : bool)
         (shaderinfo : option shaderinfo_t) (d : nat),
    matrix_depth_after (draw F E r showedges shaderinfo) d = Some d
    /\ forall p, matrix_depth_after (OpenCSGPrim_render p) d = Some d.
Proof.
  intros F E r showedges shaderinfo d. split.
  - revert d.
    apply draw_frame_property
      with (P := fun t => forall d, matrix_depth_after t d = Some d)
           (Q := fun _ => True).
    + reflexivity.
    + apply matrix_balanced_app.
    + intros si hl bg product. rewrite render_product_split.
      unfold immediate_body. repeat apply matrix_balanced_app.
      * destruct (1 <? _); reflexivity.
      * destruct si as [s|]; [|reflexivity].
        destruct (progid s =? 0)%N; [reflexivity|].
        destruct (negb _ || _); reflexivity.
      * apply matrix_balanced_flat_map. intros.
        apply render_intersection_balanced.
      * apply matrix_balanced_flat_map. intros.
        apply render_subtraction_balanced.
      * destruct si; reflexivity.
      * reflexivity.
    + intros si vp _. rewrite render_vbo_product_split.
      unfold replay_body. repeat apply matrix_balanced_app.
      * destruct (1 <? _); reflexivity.
      * destruct si as [s|]; [|reflexivity].
        destruct (progid s =? 0)%N; [reflexivity|].
        destruct (is_edge s && showedges); reflexivity.
      * apply matrix_balanced_flat_map. intros vs d'.
        apply matrix_quiet.
        eapply Forall_impl; [|apply replay_state_calls].
        intros e He [d''|]; [|reflexivity].
        destruct e; try reflexivity; discriminate.
      * destruct si as [s|]; [|reflexivity].
        destruct (progid s =? 0)%N; [reflexivity|].
        destruct (is_edge s && showedges); reflexivity.
      * reflexivity.
    + apply Forall_forall. trivial.
  - intros p. unfold OpenCSGPrim_render.
    destruct (prim_geom p); reflexivity.
Qed.

(** *** Face culling *)

Lemma culling_replay_state showedges shaderinfo vs b :
  culling_after (replay_state showedges shaderinfo vs) b =
  if negb (is_shader_state vs) || (showedges && is_shader_state vs)
  then culling_after (flat_map run_closure (glEnd vs))
         (culling_after (flat_map run_closure (glBegin vs)) b)
  else b.
Proof.
  unfold replay_state. rewrite culling_after_app.
  assert (Hsel : forall x,
             culling_after
               match as_OpenCSGVertexState vs with
               | Some i => select_uniform shaderinfo (Z.of_N i)
               | None => []
               end x = x).
  { intros x. destruct (as_OpenCSGVertexState vs); [|reflexivity].
    unfold select_uniform. destruct shaderinfo as [si|]; [|reflexivity].
    destruct (is_select si); reflexivity. }
  rewrite Hsel. destruct (negb _ || _); [|reflexivity].
  unfold VertexState_draw. rewrite !culling_after_app. reflexivity.
Qed.

Lemma culling_tagged showedges shaderinfo i vs b :
  culling_after (replay_state showedges shaderinfo (set_csgObjectIndex i vs)) b
  = culling_after (replay_state showedges shaderinfo vs) b.
Proof.
  rewrite !culling_replay_state.
  replace (is_shader_state (set_csgObjectIndex i vs))
    with (is_shader_state vs)
    by (unfold is_shader_state, set_csgObjectIndex; cbn;
        destruct (vs_class vs); reflexivity).
  reflexivity.
Qed.

Lemma culling_external_closures tags b :
  culling_after (flat_map run_closure (map fn_external tags)) b = b.
Proof. induction tags as [|x tags IH]; [reflexivity | exact IH]. Qed.

Lemma culling_recorded_states showedges shaderinfo rs b :
  culling_after
    (flat_map (replay_state showedges shaderinfo) (map state_of rs)) b = b.
Proof.
  induction rs as [|r rs IH]; [reflexivity|].
  cbn [map flat_map]. rewrite culling_after_app, culling_replay_state.
  change (glBegin (state_of r)) with (map fn_external (rec_begin r)).
  change (glEnd (state_of r)) with (map fn_external (rec_end r)).
  rewrite !culling_external_closures.
  destruct (negb _ || _); exact IH.
Qed.

Lemma culling_tag_back showedges shaderinfo i l b :
  culling_after (flat_map (replay_state showedges shaderinfo) (tag_back i l)) b
  = culling_after (flat_map (replay_state showedges shaderinfo) l) b.
Proof.
  unfold tag_back. destruct (rev l) as [|vs r] eqn:Hrev.
  - apply (f_equal (@rev _)) in Hrev. rewrite rev_involutive in Hrev.
    now rewrite Hrev.
  - apply (f_equal (@rev _)) in Hrev. rewrite rev_involutive in Hrev.
    rewrite Hrev. cbn [rev]. rewrite !flat_map_app, !culling_after_app.
    cbn [flat_map]. rewrite !app_nil_r. apply culling_tagged.
Qed.

Lemma culling_ends_off showedges shaderinfo l b :
  culling_after
    (flat_map (replay_state showedges shaderinfo) (l ++ [cull_off_state])) b
  = false.
Proof. rewrite flat_map_app, culling_after_app. reflexivity. Qed.

Lemma build_leaf_keeps_culling_balanced E hl bg st x st' :
  build_leaf E hl bg st x = Ok st' ->
  culling_balanced (vertex_states st) ->
  culling_balanced (vertex_states st').
Proof.
  destruct x as [operation csgobj].
  unfold build_leaf, build_intersection, build_subtraction. cbn [fst snd].
  intros Hrun Hbal showedges shaderinfo.
  destruct operation;
    (destruct (geom (leaf csgobj)) as [[ps|k]|];
     [|injection Hrun as <-; apply Hbal ..]);
    cbn [as_PolySet] in Hrun.
  - destruct (is_opaque _).
    + destruct (surface_of _); injection Hrun as <-; cbn;
        rewrite ?culling_tag_back, !flat_map_app, !culling_after_app,
          !culling_recorded_states; apply Hbal.
    + destruct (surface_of _); [|discriminate]. injection Hrun as <-.
      cbn. apply culling_ends_off.
  - destruct (surface_of _); [|discriminate]. injection Hrun as <-.
    cbn. apply culling_ends_off.
Qed.

Lemma leaf_loops_keep_culling_balanced E hl bg l :
  forall st st',
    for_each (build_leaf E hl bg) st l = Ok st' ->
    culling_balanced (vertex_states st) ->
    culling_balanced (vertex_states st').
Proof.
  induction l as [|x l IH]; intros st st'.
  - intros [= <-]. trivial.
  - cbn [for_each].
    destruct (build_leaf E hl bg st x) as [st1|msg] eqn:Hstep;
      [|discriminate].
    cbn [bind]. intros Hrest Hbal. apply (IH _ _ Hrest).
    eapply build_leaf_keeps_culling_balanced; eassumption.
Qed.

Lemma built_from_culling_balanced E hl bg product vp :
  built_from E hl bg product vp -> culling_balanced (vp_states vp).
Proof.
  intros (vbo & n & i & st & Hrun & ->). cbn [vp_states].
  rewrite build_leaves_sequence in Hrun.
  eapply leaf_loops_keep_culling_balanced; [exact Hrun|].
  intros showedges shaderinfo. reflexivity.
Qed.

(** What holds of every product the leaf loops build holds of every
    product a renderer retains once [prepare] has returned. *)
Lemma prepare_retained (Q : OpenCSGVBOProduct -> Prop) F E w w' shaderinfo t :
  (forall hl bg product vp, built_from E hl bg product vp -> Q vp) ->
  Forall Q (vbo_vertex_products (self w)) ->
  prepare F E w shaderinfo = Ok (w', t) ->
  Forall Q (vbo_vertex_products (self w')).
Proof.
  intros HQ Hw.
  assert (Hstep : forall group hl bg wt wt',
             create_if_present F E group hl bg wt = Ok wt' ->
             Forall Q (vbo_vertex_products (self (fst wt))) ->
             Forall Q (vbo_vertex_products (self (fst wt')))).
  { intros group hl bg wt wt'. unfold create_if_present.
    destruct group as [prods|]; [|intros [= <-]; trivial].
    destruct (createCSGProducts F E (fst wt) prods hl bg) as [[w1 t1]|msg]
      eqn:Hrun; [|discriminate].
    cbn [bind fst]. intros [= <-] Hall. cbn [fst].
    destruct (createCSGProducts_retains _ _ _ _ _ _ Hrun)
      as (vps & -> & Hbuilt).
    apply Forall_app; split; [exact Hall|].
    clear Hrun. induction Hbuilt as [|product vp ps vps' Hone _ IH];
      constructor; [exact (HQ _ _ _ _ Hone) | exact IH]. }
  unfold prepare. destruct (_ && _); [|intros [= <- <-]; exact Hw].
  destruct (create_if_present F E (root_products (self w)) false false
              (w, [])) as [wt1|msg] eqn:H1; [|discriminate].
  cbn [bind].
  destruct (create_if_present F E (background_products (self (fst wt1)))
              false true wt1) as [wt2|msg] eqn:H2; [|discriminate].
  cbn [bind]. intros H3.
  apply Hstep in H1; [|exact Hw]. apply Hstep in H2; [|exact H1].
  apply Hstep in H3; [|exact H2]. exact H3.
Qed.

Lemma render_intersection_culling E shaderinfo hl bg csgobj :
  culling_after (render_intersection E shaderinfo hl bg csgobj) false = false.
Proof.
  unfold render_intersection, select_uniform.
  destruct (as_PolySet (geom (leaf csgobj))); [|reflexivity].
  cbv zeta. destruct (is_opaque _);
    destruct shaderinfo as [si|]; try destruct (is_select si); reflexivity.
Qed.

Lemma render_subtraction_culling E shaderinfo hl bg csgobj :
  culling_after (render_subtraction E shaderinfo hl bg csgobj) false = false.
Proof.
  unfold render_subtraction.
  destruct (as_PolySet (geom (leaf csgobj))); reflexivity.
Qed.

Lemma culling_off_app t1 t2 :
  culling_after t1 false = false -> culling_after t2 false = false ->
  culling_after (t1 ++ t2) false = false.
Proof. intros H1 H2. now rewrite culling_after_app, H1. Qed.

Lemma culling_off_flat_map {A} (f : A -> list Event) l :
  (forall a, culling_after (f a) false = false) ->
  culling_after (flat_map f l) false = false.
Proof.
  intros Hf. induction l as [|a l IH]; [reflexivity|].
  cbn [flat_map]. apply culling_off_app; [apply Hf | exact IH].
Qed.

(** ** What the leaf loops keep true of states and primitives *)

Lemma surface_of_last l s :
  surface_of l = Some s ->
  exists l', l = l' ++ [s] /\ as_OpenCSGVertexState s <> None.
Proof.
  unfold surface_of, back. destruct (rev l) as [|vs r] eqn:Hrev;
    [discriminate|].
  destruct (as_OpenCSGVertexState vs) eqn:Hvs; [|discriminate].
  intros [= <-]. exists (rev r). split; [|congruence].
  apply (f_equal (@rev _)) in Hrev. now rewrite rev_involutive in Hrev.
Qed.

Lemma state_of_helper_written r : helper_written (state_of r).
Proof.
  split; cbn; apply Forall_forall; intros f Hf;
    apply in_map_iff in Hf as (x & <- & _); exact I.
Qed.

Lemma tagged_stays_surface i vs :
  as_OpenCSGVertexState vs <> None ->
  as_OpenCSGVertexState (set_csgObjectIndex i vs) <> None.
Proof.
  unfold as_OpenCSGVertexState, set_csgObjectIndex. cbn.
  destruct (vs_class vs); congruence.
Qed.

Lemma surface_is_helper_written vs :
  vs_class vs = PlainVertexState \/ helper_written vs ->
  as_OpenCSGVertexState vs <> None ->
  helper_written vs.
Proof.
  unfold as_OpenCSGVertexState. intros [Hplain | Hw] Hs; [|exact Hw].
  rewrite Hplain in Hs. congruence.
Qed.

Lemma well_built_app l l2 prims :
  Forall (fun vs => vs_class vs = PlainVertexState \/ helper_written vs) l2 ->
  well_built l prims -> well_built (l ++ l2) prims.
Proof.
  intros Hl2 [Hstates Hprims]. split.
  - apply Forall_app. split; assumption.
  - eapply Forall_impl; [|exact Hprims].
    intros p (vs & Hin & Hs & Hcopy). exists vs.
    split; [apply in_or_app; now left|]. split; assumption.
Qed.

Lemma well_built_set_last_color c st :
  well_built (vertex_states st) (primitives st) ->
  well_built (vertex_states (set_last_color c st))
    (primitives (set_last_color c st)).
Proof. trivial. Qed.

Lemma well_built_addColor E st :
  well_built (vertex_states st) (primitives st) ->
  well_built (vertex_states (addColor E st)) (primitives (addColor E st)).
Proof.
  intros H. cbn. apply well_built_app; [|exact H].
  apply Forall_forall. intros vs Hin.
  apply in_map_iff in Hin as (r & <- & _). right.
  apply state_of_helper_written.
Qed.

Lemma well_built_create_surface E ps csgmode m st :
  well_built (vertex_states st) (primitives st) ->
  well_built (vertex_states (do_create_surface E ps csgmode m st))
    (primitives (do_create_surface E ps csgmode m st)).
Proof.
  intros H. cbn. apply well_built_app; [|exact H].
  apply Forall_forall. intros vs Hin.
  apply in_map_iff in Hin as (r & <- & _). right.
  apply state_of_helper_written.
Qed.

Lemma well_built_emplace vs st :
  vs_class vs = PlainVertexState \/ helper_written vs ->
  well_built (vertex_states st) (primitives st) ->
  well_built (vertex_states (emplace_state vs st))
    (primitives (emplace_state vs st)).
Proof.
  intros Hvs H. cbn. apply well_built_app; [|exact H].
  constructor; [exact Hvs | constructor].
Qed.

Lemma well_built_keep_surface csgobj g operation s st :
  well_built (vertex_states st) (primitives st) ->
  surface_of (vertex_states st) = Some s ->
  well_built (vertex_states (keep_surface csgobj g operation s st))
    (primitives (keep_surface csgobj g operation s st))
  /\ helper_written (set_csgObjectIndex (index (leaf csgobj)) s).
Proof.
  intros [Hstates Hprims] Hsurf.
  destruct (surface_of_last _ Hsurf) as (l' & Hl & Hs).
  unfold keep_surface. cbn. rewrite Hl in *. rewrite tag_back_snoc.
  apply Forall_app in Hstates as [Hl' Hlast].
  assert (Hw : helper_written s).
  { apply surface_is_helper_written; [|exact Hs]. now inversion Hlast. }
  assert (Hw' : helper_written (set_csgObjectIndex (index (leaf csgobj)) s))
    by exact Hw.
  split; [|exact Hw']. split.
  - apply Forall_app. split; [exact Hl'|].
    constructor; [now right | constructor].
  - apply Forall_app. split.
    + eapply Forall_impl; [|exact Hprims].
      intros p (vs & Hin & Hvs & Hcopy).
      apply in_app_or in Hin as [Hin | [<- | []]].
      * exists vs. split; [apply in_or_app; now left|]. now split.
      * exists (set_csgObjectIndex (index (leaf csgobj)) s).
        split; [apply in_or_app; right; now left|].
        split; [now apply tagged_stays_surface | exact Hcopy].
    + constructor; [|constructor].
      exists (set_csgObjectIndex (index (leaf csgobj)) s).
      split; [apply in_or_app; right; now left|].
      split; [now apply tagged_stays_surface | reflexivity].
Qed.

Lemma build_leaf_keeps_well_built E hl bg st x st' :
  build_leaf E hl bg st x = Ok st' ->
  well_built (vertex_states st) (primitives st) ->
  well_built (vertex_states st') (primitives st').
Proof.
  destruct x as [operation csgobj].
  unfold build_leaf, build_intersection, build_subtraction. cbn [fst snd].
  intros Hrun Hwb.
  destruct operation;
    (destruct (geom (leaf csgobj)) as [[ps|k]|];
     [|injection Hrun as <-; exact Hwb ..]);
    cbn [as_PolySet] in Hrun; cbv zeta in Hrun.
  - destruct (is_opaque _).
    + match type of Hrun with
      | context [surface_of (vertex_states ?X)] =>
          assert (HX : well_built (vertex_states X) (primitives X))
            by (apply well_built_create_surface, well_built_addColor,
                  well_built_set_last_color, Hwb);
          destruct (surface_of (vertex_states X)) as [s|] eqn:Hs
      end; injection Hrun as <-; [|exact HX].
      apply (proj1 (@well_built_keep_surface csgobj (GeomPolySet ps)
                      Intersection _ _ HX Hs)).
    + match type of Hrun with
      | context [surface_of (vertex_states ?X)] =>
          assert (HX : well_built (vertex_states X) (primitives X))
            by (apply well_built_create_surface, well_built_emplace;
                [now left|];
                apply well_built_addColor, well_built_set_last_color, Hwb);
          destruct (surface_of (vertex_states X)) as [s|] eqn:Hs
      end; [|discriminate]. injection Hrun as <-.
      destruct (@well_built_keep_surface csgobj (GeomPolySet ps)
                  Intersection _ _ HX Hs) as [Hkeep Hw].
      apply well_built_emplace; [now left|].
      apply well_built_emplace; [now right|].
      apply well_built_emplace; [now left|]. exact Hkeep.
  - match type of Hrun with
    | context [surface_of (vertex_states ?X)] =>
        assert (HX : well_built (vertex_states X) (primitives X))
          by (apply well_built_create_surface, well_built_emplace;
              [now left|];
              apply well_built_addColor, well_built_set_last_color, Hwb);
        destruct (surface_of (vertex_states X)) as [s|] eqn:Hs
    end; [|discriminate]. injection Hrun as <-.
    apply well_built_emplace; [now left|].
    apply (proj1 (@well_built_keep_surface csgobj (GeomPolySet ps)
                    Subtraction _ _ HX Hs)).
Qed.

Lemma built_from_well_built E hl bg product vp :
  built_from E hl bg product vp ->
  well_built (vp_states vp) (vp_primitives vp).
Proof.
  intros (vbo & n & i & st & Hrun & ->). cbn [vp_states vp_primitives].
  rewrite build_leaves_sequence in Hrun.
  assert (Hloop : forall l st0 st1,
             for_each (build_leaf E hl bg) st0 l = Ok st1 ->
             well_built (vertex_states st0) (primitives st0) ->
             well_built (vertex_states st1) (primitives st1)).
  { induction l as [|x l IH]; intros st0 st1.
    - intros [= <-]. trivial.
    - cbn [for_each].
      destruct (build_leaf E hl bg st0 x) as [st2|msg] eqn:Hstep;
        [|discriminate].
      cbn [bind]. intros Hrest Hwb. apply (IH _ _ Hrest).
      eapply build_leaf_keeps_well_built; eassumption. }
  apply (Hloop _ _ _ Hrun). split; constructor.
Qed.

(** Every primitive a prepared renderer hands to the compositor is the
    copy of a surface state that the same product retains for the colour
    pass: it draws the same range of the same buffers. *)
Theorem retained_primitives_copy_retained_surfaces :
  forall (F : Features) (E : Env) (w w' : World)
         (shaderinfo : option shaderinfo_t) (t : list Event),
    prepare F E w shaderinfo = Ok (w', t) ->
    vbo_vertex_products (self w) = [] ->
    Forall (fun vp =>
              Forall (fun p =>
                        exists vs,
                          In vs (vp_states vp)
                          /\ as_OpenCSGVertexState vs <> None
                          /\ draw_range_of (vprim_vertex_state p) =
                             draw_range_of vs)
                (vp_primitives vp))
      (vbo_vertex_products (self w')).
Proof.
  intros F E w w' shaderinfo t Hprep Hfresh.
  eapply prepare_retained; [|rewrite Hfresh; constructor | exact Hprep].
  intros hl bg product vp Hbuilt.
  destruct (built_from_well_built Hbuilt) as [_ Hprims].
  eapply Forall_impl; [|exact Hprims].
  intros p (vs & Hin & Hs & Hcopy). exists vs.
  split; [exact Hin|]. split; [exact Hs|].
  unfold copied_from in Hcopy. unfold draw_range_of. rewrite Hcopy.
  reflexivity.
Qed.

Lemma retained_primitives_copy_retained_surfaces_witness :
  Forall (fun vp =>
            Forall (fun p =>
                      exists vs,
                        In vs (vp_states vp)
                        /\ as_OpenCSGVertexState vs <> None
                        /\ draw_range_of (vprim_vertex_state p) =
                           draw_range_of vs)
              (vp_primitives vp))
    (vbo_vertex_products (self (fst Sample.prepared))).
Proof.
  apply (@retained_primitives_copy_retained_surfaces Sample.buffered
           Sample.env
           (Sample.renderer
              [mkProduct [Sample.solid; Sample.pane] [Sample.solid]])
           (fst Sample.prepared) None (snd Sample.prepared));
    reflexivity.
Defined.

Lemma helper_closures_calls fs :
  Forall (fun f => match f with fn_external _ => True | _ => False end) fs ->
  Forall (fun e => is_helper_call e = true) (flat_map run_closure fs)
  /\ length (flat_map run_closure fs) = length fs.
Proof.
  induction 1 as [|f fs Hf _ [IH1 IH2]]; [split; [constructor | reflexivity]|].
  destruct f; try contradiction. cbn. split; [now constructor | now rewrite IH2].
Qed.

Lemma firstn_Forall {A} (P : A -> Prop) n l :
  Forall P l -> Forall P (firstn n l).
Proof.
  intros H. revert n. induction H as [|a l Ha _ IH]; intros [|n]; cbn;
    constructor; auto.
Qed.

(** ** What [prepare] retains *)




(** ** [prepare] and the assertions *)

Lemma product_loop_returns F E all_vbos hl bg :
  records_one_surface E ->
  forall l cs, exists cs',
    for_each (build_product F E all_vbos hl bg) cs l = Ok cs'.
Proof.
  intros Hrec. induction l as [|product l IH]; intros cs.
  - exists cs. reflexivity.
  - cbn [for_each]. unfold build_product at 1.
    rewrite build_leaves_sequence.
    match goal with
    | |- context [for_each (build_leaf E hl bg) ?st0 ?seq] =>
        destruct (build_sequence_primitives hl bg Hrec seq st0)
          as (st & -> & _)
    end.
    cbn [bind]. apply IH.
Qed.

Lemma create_if_present_returns F E group hl bg wt :
  records_one_surface E ->
  exists wt', create_if_present F E group hl bg wt = Ok wt'.
Proof.
  intros Hrec. unfold create_if_present.
  destruct group as [prods|]; [|now exists wt].
  unfold createCSGProducts.
  match goal with
  | |- context [for_each (build_product F E ?v hl bg) ?cs ?l] =>
      destruct (product_loop_returns F v hl bg Hrec l cs) as (cs' & ->)
  end.
  cbn [bind]. eexists. reflexivity.
Qed.

(** When every surface write records one surface state, [prepare] never
    stops on an assertion: it returns, for every product tree. *)
Theorem prepare_returns_when_surfaces_are_recorded :
  forall (F : Features) (E : Env) (w : World)
         (shaderinfo : option shaderinfo_t),
    records_one_surface E ->
    exists w' t, prepare F E w shaderinfo = Ok (w', t).
Proof.
  intros F E w shaderinfo Hrec. unfold prepare.
  destruct (_ && _); [|eexists; eexists; reflexivity].
  destruct (create_if_present_returns F (root_products (self w)) false false
              (w, []) Hrec) as (wt1 & ->).
  cbn [bind].
  destruct (create_if_present_returns F
              (background_products (self (fst wt1))) false true wt1 Hrec)
    as (wt2 & ->).
  cbn [bind].
  destruct (create_if_present_returns F
              (highlights_products (self (fst wt2))) true false wt2 Hrec)
    as ([w' t] & ->).
  exists w', t. reflexivity.
Qed.

Lemma prepare_returns_when_surfaces_are_recorded_witness :
  exists w' t,
    prepare Sample.buffered Sample.env
      (Sample.renderer [mkProduct [Sample.pane] [Sample.solid; Sample.nef]])
      None = Ok (w', t).
Proof.
  apply (@prepare_returns_when_surfaces_are_recorded Sample.buffered
           Sample.env
           (Sample.renderer
              [mkProduct [Sample.pane] [Sample.solid; Sample.nef]])
           None sample_records_one_surface).
Defined.

(** ** Buffer names *)

Lemma vector_resize_length n v : length (vector_resize n v) = n.
Proof.
  unfold vector_resize. rewrite length_app, length_firstn, repeat_length.
  lia.
Qed.

Lemma fresh_names_length k n : length (fresh_names k n) = n.
Proof. unfold fresh_names. now rewrite length_map, length_seq. Qed.

Lemma write_names_all names v :
  length v = length names -> write_names names v = names.
Proof.
  intros H. unfold write_names. rewrite <- H, skipn_all. apply app_nil_r.
Qed.

(** [createCSGProducts] on a group that has products leaves in [all_vbos_]
    exactly the names it generated itself, whatever [all_vbos_] held
    before: names of a group built earlier are no longer in it. *)
Theorem createCSGProducts_replaces_the_buffer_names :
  forall (F : Features) (E : Env) (w w' : World) (prods : CSGProducts)
         (hl bg : bool) (t : list Event),
    createCSGProducts F E w prods hl bg = Ok (w', t) ->
    products prods <> [] ->
    all_vbos_ (self w') = fresh_names (gl_names w) (names_wanted F prods)
    /\ length (all_vbos_ (self w')) = names_wanted F prods
    /\ gl_names w' = (gl_names w + N.of_nat (names_wanted F prods))%N
    /\ Forall (fun name => (gl_names w < name)%N) (all_vbos_ (self w')).
Proof.
  intros F E w w' prods hl bg t Hrun Hne. unfold createCSGProducts in Hrun.
  destruct (for_each _ _ (products prods)) as [cs|msg]; [|discriminate].
  cbn [bind] in Hrun. injection Hrun as <- <-.
  destruct (length (products prods) =? 0) eqn:Hlen.
  { apply Nat.eqb_eq, length_zero_iff_nil in Hlen. contradiction. }
  cbn [fst self all_vbos_ with_buffers gl_names].
  fold (names_wanted F prods).
  rewrite write_names_all
    by now rewrite vector_resize_length, fresh_names_length.
  split; [reflexivity|]. split; [apply fresh_names_length|].
  split; [reflexivity|].
  unfold fresh_names. apply Forall_forall. intros name Hin.
  apply in_map_iff in Hin as (i & <- & _). lia.
Qed.

Lemma createCSGProducts_replaces_the_buffer_names_witness :
  all_vbos_ (self (fst Sample.prepared)) = [1%N]
  /\ gl_names (fst Sample.prepared) = 1%N.
Proof.
  destruct (@createCSGProducts_replaces_the_buffer_names Sample.buffered
              Sample.env
              (Sample.renderer
                 [mkProduct [Sample.solid; Sample.pane] [Sample.solid]])
              (fst Sample.prepared)
              (mkProducts
                 [mkProduct [Sample.solid; Sample.pane] [Sample.solid]])
              false false (snd Sample.prepared) eq_refl)
    as (Hnames & _ & Hcount & _); [discriminate|].
  split; [exact Hnames | exact Hcount].
Defined.

(** ** Surface writes *)

Lemma surface_writes_app t1 t2 :
  surface_writes (t1 ++ t2) = surface_writes t1 ++ surface_writes t2.
Proof. apply flat_map_app. Qed.

Lemma leaf_loops_write_each_leaf E hl bg l :
  forall st st',
    for_each (build_leaf E hl bg) st l = Ok st' ->
    surface_writes (trace st') =
    surface_writes (trace st) ++ map (write_of E hl bg) (drawable_leaves l).
Proof.
  induction l as [|[operation o] l IH]; intros st st'.
  - intros [= <-]. cbn. now rewrite app_nil_r.
  - cbn [for_each].
    destruct (build_leaf E hl bg st (operation, o)) as [st1|msg] eqn:Hstep;
      [|discriminate].
    cbn [bind]. intros Hrest. rewrite (IH _ _ Hrest).
    cbn [drawable_leaves flat_map fst snd]. fold (drawable_leaves l).
    destruct (build_leaf_step _ _ _ _ _ _ Hstep)
      as [[Hskip ->] | (ps & Hps & _ & Htrace)].
    + rewrite Hskip. reflexivity.
    + rewrite Hps, Htrace, surface_writes_app, map_app, <- app_assoc.
      reflexivity.
Qed.

(** A build that returns has called [create_surface] once for every leaf
    whose geometry is a polygon set, and for no other leaf, in
    intersection-then-subtraction order, each time with the leaf's polygon
    set and matrix and with the mode of its operation. *)
Theorem one_surface_write_per_drawable_leaf :
  forall (E : Env) (hl bg : bool) (st st' : BuildState)
         (product : CSGProduct),
    build_leaves E hl bg st product = Ok st' ->
    surface_writes (trace st') =
    surface_writes (trace st)
    ++ map (write_of E hl bg) (drawable_leaves (leaf_sequence product)).
Proof.
  intros E hl bg st st' product Hrun.
  rewrite build_leaves_sequence in Hrun.
  now apply leaf_loops_write_each_leaf.
Qed.

Lemma one_surface_write_per_drawable_leaf_witness :
  surface_writes (trace Sample.after_plain) =
  [(Sample.cube, CSGMODE 1, Sample.identity);
   (Sample.cube, CSGMODE 1, Sample.identity)].
Proof.
  apply (@one_surface_write_per_drawable_leaf Sample.env false false
           (product_start Sample.env 1 72 1) Sample.after_plain
           (mkProduct [Sample.pane; Sample.hollow; Sample.nef; Sample.plain]
              [])).
  reflexivity.
Defined.

(** ** The two paths side by side *)

Lemma marks_app t1 t2 : marks (t1 ++ t2) = marks t1 ++ marks t2.
Proof. apply flat_map_app. Qed.

Lemma mark_of_silent e :
  is_culling e || is_surface_draw e = false -> mark_of e = [].
Proof.
  destruct e; cbn; try reflexivity; try discriminate.
  - destruct cap. discriminate.
  - destruct cap. discriminate.
  - destruct (vs_class vs); reflexivity || discriminate.
Qed.

Lemma marks_picture t : marks (culling_and_surfaces t) = marks t.
Proof.
  unfold marks, culling_and_surfaces.
  induction t as [|e t IH]; [reflexivity|].
  cbn [filter flat_map].
  destruct (is_culling e || is_surface_draw e) eqn:He.
  - cbn [flat_map]. now rewrite IH.
  - now rewrite (mark_of_silent _ He), IH.
Qed.

Lemma marks_leaf_picture operation opaque s i :
  vs_class s = OpenCSGVertexState i ->
  marks (leaf_picture operation opaque s) = leaf_marks operation opaque.
Proof.
  intros Hs. destruct operation; [destruct opaque|];
    cbn [leaf_picture leaf_marks marks flat_map mark_of app];
    rewrite Hs; reflexivity.
Qed.

Lemma marks_select_uniform shaderinfo identifier :
  marks (select_uniform shaderinfo identifier) = [].
Proof.
  unfold select_uniform. destruct shaderinfo as [si|]; [|reflexivity].
  destruct (is_select si); reflexivity.
Qed.

Lemma marks_render_leaf E shaderinfo hl bg operation o :
  marks (render_leaf E shaderinfo hl bg (operation, o)) =
  match as_PolySet (geom (leaf o)) with
  | Some _ =>
      leaf_marks operation
        (is_opaque (setColor E (colormode_of hl bg MATERIAL)
                      (color (leaf o)) shaderinfo))
  | None => []
  end.
Proof.
  unfold render_leaf, render_intersection, render_subtraction.
  cbn [fst snd].
  destruct operation; destruct (as_PolySet (geom (leaf o)));
    try reflexivity.
  cbv zeta. rewrite marks_app, marks_select_uniform.
  destruct (is_opaque _); reflexivity.
Qed.

Lemma flat_map_render_leaf E shaderinfo hl bg operation l :
  flat_map (render_leaf E shaderinfo hl bg) (map (pair operation) l) =
  flat_map (match operation with
            | Intersection => render_intersection E shaderinfo hl bg
            | Subtraction => render_subtraction E shaderinfo hl bg
            end) l.
Proof.
  induction l as [|o l IH]; [reflexivity|].
  cbn [map flat_map]. rewrite IH. destruct operation; reflexivity.
Qed.

Lemma marks_render_product E showedges shaderinfo hl bg product :
  marks (render_product E showedges shaderinfo hl bg product) =
  marks (flat_map (render_leaf E shaderinfo hl bg) (leaf_sequence product)).
Proof.
  rewrite render_product_split. unfold immediate_body, leaf_sequence.
  rewrite flat_map_app, !flat_map_render_leaf, !marks_app.
  replace (marks (if 1 <? length (immediate_primitives E hl bg product)
                  then _ else _)) with (@nil Mark)
    by (destruct (1 <? _); reflexivity).
  replace (marks match shaderinfo with Some _ => [glUseProgram 0]
                                     | None => [] end) with (@nil Mark)
    by (destruct shaderinfo; reflexivity).
  match goal with
  | |- [] ++ (marks ?u ++ _) ++ _ = _ =>
      replace (marks u) with (@nil Mark)
  end.
  - cbn [app marks flat_map mark_of]. now rewrite !app_nil_r.
  - destruct shaderinfo as [si|]; [|reflexivity].
    destruct (progid si =? 0)%N; [reflexivity|].
    destruct (negb _ || _); reflexivity.
Qed.

Lemma marks_render_vbo_product showedges shaderinfo vp :
  marks (render_vbo_product showedges shaderinfo vp) =
  marks (flat_map (replay_state showedges shaderinfo) (vp_states vp)).
Proof.
  rewrite render_vbo_product_split. unfold replay_body. rewrite !marks_app.
  replace (marks (if 1 <? length (vp_primitives vp) then _ else _))
    with (@nil Mark) by (destruct (1 <? _); reflexivity).
  match goal with
  | |- [] ++ (marks ?u ++ _ ++ marks ?v) ++ _ = _ =>
      replace (marks u) with (@nil Mark);
      [replace (marks v) with (@nil Mark)|]
  end.
  - cbn [app marks flat_map mark_of]. now rewrite !app_nil_r.
  - destruct shaderinfo as [si|]; [|reflexivity].
    destruct (progid si =? 0)%N; [reflexivity|].
    destruct (is_edge si && showedges); reflexivity.
  - destruct shaderinfo as [si|]; [|reflexivity].
    destruct (progid si =? 0)%N; [reflexivity|].
    destruct (is_edge si && showedges); reflexivity.
Qed.

Lemma marks_recorded_colour_states E showedges shaderinfo cur c :
  addColor_adds_no_surface E ->
  marks (flat_map (replay_state showedges shaderinfo)
           (map state_of (vsm_addColor E cur c))) = [].
Proof.
  intros Hcol. rewrite <- marks_picture.
  now rewrite (replay_color_states _ _ (Hcol cur c)).
Qed.

Lemma leaf_loops_replay_like_immediate E shaderinfo hl bg :
  records_one_surface E ->
  addColor_adds_no_surface E ->
  forall l,
    (forall o, In (Intersection, o) l ->
       is_opaque (setColor E (colormode_of hl bg MATERIAL) (color (leaf o))
                    shaderinfo) =
       is_opaque (shader_color E (colormode_of hl bg MATERIAL)
                    (color (leaf o)))) ->
    forall st,
    exists st',
      for_each (build_leaf E hl bg) st l = Ok st'
      /\ forall showedges si,
           marks (flat_map (replay_state showedges si) (vertex_states st')) =
           marks (flat_map (replay_state showedges si) (vertex_states st))
           ++ marks (flat_map (render_leaf E shaderinfo hl bg) l).
Proof.
  intros Hrec Hcol. induction l as [|[operation o] l IH]; intros Hop st.
  - exists st. split; [reflexivity|]. intros. cbn. now rewrite app_nil_r.
  - assert (Hop' : forall o', In (Intersection, o') l ->
               is_opaque (setColor E (colormode_of hl bg MATERIAL)
                            (color (leaf o')) shaderinfo) =
               is_opaque (shader_color E (colormode_of hl bg MATERIAL)
                            (color (leaf o'))))
      by (intros o' Hin; apply Hop; now right).
    cbn [for_each flat_map].
    assert (Hstep : exists st1,
               build_leaf E hl bg st (operation, o) = Ok st1
               /\ forall showedges si,
                    marks (flat_map (replay_state showedges si)
                             (vertex_states st1)) =
                    marks (flat_map (replay_state showedges si)
                             (vertex_states st))
                    ++ marks (render_leaf E shaderinfo hl bg (operation, o))).
    { destruct (as_PolySet (geom (leaf o))) as [ps|] eqn:Hps.
      - assert (Hgeom : geom (leaf o) = Some (GeomPolySet ps)).
        { destruct (geom (leaf o)) as [[ps'|k]|]; cbn in Hps; congruence. }
        unfold build_leaf. cbn [fst snd]. destruct operation.
        + destruct (build_intersection_shape Hrec hl bg st o Hgeom)
            as (r & i0 & Hclass & ->).
          eexists. split; [reflexivity|]. intros showedges si.
          cbn [vertex_states].
          rewrite !flat_map_app, !marks_app,
            (marks_recorded_colour_states _ _ _ _ Hcol).
          rewrite <- (marks_picture (flat_map _ (leaf_states _ _ _))).
          rewrite (replay_leaf_states showedges si Intersection _ r
                     (index (leaf o)) Hclass).
          rewrite (marks_leaf_picture _ _ _
                     (set_csgObjectIndex_class (index (leaf o)) (state_of r)
                        Hclass)).
          rewrite marks_render_leaf, Hps, <- (Hop o (or_introl eq_refl)).
          reflexivity.
        + destruct (build_subtraction_shape Hrec hl bg st o Hgeom)
            as (r & i0 & Hclass & ->).
          eexists. split; [reflexivity|]. intros showedges si.
          cbn [vertex_states].
          rewrite !flat_map_app, !marks_app,
            (marks_recorded_colour_states _ _ _ _ Hcol).
          rewrite <- (marks_picture (flat_map _ (leaf_states _ _ _))).
          rewrite (replay_leaf_states showedges si Subtraction false r
                     (index (leaf o)) Hclass).
          rewrite (marks_leaf_picture _ _ _
                     (set_csgObjectIndex_class (index (leaf o)) (state_of r)
                        Hclass)).
          rewrite marks_render_leaf, Hps. reflexivity.
      - rewrite (build_leaf_skips _ _ _ _ (operation, o) Hps).
        exists st. split; [reflexivity|]. intros showedges si.
        rewrite marks_render_leaf, Hps. now rewrite app_nil_r. }
    destruct Hstep as (st1 & -> & Hmarks1). cbn [bind].
    destruct (IH Hop' st1) as (st' & Hrun & Hmarks).
    exists st'. split; [exact Hrun|]. intros showedges si.
    rewrite Hmarks, Hmarks1, marks_app, app_assoc. reflexivity.
Qed.

(** The replay of a built product shows the same sequence of culling
    changes and surface draws as the immediate path shows for the same
    product, provided the two colour resolvers agree on which
    intersection leaves are opaque (and the helpers record one surface
    state per write and no surface state for a colour). *)
Theorem replay_shows_what_the_immediate_path_shows :
  forall (E : Env) (shaderinfo : option shaderinfo_t) (hl bg : bool)
         (product : CSGProduct) (vbo : N) (n i : nat),
    records_one_surface E ->
    addColor_adds_no_surface E ->
    (forall o, In o (intersections product) ->
       is_opaque (setColor E (colormode_of hl bg MATERIAL) (color (leaf o))
                    shaderinfo) =
       is_opaque (shader_color E (colormode_of hl bg MATERIAL)
                    (color (leaf o)))) ->
    exists st,
      build_leaves E hl bg (product_start E vbo n i) product = Ok st
      /\ forall showedges,
           marks (render_vbo_product showedges shaderinfo
                    (mkVBOProduct (primitives st) (vertex_states st))) =
           marks (render_product E showedges shaderinfo hl bg product).
Proof.
  intros E shaderinfo hl bg product vbo n i Hrec Hcol Hop.
  destruct (@leaf_loops_replay_like_immediate E shaderinfo hl bg Hrec Hcol
              (leaf_sequence product)) with (st := product_start E vbo n i)
    as (st & Hrun & Hmarks).
  { intros o Hin. apply Hop. unfold leaf_sequence in Hin.
    apply in_app_or in Hin as [Hin|Hin];
      apply in_map_iff in Hin as (o' & [= <-] & Hin'); exact Hin'. }
  exists st. split; [now rewrite build_leaves_sequence|].
  intros showedges.
  rewrite marks_render_vbo_product, marks_render_product. cbn [vp_states].
  rewrite Hmarks. reflexivity.
Qed.

Lemma replay_shows_what_the_immediate_path_shows_witness :
  exists st,
    build_leaves Sample.env false false (product_start Sample.env 1 108 1)
      (mkProduct [Sample.solid; Sample.pane] [Sample.solid]) = Ok st
    /\ forall showedges,
         marks (render_vbo_product showedges None
                  (mkVBOProduct (primitives st) (vertex_states st))) =
         marks (render_product Sample.env showedges None false false
                  (mkProduct [Sample.solid; Sample.pane] [Sample.solid])).
Proof.
  apply (@replay_shows_what_the_immediate_path_shows Sample.env None false
           false (mkProduct [Sample.solid; Sample.pane] [Sample.solid])
           1%N 108 1 sample_records_one_surface
           sample_addColor_adds_no_surface).
  intros o [<- | [<- | []]]; reflexivity.
Defined.

(** ** The bounding box *)

Section BoundingBoxLaws.

Variable BoundingBox : Type.
Variable BoundingBox_new : BoundingBox.
Variable extend : BoundingBox -> BoundingBox -> BoundingBox.
Variable products_box : CSGProducts -> BoundingBox.

(** [inside a b]: box [b] covers box [a]. *)
Variable inside : BoundingBox -> BoundingBox -> Prop.

Hypothesis inside_refl : forall a, inside a a.
Hypothesis inside_trans :
  forall a b c, inside a b -> inside b c -> inside a c.
Hypothesis extend_covers_left : forall a b, inside a (extend a b).
Hypothesis extend_covers_right : forall a b, inside b (extend a b).
Hypothesis extend_least :
  forall a b c, inside a c -> inside b c -> inside (extend a b) c.

(** When [extend] gives the least box that covers both of its arguments,
    [getBoundingBox] covers the box of every group that is present, and
    every box that covers those and the default box covers it. *)
Theorem getBoundingBox_is_the_least_cover :
  forall (r : OpenCSGRenderer),
    let result := getBoundingBox BoundingBox_new extend products_box r in
    (forall prods,
       root_products r = Some prods \/ highlights_products r = Some prods
       \/ background_products r = Some prods ->
       inside (products_box prods) result)
    /\ (forall c,
          inside BoundingBox_new c ->
          (forall prods,
             root_products r = Some prods \/ highlights_products r = Some prods
             \/ background_products r = Some prods ->
             inside (products_box prods) c) ->
          inside result c).
Proof.
  intros r result. subst result. unfold getBoundingBox.
  destruct (root_products r) as [root|];
    destruct (highlights_products r) as [hls|];
    destruct (background_products r) as [bgs|]; split;
    try (intros prods [[= <-] | [[= <-] | [= <-]]]);
    try (intros c Hnew Hall;
         repeat apply extend_least;
         try exact Hnew; apply Hall; auto; fail);
    eauto using inside_refl, inside_trans, extend_covers_left,
      extend_covers_right.
Qed.

End BoundingBoxLaws.

Lemma hull_covers_left a b : Intervals.inside a (Intervals.hull a b).
Proof. destruct a as [[l h]|], b as [[l' h']|]; cbn; lia || exact I. Qed.

Lemma hull_covers_right a b : Intervals.inside b (Intervals.hull a b).
Proof. destruct a as [[l h]|], b as [[l' h']|]; cbn; lia || exact I. Qed.

Lemma hull_least a b c :
  Intervals.inside a c -> Intervals.inside b c ->
  Intervals.inside (Intervals.hull a b) c.
Proof.
  destruct a as [[l h]|], b as [[l' h']|], c as [[l'' h'']|]; cbn;
    intros; lia || tauto.
Qed.

Lemma intervals_inside_refl a : Intervals.inside a a.
Proof. destruct a as [[l h]|]; cbn; lia || exact I. Qed.

Lemma intervals_inside_trans a b c :
  Intervals.inside a b -> Intervals.inside b c -> Intervals.inside a c.
Proof.
  destruct a as [[l h]|], b as [[l' h']|], c as [[l'' h'']|]; cbn;
    intros; lia || tauto.
Qed.

Lemma getBoundingBox_is_the_least_cover_witness :
  getBoundingBox None Intervals.hull Intervals.width_box
    Intervals.two_and_three = Some (0, 3)%Z
  /\ Intervals.inside (Some (0, 2)%Z)
       (getBoundingBox None Intervals.hull Intervals.width_box
          Intervals.two_and_three).
Proof.
  split; [reflexivity|].
  apply (proj1 (@getBoundingBox_is_the_least_cover Intervals.box None
                  Intervals.hull Intervals.width_box Intervals.inside
                  intervals_inside_refl intervals_inside_trans
                  hull_covers_left hull_covers_right hull_least
                  Intervals.two_and_three)
           (mkProducts [mkProduct [] []; mkProduct [] []])).
  left. reflexivity.
Defined.

(** ** The depth test at the surface draws *)

Lemma depth_at_surfaces_app t1 t2 f :
  depth_at_surfaces (t1 ++ t2) f =
  depth_at_surfaces t1 f ++ depth_at_surfaces t2 (depth_func_after t1 f).
Proof.
  revert f. induction t1 as [|e t1 IH]; intros f; [reflexivity|].
  cbn [app depth_at_surfaces]. rewrite IH, <- app_assoc. reflexivity.
Qed.

Lemma depth_alone_keeps_depth t f :
  Forall leaves_depth_alone t ->
  depth_func_after t f = f
  /\ Forall (fun g => g = f) (depth_at_surfaces t f).
Proof.
  induction 1 as [|e t He _ [IH1 IH2]]; [split; [reflexivity | constructor]|].
  assert (Hstep : match e with glDepthFunc g => g | _ => f end = f).
  { destruct He as (_ & H1 & H2). destruct e; try reflexivity.
    destruct func; discriminate. }
  split.
  - unfold depth_func_after. cbn [fold_left]. rewrite Hstep. exact IH1.
  - cbn [depth_at_surfaces]. rewrite Hstep.
    apply Forall_app; split; [|exact IH2].
    destruct (is_surface_draw e); repeat constructor.
Qed.

(** In both paths every surface of a product that was handed to the
    compositor is drawn under the depth test "equal"; the surfaces of a
    product that was not are drawn under the depth function in force
    before the product. *)
Theorem surfaces_are_drawn_under_the_equal_test :
  forall (E : Env) (showedges : bool) (shaderinfo : option shaderinfo_t)
         (hl bg : bool) (f : GLfunc),
    (forall product,
       Forall (fun g =>
                 g = if 1 <? length (immediate_primitives E hl bg product)
                     then GL_EQUAL else f)
         (depth_at_surfaces
            (render_product E showedges shaderinfo hl bg product) f))
    /\ (forall vp,
          Forall (fun g =>
                    g = if 1 <? length (vp_primitives vp)
                        then GL_EQUAL else f)
            (depth_at_surfaces
               (render_vbo_product showedges shaderinfo vp) f)).
Proof.
  intros E showedges shaderinfo hl bg f. split.
  - intros product. rewrite render_product_split.
    pose proof (immediate_body_leaves_depth_alone E showedges shaderinfo
                  hl bg product) as Hbody.
    rewrite !depth_at_surfaces_app.
    destruct (1 <? length (immediate_primitives E hl bg product)).
    + cbn [depth_at_surfaces is_surface_draw app depth_func_after fold_left].
      destruct (depth_alone_keeps_depth GL_EQUAL Hbody) as [_ H].
      apply Forall_app; split; [exact H | constructor].
    + cbn [depth_at_surfaces is_surface_draw app depth_func_after fold_left].
      destruct (depth_alone_keeps_depth f Hbody) as [_ H].
      apply Forall_app; split; [exact H | constructor].
  - intros vp. rewrite render_vbo_product_split.
    pose proof (replay_body_leaves_depth_alone showedges shaderinfo vp)
      as Hbody.
    rewrite !depth_at_surfaces_app.
    destruct (1 <? length (vp_primitives vp)).
    + cbn [depth_at_surfaces is_surface_draw app depth_func_after fold_left].
      destruct (depth_alone_keeps_depth GL_EQUAL Hbody) as [_ H].
      apply Forall_app; split; [exact H | constructor].
    + cbn [depth_at_surfaces is_surface_draw app depth_func_after fold_left].
      destruct (depth_alone_keeps_depth f Hbody) as [_ H].
      apply Forall_app; split; [exact H | constructor].
Qed.

(** ** The selection colour of subtraction leaves *)

(** Under a selection shader, the immediate path sets the selection colour
    of an intersection leaf before it draws it, and sets none for a
    subtraction leaf: lines 401-427 have no such call.  The replay sets
    the colour of the leaf before the surface of a subtraction leaf as
    well (when the surface write records one surface state). *)
Theorem subtraction_leaves_get_a_selection_colour_in_the_replay_only :
  forall (E : Env) (hl bg : bool) (o : CSGChainObject) (ps : PolySet)
         (si : shaderinfo_t),
    geom (leaf o) = Some (GeomPolySet ps) ->
    is_select si = true ->
    let identifier := Z.of_N (index (leaf o)) in
    let colour :=
      glUniform3f (select_identifier si) (channel identifier 0)
        (channel identifier 8) (channel identifier 16) in
    (exists rest,
       render_intersection E (Some si) hl bg o = colour :: rest
       /\ Forall (fun e => is_uniform e = false) rest)
    /\ Forall (fun e => is_uniform e = false)
         (render_subtraction E (Some si) hl bg o)
    /\ (records_one_surface E ->
        forall st,
        exists st' s,
          build_subtraction E hl bg st o = Ok st'
          /\ In s (vertex_states st')
          /\ forall showedges,
               replay_state showedges (Some si) s =
               colour :: VertexState_draw s).
Proof.
  intros E hl bg o ps si Hgeom Hsel identifier colour. split; [|split].
  - unfold render_intersection, select_uniform. rewrite Hgeom, Hsel.
    cbn [as_PolySet app].
    rewrite !channel_to_int by lia.
    eexists. split; [reflexivity|].
    destruct (is_opaque _); repeat constructor.
  - unfold render_subtraction. rewrite Hgeom. cbn [as_PolySet].
    repeat constructor.
  - intros Hrec st.
    destruct (build_subtraction_shape Hrec hl bg st o Hgeom)
      as (r & i0 & Hclass & Hbuild).
    cbv zeta in Hbuild. eexists.
    exists (set_csgObjectIndex (index (leaf o)) (state_of r)).
    split; [exact Hbuild|]. split.
    + cbn [vertex_states leaf_states]. apply in_or_app. right.
      apply in_or_app. right. right. now left.
    + intros showedges. unfold replay_state, as_OpenCSGVertexState,
        is_shader_state.
      rewrite (set_csgObjectIndex_class (index (leaf o)) (state_of r) Hclass).
      unfold select_uniform. rewrite Hsel. reflexivity.
Qed.

Lemma subtraction_leaves_get_a_selection_colour_in_the_replay_only_witness :
  Forall (fun e => is_uniform e = false)
    (render_subtraction Sample.env (Some Sample.select_shader) false false
       Sample.pane)
  /\ exists st' s,
       build_subtraction Sample.env false false
         (product_start Sample.env 1 36 1) Sample.pane = Ok st'
       /\ In s (vertex_states st')
       /\ forall showedges,
            replay_state showedges (Some Sample.select_shader) s =
            glUniform3f 2 (channel 4 0) (channel 4 8) (channel 4 16)
            :: VertexState_draw s.
Proof.
  destruct (@subtraction_leaves_get_a_selection_colour_in_the_replay_only
              Sample.env false false Sample.pane Sample.cube
              Sample.select_shader eq_refl eq_refl) as (_ & Himm & Hbuf).
  split; [exact Himm|].
  exact (Hbuf sample_records_one_surface (product_start Sample.env 1 36 1)).
Defined.

(** ** A product of one intersection leaf *)

Lemma immediate_body_picture E showedges shaderinfo hl bg product :
  culling_and_surfaces (immediate_body E showedges shaderinfo hl bg product) =
  culling_and_surfaces
    (flat_map (render_intersection E shaderinfo hl bg)
       (intersections product))
  ++ culling_and_surfaces
       (flat_map (render_subtraction E shaderinfo hl bg)
          (subtractions product)).
Proof.
  unfold immediate_body. rewrite !culling_and_surfaces_app.
  assert (H1 : culling_and_surfaces
                 match shaderinfo with
                 | Some si =>
                     if (progid si =? 0)%N then []
                     else if negb (is_edge si) || (is_edge si && showedges)
                          then [glUseProgram (progid si)]
                          else []
                 | None => []
                 end = []).
  { destruct shaderinfo as [si|]; [|reflexivity].
    destruct (progid si =? 0)%N; [reflexivity|].
    destruct (negb _ || _); reflexivity. }
  assert (H2 : culling_and_surfaces
                 match shaderinfo with
                 | Some _ => [glUseProgram 0]
                 | None => []
                 end = []).
  { destruct shaderinfo; reflexivity. }
  rewrite H1, H2, app_nil_r. reflexivity.
Qed.

Lemma replay_body_picture showedges shaderinfo vp :
  culling_and_surfaces (replay_body showedges shaderinfo vp) =
  culling_and_surfaces
    (flat_map (replay_state showedges shaderinfo) (vp_states vp)).
Proof.
  unfold replay_body. rewrite !culling_and_surfaces_app.
  assert (H1 : culling_and_surfaces
                 match shaderinfo with
                 | Some si =>
                     if (progid si =? 0)%N then []
                     else glUseProgram (progid si)
                          :: (if is_edge si && showedges
                              then [call_shader_attribs_enable] else [])
                 | None => []
                 end = []).
  { destruct shaderinfo as [si|]; [|reflexivity].
    destruct (progid si =? 0)%N; [reflexivity|].
    destruct (is_edge si && showedges); reflexivity. }
  assert (H2 : culling_and_surfaces
                 match shaderinfo with
                 | Some si =>
                     if (progid si =? 0)%N then []
                     else glUseProgram 0
                          :: (if is_edge si && showedges
                              then [call_shader_attribs_disable] else [])
                 | None => []
                 end = []).
  { destruct shaderinfo as [si|]; [|reflexivity].
    destruct (progid si =? 0)%N; [reflexivity|].
    destruct (is_edge si && showedges); reflexivity. }
  rewrite H1, H2, app_nil_r. reflexivity.
Qed.

(** C1, as the code has it.  A product with at most one primitive is never
    handed to the compositor and never switches the depth test to "equal",
    in the immediate path and in the replay.  For a product made of one
    intersection leaf with a polygon set and no subtraction leaves the
    compositor is not invoked, and what the frame shows of culling and
    surfaces is: the leaf's surface drawn once, with no culling change,
    when its resolved colour has alpha 1.0; otherwise culling enabled,
    front faces culled, the surface, back faces culled, the surface again,
    culling disabled.  The resolved colour is the one [setColor] returns
    in the immediate path and the one the resolver leaves in [color] in
    the buffer-build path, whose helpers are taken to record one surface
    state per write and no surface state per colour. *)
Theorem C1_one_primitive_skips_compositor :
  forall (E : Env) (showedges : bool) (shaderinfo : option shaderinfo_t)
         (hl bg : bool),
    (forall product,
       length (immediate_primitives E hl bg product) <= 1 ->
       Forall (fun e => is_compositor e = false /\ is_depth_equal e = false)
         (render_product E showedges shaderinfo hl bg product))
    /\ (forall vp,
          length (vp_primitives vp) <= 1 ->
          Forall (fun e => is_compositor e = false /\ is_depth_equal e = false)
            (render_vbo_product showedges shaderinfo vp))
    /\ (forall csgobj ps,
          geom (leaf csgobj) = Some (GeomPolySet ps) ->
          let t :=
            render_product E showedges shaderinfo hl bg
              (mkProduct [csgobj] []) in
          let surface :=
            call_render_surface ps (get_csgmode E hl bg None)
              (matrix (leaf csgobj)) shaderinfo in
          let opaque :=
            is_opaque (setColor E (colormode_of hl bg MATERIAL)
                         (color (leaf csgobj)) shaderinfo) in
          Forall (fun e => is_compositor e = false) t
          /\ culling_and_surfaces t =
             (if opaque then [surface]
              else [glEnable GL_CULL_FACE; glCullFace GL_FRONT; surface;
                    glCullFace GL_BACK; surface; glDisable GL_CULL_FACE])
          /\ count_surfaces t = if opaque then 1 else 2)
    /\ (forall csgobj ps vbo n i,
          geom (leaf csgobj) = Some (GeomPolySet ps) ->
          records_one_surface E ->
          addColor_adds_no_surface E ->
          exists st s,
            build_leaves E hl bg (product_start E vbo n i)
              (mkProduct [csgobj] []) = Ok st
            /\ In s (vertex_states st)
            /\ vs_class s = OpenCSGVertexState (index (leaf csgobj))
            /\ let t :=
                 render_vbo_product showedges shaderinfo
                   (mkVBOProduct (primitives st) (vertex_states st)) in
               let opaque :=
                 is_opaque (shader_color E (colormode_of hl bg MATERIAL)
                              (color (leaf csgobj))) in
               Forall (fun e => is_compositor e = false) t
               /\ culling_and_surfaces t =
                  (if opaque then [draw_range s]
                   else [glEnable GL_CULL_FACE; glCullFace GL_FRONT;
                         draw_range s; glCullFace GL_BACK; draw_range s;
                         glDisable GL_CULL_FACE])
               /\ count_surfaces t = if opaque then 1 else 2).
Proof.
  intros E showedges shaderinfo hl bg.
  assert (Himm : forall product,
             length (immediate_primitives E hl bg product) <= 1 ->
             Forall leaves_depth_alone
               (immediate_body E showedges shaderinfo hl bg product) ->
             Forall (fun e => is_compositor e = false
                              /\ is_depth_equal e = false)
               (render_product E showedges shaderinfo hl bg product)).
  { intros product Hlen Hbody. rewrite render_product_split.
    rewrite (few_primitives _ Hlen). cbn [app].
    apply Forall_app; split; [apply no_compositing_weaken, Hbody|].
    repeat constructor. }
  assert (Hvbo : forall vp,
             length (vp_primitives vp) <= 1 ->
             Forall (fun e => is_compositor e = false
                              /\ is_depth_equal e = false)
               (render_vbo_product showedges shaderinfo vp)).
  { intros vp Hlen. rewrite render_vbo_product_split.
    rewrite (few_primitives _ Hlen). cbn [app].
    apply Forall_app; split;
      [apply no_compositing_weaken, replay_body_leaves_depth_alone|].
    repeat constructor. }
  split; [|split; [|split]].
  - intros product Hlen. apply Himm; [exact Hlen|].
    apply immediate_body_leaves_depth_alone.
  - exact Hvbo.
  - intros csgobj ps Hgeom t surface opaque.
    assert (Hlen : length (immediate_primitives E hl bg
                             (mkProduct [csgobj] [])) <= 1).
    { unfold immediate_primitives, push_primitive.
      cbn [intersections subtractions flat_map]. rewrite Hgeom. cbn. lia. }
    assert (Hpic : culling_and_surfaces t =
                   if opaque then [surface]
                   else [glEnable GL_CULL_FACE; glCullFace GL_FRONT; surface;
                         glCullFace GL_BACK; surface;
                         glDisable GL_CULL_FACE]).
    { subst t. rewrite render_product_split, (few_primitives _ Hlen).
      cbn [app]. rewrite culling_and_surfaces_app, immediate_body_picture.
      cbn [intersections subtractions flat_map]. rewrite !app_nil_r.
      apply (intersection_picture_immediate E shaderinfo hl bg csgobj
               Hgeom). }
    split; [|split].
    + subst t. eapply Forall_impl; [|apply Himm].
      * intros e [He _]. exact He.
      * exact Hlen.
      * apply immediate_body_leaves_depth_alone.
    + exact Hpic.
    + rewrite count_surfaces_picture, Hpic.
      destruct opaque; reflexivity.
  - intros csgobj ps vbo n i Hgeom Hrec Hcol.
    destruct (build_intersection_shape Hrec hl bg (product_start E vbo n i)
                csgobj Hgeom) as (r & i0 & Hclass & Hbuild).
    cbv zeta in Hbuild.
    match type of Hbuild with
    | _ = Ok ?st' =>
        assert (Hleaves : build_leaves E hl bg (product_start E vbo n i)
                            (mkProduct [csgobj] []) = Ok st')
    end.
    { unfold build_leaves. cbn [intersections subtractions for_each].
      rewrite Hbuild. reflexivity. }
    eexists.
    exists (set_csgObjectIndex (index (leaf csgobj)) (state_of r)).
    assert (Hs : vs_class (set_csgObjectIndex (index (leaf csgobj))
                             (state_of r))
                 = OpenCSGVertexState (index (leaf csgobj)))
      by apply (set_csgObjectIndex_class _ (state_of r) Hclass).
    split; [exact Hleaves|]. split; [|split; [exact Hs|]].
    { cbn [vertex_states]. apply in_or_app. right. apply in_or_app. right.
      unfold leaf_states. destruct (is_opaque _); cbn; auto. }
    intros t0 opaque.
    assert (Hpic : culling_and_surfaces t0 =
                   if opaque then
                     [draw_range (set_csgObjectIndex (index (leaf csgobj))
                                    (state_of r))]
                   else [glEnable GL_CULL_FACE; glCullFace GL_FRONT;
                         draw_range (set_csgObjectIndex
                                       (index (leaf csgobj)) (state_of r));
                         glCullFace GL_BACK;
                         draw_range (set_csgObjectIndex
                                       (index (leaf csgobj)) (state_of r));
                         glDisable GL_CULL_FACE]).
    { subst t0. cbn [primitives vertex_states product_start app].
      rewrite render_vbo_product_split.
      cbn [vp_primitives length Nat.ltb Nat.leb app].
      rewrite culling_and_surfaces_app, replay_body_picture.
      cbn [vp_states]. rewrite flat_map_app, culling_and_surfaces_app.
      rewrite (replay_color_states _ _ (Hcol _ _)). cbn [app].
      rewrite (replay_leaf_states showedges shaderinfo Intersection _ r
                 (index (leaf csgobj)) Hclass).
      fold opaque. rewrite app_nil_r. reflexivity. }
    split; [|split].
    + eapply Forall_impl; [|apply Hvbo; cbn; lia].
      intros e [He _]. exact He.
    + exact Hpic.
    + rewrite count_surfaces_picture, Hpic.
      destruct opaque; unfold count_surfaces;
        cbn [filter is_surface_draw app length]; rewrite Hs; reflexivity.
Qed.

(** The statement of C1 on the sample scene: an opaque leaf and a
    half-transparent one, each alone in its product. *)
Lemma C1_witness :
  Forall (fun e => is_compositor e = false /\ is_depth_equal e = false)
    (render_product Sample.env false None false false
       (mkProduct [Sample.solid] []))
  /\ culling_and_surfaces
       (render_product Sample.env false None false false
          (mkProduct [Sample.solid] []))
     = [call_render_surface Sample.cube
          (get_csgmode Sample.env false false None)
          (matrix (leaf Sample.solid)) None]
  /\ exists st s,
       build_leaves Sample.env false false (product_start Sample.env 1 36 1)
         (mkProduct [Sample.pane] []) = Ok st
       /\ In s (vertex_states st)
       /\ vs_class s = OpenCSGVertexState 4
       /\ culling_and_surfaces
            (render_vbo_product false None
               (mkVBOProduct (primitives st) (vertex_states st)))
          = [glEnable GL_CULL_FACE; glCullFace GL_FRONT; draw_range s;
             glCullFace GL_BACK; draw_range s; glDisable GL_CULL_FACE].
Proof.
  destruct (C1_one_primitive_skips_compositor Sample.env false None false
              false) as (H1 & _ & H3 & H4).
  split; [|split].
  - apply H1. cbn. lia.
  - exact (proj1 (proj2 (H3 Sample.solid Sample.cube eq_refl))).
  - destruct (H4 Sample.pane Sample.cube 1%N 36 1 eq_refl
                sample_records_one_surface sample_addColor_adds_no_surface)
      as (st & s & Hst & Hin & Hs & _ & Hpic & _).
    exists st, s. repeat split; [exact Hst | exact Hin | exact Hs
                                | exact Hpic].
Defined.

(** ** The transparency rule of intersection leaves *)

Lemma is_opaque_when_alpha_is_one (c : Color4f) :
  (c_a c == 1)%Q -> is_opaque c = true.
Proof. intros H. unfold is_opaque. now apply Qeq_bool_iff. Qed.

Lemma not_opaque_when_alpha_is_less (c : Color4f) :
  (c_a c < 1)%Q -> is_opaque c = false.
Proof.
  intros H. unfold is_opaque. destruct (Qeq_bool (c_a c) 1) eqn:Heq;
    [|reflexivity].
  apply Qeq_bool_iff in Heq. exfalso. exact (Qlt_not_eq _ _ H Heq).
Qed.

(** C3.  An intersection leaf with a polygon set whose resolved colour has
    alpha equal to 1.0 issues one surface draw and no culling change; with
    alpha less than 1.0 it issues two surface draws: culling enabled and
    front faces culled before the first, back faces culled before the
    second, culling disabled after it.  In the immediate path the resolved
    colour is the one [setColor] returns, line 386; in the buffer-build
    path it is the colour the resolver leaves in [color], lines 205-212,
    the leaf adds the states [added] to the retained list, and a frame
    replays them, whatever the shader and the edge flag; the helpers are
    taken to record one surface state per write and no surface state per
    colour. *)
Theorem C3_intersection_leaf_follows_the_transparency_rule :
  forall (E : Env) (hl bg : bool) (csgobj : CSGChainObject) (ps : PolySet),
    geom (leaf csgobj) = Some (GeomPolySet ps) ->
    (forall shaderinfo,
       let resolved :=
         setColor E (colormode_of hl bg MATERIAL) (color (leaf csgobj))
           shaderinfo in
       let surface :=
         call_render_surface ps (get_csgmode E hl bg None)
           (matrix (leaf csgobj)) shaderinfo in
       let t := render_intersection E shaderinfo hl bg csgobj in
       ((c_a resolved == 1)%Q -> culling_and_surfaces t = [surface])
       /\ ((c_a resolved < 1)%Q ->
           culling_and_surfaces t =
           [glEnable GL_CULL_FACE; glCullFace GL_FRONT; surface;
            glCullFace GL_BACK; surface; glDisable GL_CULL_FACE]))
    /\ (records_one_surface E ->
        addColor_adds_no_surface E ->
        forall st,
        exists st' added s,
          build_intersection E hl bg st csgobj = Ok st'
          /\ vertex_states st' = vertex_states st ++ added
          /\ vs_class s = OpenCSGVertexState (index (leaf csgobj))
          /\ let resolved :=
               shader_color E (colormode_of hl bg MATERIAL)
                 (color (leaf csgobj)) in
             ((c_a resolved == 1)%Q ->
              forall showedges shaderinfo,
                culling_and_surfaces
                  (flat_map (replay_state showedges shaderinfo) added)
                = [draw_range s])
             /\ ((c_a resolved < 1)%Q ->
                 forall showedges shaderinfo,
                   culling_and_surfaces
                     (flat_map (replay_state showedges shaderinfo) added)
                   = [glEnable GL_CULL_FACE; glCullFace GL_FRONT;
                      draw_range s; glCullFace GL_BACK; draw_range s;
                      glDisable GL_CULL_FACE])).
Proof.
  intros E hl bg csgobj ps Hgeom. split.
  - intros shaderinfo resolved surface t.
    pose proof (intersection_picture_immediate E shaderinfo hl bg csgobj
                  Hgeom) as Hpic.
    cbv zeta in Hpic. fold resolved surface t in Hpic.
    split; intros Halpha; rewrite Hpic.
    + now rewrite (is_opaque_when_alpha_is_one _ Halpha).
    + now rewrite (not_opaque_when_alpha_is_less _ Halpha).
  - intros Hrec Hcol st.
    destruct (intersection_picture_buffer hl bg st csgobj Hrec Hcol Hgeom)
      as (st' & added & s & Hbuild & Hstates & Hs & Hpic).
    exists st', added, s.
    split; [exact Hbuild|]. split; [exact Hstates|]. split; [exact Hs|].
    intros resolved. fold (shader_color E (colormode_of hl bg MATERIAL)
                             (color (leaf csgobj))) in Hpic.
    fold resolved in Hpic.
    split; intros Halpha showedges shaderinfo; rewrite Hpic.
    + now rewrite (is_opaque_when_alpha_is_one _ Halpha).
    + now rewrite (not_opaque_when_alpha_is_less _ Halpha).
Qed.

(** The statement of C3 on the sample scene: the opaque leaf in the
    immediate path, the half-transparent one in the buffer-build path. *)
Lemma C3_witness :
  culling_and_surfaces
    (render_intersection Sample.env None false false Sample.solid)
  = [call_render_surface Sample.cube
       (get_csgmode Sample.env false false None)
       (matrix (leaf Sample.solid)) None]
  /\ exists st' added s,
       build_intersection Sample.env false false
         (product_start Sample.env 1 36 1) Sample.pane = Ok st'
       /\ vertex_states st' =
          vertex_states (product_start Sample.env 1 36 1) ++ added
       /\ vs_class s = OpenCSGVertexState 4
       /\ forall showedges shaderinfo,
            culling_and_surfaces
              (flat_map (replay_state showedges shaderinfo) added)
            = [glEnable GL_CULL_FACE; glCullFace GL_FRONT; draw_range s;
               glCullFace GL_BACK; draw_range s; glDisable GL_CULL_FACE].
Proof.
  split.
  - destruct (@C3_intersection_leaf_follows_the_transparency_rule
                Sample.env false false Sample.solid Sample.cube eq_refl)
      as [Himm _].
    apply (proj1 (Himm None)). reflexivity.
  - destruct (@C3_intersection_leaf_follows_the_transparency_rule
                Sample.env false false Sample.pane Sample.cube eq_refl)
      as [_ Hbuf].
    destruct (Hbuf sample_records_one_surface
                sample_addColor_adds_no_surface
                (product_start Sample.env 1 36 1))
      as (st' & added & s & Hbuild & Hstates & Hs & _ & Hless).
    exists st', added, s.
    split; [exact Hbuild|]. split; [exact Hstates|]. split; [exact Hs|].
    apply Hless. reflexivity.
Defined.

(** ** The replay, state by state *)

Lemma render_vbo_product_states showedges shaderinfo vp :
  render_vbo_product showedges shaderinfo vp =
  replay_head showedges shaderinfo vp
  ++ flat_map (state_replay showedges shaderinfo) (vp_states vp)
  ++ replay_tail showedges shaderinfo.
Proof.
  unfold render_vbo_product, replay_head, replay_tail.
  rewrite <- !app_assoc. do 2 f_equal.
  rewrite (flat_map_ext (replay_state showedges shaderinfo)
             (state_replay showedges shaderinfo)
             (replay_state_spelled showedges shaderinfo)).
  reflexivity.
Qed.

Lemma replay_head_calls showedges shaderinfo vp :
  Forall (fun e => is_replay_call e = false)
    (replay_head showedges shaderinfo vp).
Proof.
  unfold replay_head. apply Forall_app; split.
  - destruct (1 <? _); repeat constructor.
  - destruct shaderinfo as [si|]; [|constructor].
    destruct (progid si =? 0)%N; [constructor|].
    destruct (is_edge si && showedges); repeat constructor.
Qed.

Lemma replay_tail_calls showedges shaderinfo :
  Forall (fun e => is_replay_call e = false)
    (replay_tail showedges shaderinfo).
Proof.
  unfold replay_tail. apply Forall_app; split; [|repeat constructor].
  destruct shaderinfo as [si|]; [|constructor].
  destruct (progid si =? 0)%N; [constructor|].
  destruct (is_edge si && showedges); repeat constructor.
Qed.

(** C7, as the code has it.  In the buffer-build path a frame is, product
    by product in the order of the retained list: calls that are neither
    closures, draws, culling changes nor selection colours; then, for
    each retained vertex state in the order of the product's list, what
    [state_replay] gives; then the same kind of calls as at the start.  A
    shader state contributes nothing when edges are off.  Every other
    state contributes the selection colour, when it carries a leaf index
    and the shader is a selection shader, then its pre-draw callbacks, its
    draw call and its post-draw callbacks. *)
Theorem C7_replay_of_retained_states :
  forall (F : Features) (E : Env) (r : OpenCSGRenderer) (showedges : bool)
         (shaderinfo : option shaderinfo_t),
    ExperimentalVxORenderers F = true ->
    let si := effective_shader E showedges shaderinfo in
    draw F E r showedges shaderinfo =
    flat_map (fun vp =>
                replay_head showedges si vp
                ++ flat_map (state_replay showedges si) (vp_states vp)
                ++ replay_tail showedges si)
      (vbo_vertex_products r)
    /\ (forall vp,
          Forall (fun e => is_replay_call e = false)
            (replay_head showedges si vp))
    /\ Forall (fun e => is_replay_call e = false)
         (replay_tail showedges si)
    /\ (forall vs,
          is_shader_state vs = true -> showedges = false ->
          state_replay showedges si vs = [])
    /\ (forall vs,
          is_shader_state vs = false \/ showedges = true ->
          state_replay showedges si vs =
          match as_OpenCSGVertexState vs, si with
          | Some i, Some s =>
              if is_select s then
                [glUniform3f (select_identifier s) (channel (Z.of_N i) 0)
                   (channel (Z.of_N i) 8) (channel (Z.of_N i) 16)]
              else []
          | _, _ => []
          end
          ++ flat_map run_closure (glBegin vs) ++ [draw_range vs]
          ++ flat_map run_closure (glEnd vs)).
Proof.
  intros F E r showedges shaderinfo HF si.
  split; [|split; [|split; [|split]]].
  - unfold draw, renderCSGProducts. rewrite HF. cbn [negb]. fold si.
    apply flat_map_ext. intros vp. apply render_vbo_product_states.
  - intros vp. apply replay_head_calls.
  - apply replay_tail_calls.
  - intros vs Hshader ->. unfold state_replay, selection_encoding.
    rewrite Hshader. cbn [andb negb].
    unfold is_shader_state in Hshader. unfold as_OpenCSGVertexState.
    destruct (vs_class vs); try discriminate. reflexivity.
  - intros vs Hgate.
    unfold state_replay. rewrite <- replay_state_spelled.
    unfold replay_state, VertexState_draw.
    f_equal.
    destruct Hgate as [Hplain | Hedges].
    + rewrite Hplain. reflexivity.
    + rewrite Hedges. destruct (is_shader_state vs); reflexivity.
Qed.

(** The statement of C7 on the sample scene. *)
Lemma C7_witness :
  draw Sample.buffered Sample.env (self (fst Sample.prepared)) false
    (Some Sample.select_shader) =
  flat_map (fun vp =>
              replay_head false (Some Sample.select_shader) vp
              ++ flat_map (state_replay false (Some Sample.select_shader))
                   (vp_states vp)
              ++ replay_tail false (Some Sample.select_shader))
    (vbo_vertex_products (self (fst Sample.prepared)))
  /\ state_replay false (Some Sample.select_shader)
       (set_csgObjectIndex 3 (state_of (Sample.recorded 1)))
     = [glUniform3f 2 (channel 3 0) (channel 3 8) (channel 3 16)]
       ++ [run_external 1; run_external 2; run_external 3]
       ++ [draw_range (set_csgObjectIndex 3 (state_of (Sample.recorded 1)))]
       ++ [run_external 4; run_external 5].
Proof.
  destruct (@C7_replay_of_retained_states Sample.buffered Sample.env
              (self (fst Sample.prepared)) false
              (Some Sample.select_shader) eq_refl)
    as (Hframe & _ & _ & _ & Hstate).
  split; [exact Hframe|].
  exact (Hstate (set_csgObjectIndex 3 (state_of (Sample.recorded 1)))
           (or_introl eq_refl)).
Defined.

(** ** The colour of a first leaf the resolver leaves alone *)

(** C10 as the spec words it fails: a product whose only leaf is one the
    resolver declines to override.  No earlier leaf of the product
    resolved a colour, and the colour handed to the helpers for the leaf
    is the default-constructed [last_color] of line 164. *)
Lemma C10_first_declined_leaf_gets_the_default_colour :
  let product := mkProduct [Sample.plain] [] in
  let start := product_start Sample.env 1 36 1 in
  leaf_sequence product = [(Intersection, Sample.plain)]
  /\ getShaderColor Sample.env MATERIAL (color (leaf Sample.plain)) = None
  /\ last_color start = Color4f_new Sample.env
  /\ exists st,
       build_leaves Sample.env false false start product = Ok st
       /\ trace st =
          trace start
          ++ [call_addColor (Color4f_new Sample.env);
              call_create_surface Sample.cube
                (csgmode_for Sample.env false false Intersection)
                (matrix (leaf Sample.plain)) (Color4f_new Sample.env)]
       /\ last_color st = Color4f_new Sample.env
       /\ Color4f_new Sample.env <> color (leaf Sample.solid).
Proof.
  cbv zeta. split; [reflexivity|]. split; [reflexivity|].
  split; [reflexivity|]. eexists. split; [reflexivity|].
  split; [reflexivity|]. split; [reflexivity|]. discriminate.
Qed.

(** ** Frames that end with culling off *)

Lemma prepare_returns F E w shaderinfo :
  records_one_surface E ->
  exists w' t, prepare F E w shaderinfo = Ok (w', t).
Proof.
  intros Hrec. unfold prepare.
  destruct (_ && _); [|eexists; eexists; reflexivity].
  destruct (create_if_present_returns F (root_products (self w)) false false
              (w, []) Hrec) as (wt1 & ->).
  cbn [bind].
  destruct (create_if_present_returns F
              (background_products (self (fst wt1))) false true wt1 Hrec)
    as (wt2 & ->).
  cbn [bind].
  destruct (create_if_present_returns F
              (highlights_products (self (fst wt2))) true false wt2 Hrec)
    as ([w' t] & ->).
  exists w', t. reflexivity.
Qed.

Lemma render_product_culling E showedges shaderinfo hl bg product :
  culling_after (render_product E showedges shaderinfo hl bg product) false
  = false.
Proof.
  rewrite render_product_split.
  unfold immediate_body. repeat apply culling_off_app.
  - destruct (1 <? _); reflexivity.
  - destruct shaderinfo as [s|]; [|reflexivity].
    destruct (progid s =? 0)%N; [reflexivity|].
    destruct (negb _ || _); reflexivity.
  - apply culling_off_flat_map. intros.
    apply render_intersection_culling.
  - apply culling_off_flat_map. intros.
    apply render_subtraction_culling.
  - destruct shaderinfo; reflexivity.
  - reflexivity.
Qed.

Lemma render_vbo_product_culling showedges shaderinfo vp :
  culling_balanced (vp_states vp) ->
  culling_after (render_vbo_product showedges shaderinfo vp) false = false.
Proof.
  intros Hbal. rewrite render_vbo_product_split.
  unfold replay_body. repeat apply culling_off_app.
  - destruct (1 <? _); reflexivity.
  - destruct shaderinfo as [s|]; [|reflexivity].
    destruct (progid s =? 0)%N; [reflexivity|].
    destruct (is_edge s && showedges); reflexivity.
  - apply Hbal.
  - destruct shaderinfo as [s|]; [|reflexivity].
    destruct (progid s =? 0)%N; [reflexivity|].
    destruct (is_edge s && showedges); reflexivity.
  - reflexivity.
Qed.

(** A frame that starts with face culling off ends with face culling off.
    In the immediate path this holds of every frame, with or without
    [prepare].  In the buffer-build path it holds of every frame drawn
    after [prepare], which returns, on a renderer that retained nothing
    yet and with helpers that record one surface state per write, so that
    no assertion of the build is reached.  The closures the helpers
    recorded are opaque calls here: they are counted as leaving face
    culling as they found it. *)
Theorem draw_leaves_culling_off :
  forall (F : Features) (E : Env),
    (ExperimentalVxORenderers F = false ->
     forall r showedges shaderinfo,
       culling_after (draw F E r showedges shaderinfo) false = false)
    /\ (records_one_surface E ->
        forall w shaderinfo,
          vbo_vertex_products (self w) = [] ->
          exists w' t,
            prepare F E w shaderinfo = Ok (w', t)
            /\ forall showedges shaderinfo',
                 culling_after
                   (draw F E (self w') showedges shaderinfo') false
                 = false).
Proof.
  intros F E. split.
  - intros HF r showedges shaderinfo.
    unfold draw, renderCSGProducts, when_present. rewrite HF. cbn [negb].
    repeat apply culling_off_app;
      match goal with
      | |- culling_after match ?g with Some _ => _ | None => _ end _ = _ =>
          destruct g; [|reflexivity]
      end;
      apply culling_off_flat_map; intros; apply render_product_culling.
  - intros Hrec w shaderinfo Hfresh.
    destruct (prepare_returns F w shaderinfo Hrec) as (w' & t & Hprep).
    exists w', t. split; [exact Hprep|].
    intros showedges shaderinfo'.
    apply draw_frame_property
      with (P := fun t => culling_after t false = false)
           (Q := fun vp => culling_balanced (vp_states vp)).
    + reflexivity.
    + apply culling_off_app.
    + intros. apply render_product_culling.
    + intros si vp Hbal. now apply render_vbo_product_culling.
    + eapply prepare_retained; [|rewrite Hfresh; constructor | exact Hprep].
      intros hl bg product vp. apply built_from_culling_balanced.
Qed.

Lemma draw_leaves_culling_off_witness :
  culling_after
    (draw (mkFeatures false false false false) Sample.env
       (self (Sample.renderer
                [mkProduct [Sample.solid; Sample.pane] [Sample.solid]]))
       false None) false = false
  /\ exists w' t,
       prepare Sample.buffered Sample.env
         (Sample.renderer
            [mkProduct [Sample.solid; Sample.pane] [Sample.solid]])
         None = Ok (w', t)
       /\ forall showedges shaderinfo',
            culling_after
              (draw Sample.buffered Sample.env (self w') showedges
                 shaderinfo') false = false.
Proof.
  split.
  - apply (proj1 (draw_leaves_culling_off
                    (mkFeatures false false false false) Sample.env)).
    reflexivity.
  - apply (proj2 (draw_leaves_culling_off Sample.buffered Sample.env)
             sample_records_one_surface).
    reflexivity.
Defined.

(** ** What the compositor runs *)

(** After [prepare], which returns on a renderer that retained nothing
    yet and with helpers that record one surface state per write, the
    render callback of every retained primitive is: the first two pre-draw
    closures of a retained surface state of the same product, one draw
    call on the primitive's own state, and the first post-draw closure of
    that surface state.  All closures of that surface state were recorded
    by the helpers: none of the culling closures this file writes is run
    inside the compositor. *)
Theorem retained_primitives_run_helper_closures_only :
  forall (F : Features) (E : Env) (w : World)
         (shaderinfo : option shaderinfo_t),
    records_one_surface E ->
    vbo_vertex_products (self w) = [] ->
    exists w' t,
      prepare F E w shaderinfo = Ok (w', t)
      /\ Forall (fun vp =>
                   Forall (fun p =>
                             exists vs,
                               In vs (vp_states vp)
                               /\ as_OpenCSGVertexState vs <> None
                               /\ helper_written vs
                               /\ OpenCSGVBOPrim_render p =
                                  flat_map run_closure
                                    (firstn 2 (glBegin vs))
                                  ++ [draw_range (vprim_vertex_state p)]
                                  ++ flat_map run_closure
                                       (firstn 1 (glEnd vs)))
                     (vp_primitives vp))
           (vbo_vertex_products (self w')).
Proof.
  intros F E w shaderinfo Hrec Hfresh.
  destruct (prepare_returns F w shaderinfo Hrec) as (w' & t & Hprep).
  exists w', t. split; [exact Hprep|].
  eapply prepare_retained; [|rewrite Hfresh; constructor | exact Hprep].
  intros hl bg product vp Hbuilt.
  destruct (built_from_well_built Hbuilt) as [Hstates Hprims].
  eapply Forall_impl; [|exact Hprims].
  intros p (vs & Hin & Hs & Hcopy).
  rewrite Forall_forall in Hstates.
  exists vs. split; [exact Hin|]. split; [exact Hs|].
  split; [exact (surface_is_helper_written (Hstates _ Hin) Hs)|].
  unfold OpenCSGVBOPrim_render, VertexState_draw.
  unfold copied_from in Hcopy. rewrite Hcopy at 1 3.
  reflexivity.
Qed.

Lemma retained_primitives_run_helper_closures_only_witness :
  exists w' t,
    prepare Sample.buffered Sample.env
      (Sample.renderer
         [mkProduct [Sample.solid; Sample.pane] [Sample.solid]])
      None = Ok (w', t)
    /\ Forall (fun vp =>
                 Forall (fun p =>
                           exists vs,
                             In vs (vp_states vp)
                             /\ as_OpenCSGVertexState vs <> None
                             /\ helper_written vs
                             /\ OpenCSGVBOPrim_render p =
                                flat_map run_closure
                                  (firstn 2 (glBegin vs))
                                ++ [draw_range (vprim_vertex_state p)]
                                ++ flat_map run_closure
                                     (firstn 1 (glEnd vs)))
                   (vp_primitives vp))
         (vbo_vertex_products (self w')).
Proof.
  apply (@retained_primitives_run_helper_closures_only Sample.buffered
           Sample.env
           (Sample.renderer
              [mkProduct [Sample.solid; Sample.pane] [Sample.solid]])
           None sample_records_one_surface).
  reflexivity.
Defined.
